(** * gcal-cli: retry executor, availability engine, bulk executor,
    multi-calendar aggregator and natural-language date parser

  A shallow embedding of the Go sources

    - pkg/types/errors.go            (AppError and its constructors)
    - pkg/calendar/client.go         (Client, withRetry, isRetryable)
    - pkg/calendar/freebusy.go       (QueryFreeBusy, IsBusy, FindFreeSlots,
                                      CheckConflicts)
    - pkg/calendar/multi_calendar.go (ListEventsMultiCalendar,
                                      FindCommonFreeTime,
                                      sortMultiCalendarEvents)
    - pkg/calendar/batch.go          (BatchCreateEvents, BatchUpdateEvents,
                                      BatchDeleteEvents, GetBatchSummary)
    - pkg/calendar/nlp_dates.go      (ParseNaturalLanguageDate and the
                                      matchers below it)

  followed by the properties of the specification that concern them.

  Conventions.  Go's [int], [int64] and [time.Duration] are integers in
  [Z] with the 64-bit wrap-around written out ([wrap64]).  A Go [error]
  is [option GoError] ([None] is [nil]).  Loops whose trip count is not
  bounded by the data take a [fuel : nat] and answer [None] when it runs
  out; the theorems then say how much fuel gives the result, or that no
  amount does.  Goroutines are run under an explicit schedule. *)

From Stdlib Require Import ZArith Lia Bool List Ascii String Sorted OrderedTypeEx.
From stdpp Require Import base list gmap strings.
Import ListNotations.

Set Warnings "-register-all".

Local Open Scope Z_scope.

(* ===================================================================== *)
(** * Machine integers *)
(* ===================================================================== *)

Module GoInt.

Definition maxInt64 : Z := 2 ^ 63 - 1.
Definition minInt64 : Z := - 2 ^ 63.

(** Two's-complement reduction of an integer to the [int64] range. *)
Definition wrap64 (x : Z) : Z := (x + 2 ^ 63) mod 2 ^ 64 - 2 ^ 63.

(** [x << k] on an [int64] with an unsigned shift count: counts of 64 and
    more shift every bit out. *)
Definition shl64 (x k : Z) : Z :=
  if 64 <=? k then 0 else wrap64 (Z.shiftl x k).

(** The conversion [uint(n)] of an [int]. *)
Definition toUint (n : Z) : Z := n mod 2 ^ 64.

End GoInt.

(* ===================================================================== *)
(** * Strings (package strings, strconv, fmt) *)
(* ===================================================================== *)

Module GoStrings.

Local Open Scope string_scope.
Local Open Scope Z_scope.

Definition byteOf (c : ascii) : Z := Z.of_nat (nat_of_ascii c).

Definition isDigit (c : ascii) : bool :=
  (48 <=? byteOf c) && (byteOf c <=? 57).

Definition digitVal (c : ascii) : Z := byteOf c - 48.

Definition digitChar (d : Z) : ascii := ascii_of_nat (Z.to_nat (48 + d)).

(** unicode.IsSpace on the ASCII range: tab, newline, vertical tab, form
    feed, carriage return and space (bytes of 0x80 and above are left to
    the caller's encoding and never count as space here). *)
Definition isSpace (c : ascii) : bool :=
  let b := byteOf c in
  (b =? 9) || (b =? 10) || (b =? 11) || (b =? 12) || (b =? 13) || (b =? 32).

(** The class [\s] of package regexp: tab, newline, form feed, carriage
    return and space. *)
Definition isReSpace (c : ascii) : bool :=
  let b := byteOf c in
  (b =? 9) || (b =? 10) || (b =? 12) || (b =? 13) || (b =? 32).

Definition isNewline (c : ascii) : bool := byteOf c =? 10.

Definition lowerChar (c : ascii) : ascii :=
  let b := byteOf c in
  if (65 <=? b) && (b <=? 90) then ascii_of_nat (Z.to_nat (b + 32)) else c.

(** strings.ToLower, on ASCII letters. *)
Fixpoint ToLower (s : string) : string :=
  match s with
  | EmptyString => EmptyString
  | String c r => String (lowerChar c) (ToLower r)
  end.

Fixpoint trimLeft (s : string) : string :=
  match s with
  | String c r => if isSpace c then trimLeft r else s
  | EmptyString => EmptyString
  end.

Fixpoint rev_append (s acc : string) : string :=
  match s with
  | EmptyString => acc
  | String c r => rev_append r (String c acc)
  end.

Definition rev (s : string) : string := rev_append s EmptyString.

(** strings.TrimSpace. *)
Definition TrimSpace (s : string) : string := rev (trimLeft (rev (trimLeft s))).

(** strings.HasPrefix / strings.TrimPrefix. *)
Fixpoint stripPrefix (p s : string) : option string :=
  match p, s with
  | EmptyString, _ => Some s
  | String a p', String b s' =>
      if Ascii.eqb a b then stripPrefix p' s' else None
  | String _ _, EmptyString => None
  end.

Definition HasPrefix (s p : string) : bool :=
  match stripPrefix p s with Some _ => true | None => false end.

Definition TrimPrefix (s p : string) : string :=
  match stripPrefix p s with Some r => r | None => s end.

Fixpoint digitsOf (fuel : nat) (n : Z) (acc : string) : string :=
  match fuel with
  | O => acc
  | S f =>
      let acc' := String (digitChar (n mod 10)) acc in
      if n <? 10 then acc' else digitsOf f (n / 10) acc'
  end.

(** Decimal digits of a non-negative integer. *)
Definition utoa (n : Z) : string := digitsOf (S (Z.to_nat (Z.log2 n))) n "".

(** strconv.Itoa and the verb [%d]. *)
Definition itoa (n : Z) : string :=
  if n <? 0 then String "-" (utoa (- n)) else utoa n.

Fixpoint zeros (k : nat) : string :=
  match k with O => "" | S j => String "0" (zeros j) end.

(** appendInt of package time: at least [width] digits, zero padded, with
    a leading minus sign for negative numbers. *)
Definition appendInt (n : Z) (width : nat) : string :=
  let d := utoa (Z.abs n) in
  let pad := zeros (width - String.length d)%nat in
  if n <? 0 then String "-" (pad ++ d) else pad ++ d.

(** Value of a string of decimal digits (no sign), [None] when a byte is
    not a digit or the string is empty. *)
Fixpoint atouAcc (s : string) (acc : Z) : option Z :=
  match s with
  | EmptyString => Some acc
  | String c r => if isDigit c then atouAcc r (10 * acc + digitVal c) else None
  end.

Definition atou (s : string) : option Z :=
  match s with EmptyString => None | _ => atouAcc s 0 end.

(** Leading run of bytes satisfying [p], and the rest. *)
Fixpoint span (p : ascii -> bool) (s : string) : string * string :=
  match s with
  | String c r =>
      if p c then let '(a, b) := span p r in (String c a, b) else ("", s)
  | EmptyString => ("", "")
  end.

(** The first [n] bytes and the rest, when there are that many. *)
Fixpoint splitAt (n : nat) (s : string) : option (string * string) :=
  match n, s with
  | O, _ => Some ("", s)
  | S k, String c r =>
      match splitAt k r with
      | Some (a, b) => Some (String c a, b)
      | None => None
      end
  | S _, EmptyString => None
  end.

End GoStrings.

(* ===================================================================== *)
(** * Package time *)
(* ===================================================================== *)

(** The standard library is not part of the repository.  What the sources
  use of it is modelled here: instants, locations with their zone
  transitions, the civil calendar, [time.Date], [Format] for RFC 3339 and
  [Parse] for the layouts the sources pass.  An instant is an unbounded
  count of nanoseconds since the Unix epoch, so the library's
  representation limits (some 292 billion years) are outside the model. *)

Module GoTime.

Import GoInt GoStrings.
Local Open Scope string_scope.
Local Open Scope Z_scope.

(** ** Durations *)

Definition Nanosecond : Z := 1.
Definition Second : Z := 1000000000.
Definition Minute : Z := 60 * Second.
Definition Hour : Z := 60 * Minute.

(** ** Locations *)

(** A location is a zone table: the offset (seconds east of UTC) in force
    before the first transition, and the transitions in increasing order,
    each giving the Unix second from which its offset applies. *)
Record Location := mkLocation {
  locName : string;
  locBase : Z;
  locTrans : list (Z * Z)
}.

Definition UTC : Location :=
  {| locName := "UTC"; locBase := 0; locTrans := [] |}.

Definition FixedZone (name : string) (offset : Z) : Location :=
  {| locName := name; locBase := offset; locTrans := [] |}.

Fixpoint lookupFrom (trans : list (Z * Z)) (sec off : Z) (start : option Z)
  : Z * option Z * option Z :=
  match trans with
  | [] => (off, start, None)
  | (t, o) :: rest =>
      if sec <? t then (off, start, Some t) else lookupFrom rest sec o (Some t)
  end.

(** Location.lookup: the offset in force at a Unix second and the bounds
    of the period it belongs to ([None] is an open end). *)
Definition lookup (l : Location) (sec : Z) : Z * option Z * option Z :=
  lookupFrom (locTrans l) sec (locBase l) None.

Definition offsetAt (l : Location) (sec : Z) : Z := fst (fst (lookup l sec)).

(** ** Instants *)

Record Time := mkTime {
  unixNano : Z;
  loc : Location
}.

Definition unixSec (t : Time) : Z := unixNano t / Second.

Definition Before (t u : Time) : bool := unixNano t <? unixNano u.
Definition After (t u : Time) : bool := unixNano u <? unixNano t.
Definition Equal (t u : Time) : bool := unixNano t =? unixNano u.

Definition Add (t : Time) (d : Z) : Time :=
  {| unixNano := unixNano t + d; loc := loc t |}.

Definition In (t : Time) (l : Location) : Time :=
  {| unixNano := unixNano t; loc := l |}.

(** The zero value [time.Time{}]: January 1 of year 1, 00:00:00 UTC. *)
Definition zeroTime : Time :=
  {| unixNano := (-62135596800) * Second; loc := UTC |}.

Definition IsZero (t : Time) : bool := unixNano t =? unixNano zeroTime.

(** ** The civil calendar (proleptic Gregorian) *)

Definition isLeap (y : Z) : bool :=
  (y mod 4 =? 0) && (negb (y mod 100 =? 0) || (y mod 400 =? 0)).

Definition daysBefore (m : Z) : Z :=
  nth (Z.to_nat (m - 1)) [0; 31; 59; 90; 120; 151; 181; 212; 243; 273; 304; 334] 0.

Definition daysIn (m y : Z) : Z :=
  if (m =? 2) && isLeap y then 29
  else nth (Z.to_nat (m - 1)) [31; 28; 31; 30; 31; 30; 31; 31; 30; 31; 30; 31] 0.

Definition leapsBefore (y : Z) : Z := (y - 1) / 4 - (y - 1) / 100 + (y - 1) / 400.

(** Days from 1970-01-01 to January 1 of year [y]. *)
Definition daysSinceEpoch (y : Z) : Z :=
  365 * (y - 1970) + (leapsBefore y - leapsBefore 1970).

(** Days from 1970-01-01 to the given date, for a month in 1..12; the day
    may lie outside the month and then runs into the neighbouring ones. *)
Definition dateToDays (y m d : Z) : Z :=
  daysSinceEpoch y + daysBefore m
  + (if isLeap y && (3 <=? m) then 1 else 0) + (d - 1).

(** Year, month and day of a day count from 1970-01-01. *)
Definition civilFromDays (z : Z) : Z * Z * Z :=
  let z := z + 719468 in
  let era := z / 146097 in
  let doe := z - era * 146097 in
  let yoe := (doe - doe / 1460 + doe / 36524 - doe / 146096) / 365 in
  let doy := doe - (365 * yoe + yoe / 4 - yoe / 100) in
  let mp := (5 * doy + 2) / 153 in
  let d := doy - (153 * mp + 2) / 5 + 1 in
  let m := if mp <? 10 then mp + 3 else mp - 9 in
  let y := yoe + era * 400 + (if m <=? 2 then 1 else 0) in
  (y, m, d).

(** time.Date: the fields may be outside their usual ranges and are
    normalised; the wall clock reading is then resolved in the location,
    looking the offset up once and, when the result falls outside the
    period found, once more. *)
Definition Date (year month day hour min sec nsec : Z) (l : Location) : Time :=
  let m := month - 1 in
  let year := year + m / 12 in
  let m := m mod 12 in
  let sec := sec + nsec / Second in
  let nsec := nsec mod Second in
  let unix := dateToDays year (m + 1) day * 86400 + hour * 3600 + min * 60 + sec in
  let '(offset, start, stop) := lookup l unix in
  let unix :=
    if offset =? 0 then unix
    else
      let utc := unix - offset in
      let before := match start with Some s => utc <? s | None => false end in
      let after := match stop with Some e => e <=? utc | None => false end in
      if before || after then unix - offsetAt l utc else unix - offset in
  {| unixNano := unix * Second + nsec; loc := l |}.

(** Seconds since the epoch of the wall clock shown in the time's own
    location. *)
Definition absSec (t : Time) : Z := unixSec t + offsetAt (loc t) (unixSec t).

Definition Year (t : Time) : Z := fst (fst (civilFromDays (absSec t / 86400))).
Definition Month (t : Time) : Z := snd (fst (civilFromDays (absSec t / 86400))).
Definition Day (t : Time) : Z := snd (civilFromDays (absSec t / 86400)).
Definition HourOf (t : Time) : Z := (absSec t mod 86400) / 3600.
Definition MinuteOf (t : Time) : Z := (absSec t mod 3600) / 60.
Definition SecondOf (t : Time) : Z := absSec t mod 60.
Definition NanosecondOf (t : Time) : Z := unixNano t mod Second.

(** time.Weekday: Sunday is 0; 1970-01-01 was a Thursday. *)
Definition Weekday (t : Time) : Z := (absSec t / 86400 + 4) mod 7.

Definition AddDate (t : Time) (years months days : Z) : Time :=
  Date (Year t + years) (Month t + months) (Day t + days)
       (HourOf t) (MinuteOf t) (SecondOf t) (NanosecondOf t) (loc t).

(** ** Formatting *)

(** The element [Z07:00] of a layout. *)
Definition formatZone (offset : Z) : string :=
  if offset =? 0 then "Z"
  else
    let zone := Z.quot offset 60 in
    (if zone <? 0 then "-" else "+")
      ++ appendInt (Z.abs zone / 60) 2 ++ ":" ++ appendInt (Z.abs zone mod 60) 2.

(** [t.Format(time.RFC3339)], layout [2006-01-02T15:04:05Z07:00]. *)
Definition FormatRFC3339 (t : Time) : string :=
  appendInt (Year t) 4 ++ "-" ++ appendInt (Month t) 2 ++ "-" ++ appendInt (Day t) 2
    ++ "T" ++ appendInt (HourOf t) 2 ++ ":" ++ appendInt (MinuteOf t) 2
    ++ ":" ++ appendInt (SecondOf t) 2
    ++ formatZone (offsetAt (loc t) (unixSec t)).

(** ** Parsing *)

(** The elements of a layout that the sources use, in the order
    [nextStdChunk] finds them; [lit] is literal text between them. *)
Inductive Chunk :=
| stdLongYear         (* 2006 *)
| stdZeroMonth        (* 01 *)
| stdZeroDay          (* 02 *)
| stdHour             (* 15 *)
| stdHour12           (* 3 *)
| stdZeroMinute       (* 04 *)
| stdZeroSecond       (* 05 *)
| stdpm               (* pm *)
| stdISO8601ColonTZ   (* Z07:00 *)
| lit (s : string).

(** time.RFC3339 = [2006-01-02T15:04:05Z07:00]. *)
Definition RFC3339 : list Chunk :=
  [stdLongYear; lit "-"; stdZeroMonth; lit "-"; stdZeroDay; lit "T";
   stdHour; lit ":"; stdZeroMinute; lit ":"; stdZeroSecond; stdISO8601ColonTZ].

Inductive ZoneSpec := NoZone | ZoneUTC | ZoneOffset (seconds : Z).

Record Fields := mkFields {
  fYear : Z; fMonth : Z; fDay : Z;
  fHour : Z; fMin : Z; fSec : Z; fNsec : Z;
  fPM : bool; fAM : bool;
  fZone : ZoneSpec
}.

(** Elements a layout omits are zero or, where zero is impossible, one. *)
Definition noFields : Fields :=
  {| fYear := 0; fMonth := 1; fDay := 1; fHour := 0; fMin := 0; fSec := 0;
     fNsec := 0; fPM := false; fAM := false; fZone := NoZone |}.

(** getnum: one or two digits, exactly two when [fixed]. *)
Definition getnum (s : string) (fixed : bool) : option (Z * string) :=
  match s with
  | String a r =>
      if isDigit a then
        match r with
        | String b r' =>
            if isDigit b then Some (digitVal a * 10 + digitVal b, r')
            else if fixed then None else Some (digitVal a, r)
        | EmptyString => if fixed then None else Some (digitVal a, r)
        end
      else None
  | EmptyString => None
  end.

Definition commaOrPeriod (c : ascii) : bool :=
  (byteOf c =? 46) || (byteOf c =? 44).

(** parseNanoseconds on the digits after the separator: at most nine are
    kept and scaled to nanoseconds. *)
Definition parseNanoseconds (digits : string) : Z :=
  let kept := match splitAt 9 digits with Some (a, _) => a | None => digits end in
  match atou kept with
  | Some n => n * 10 ^ (9 - Z.of_nat (String.length kept))
  | None => 0
  end.

(** A fractional second in the value that the layout does not announce
    is accepted after the seconds. *)
Definition fractionAfterSeconds (value : string) : Z * string :=
  match value with
  | String c (String d r) =>
      if commaOrPeriod c && isDigit d then
        let '(ds, rest) := span isDigit (String d r) in
        (parseNanoseconds ds, rest)
      else (0, value)
  | _ => (0, value)
  end.

Definition parseChunk (c : Chunk) (f : Fields) (value : string)
  : option (Fields * string) :=
  match c with
  | lit p =>
      match stripPrefix p value with
      | Some v => Some (f, v)
      | None => None
      end
  | stdLongYear =>
      match splitAt 4 value with
      | Some (p, v) =>
          match atou p with
          | Some y =>
              Some (mkFields y (fMonth f) (fDay f) (fHour f) (fMin f) (fSec f)
                      (fNsec f) (fPM f) (fAM f) (fZone f), v)
          | None => None
          end
      | None => None
      end
  | stdZeroMonth =>
      match getnum value true with
      | Some (m, v) =>
          if (m <=? 0) || (12 <? m) then None
          else Some (mkFields (fYear f) m (fDay f) (fHour f) (fMin f) (fSec f)
                       (fNsec f) (fPM f) (fAM f) (fZone f), v)
      | None => None
      end
  | stdZeroDay =>
      match getnum value true with
      | Some (d, v) =>
          Some (mkFields (fYear f) (fMonth f) d (fHour f) (fMin f) (fSec f)
                  (fNsec f) (fPM f) (fAM f) (fZone f), v)
      | None => None
      end
  | stdHour =>
      match getnum value false with
      | Some (h, v) =>
          if (h <? 0) || (24 <=? h) then None
          else Some (mkFields (fYear f) (fMonth f) (fDay f) h (fMin f) (fSec f)
                       (fNsec f) (fPM f) (fAM f) (fZone f), v)
      | None => None
      end
  | stdHour12 =>
      match getnum value false with
      | Some (h, v) =>
          if (h <? 0) || (12 <? h) then None
          else Some (mkFields (fYear f) (fMonth f) (fDay f) h (fMin f) (fSec f)
                       (fNsec f) (fPM f) (fAM f) (fZone f), v)
      | None => None
      end
  | stdZeroMinute =>
      match getnum value true with
      | Some (m, v) =>
          if (m <? 0) || (60 <=? m) then None
          else Some (mkFields (fYear f) (fMonth f) (fDay f) (fHour f) m (fSec f)
                       (fNsec f) (fPM f) (fAM f) (fZone f), v)
      | None => None
      end
  | stdZeroSecond =>
      match getnum value true with
      | Some (s, v) =>
          if (s <? 0) || (60 <=? s) then None
          else
            let '(ns, v') := fractionAfterSeconds v in
            Some (mkFields (fYear f) (fMonth f) (fDay f) (fHour f) (fMin f) s
                    ns (fPM f) (fAM f) (fZone f), v')
      | None => None
      end
  | stdpm =>
      match splitAt 2 value with
      | Some (p, v) =>
          if String.eqb p "pm" then
            Some (mkFields (fYear f) (fMonth f) (fDay f) (fHour f) (fMin f)
                    (fSec f) (fNsec f) true (fAM f) (fZone f), v)
          else if String.eqb p "am" then
            Some (mkFields (fYear f) (fMonth f) (fDay f) (fHour f) (fMin f)
                    (fSec f) (fNsec f) (fPM f) true (fZone f), v)
          else None
      | None => None
      end
  | stdISO8601ColonTZ =>
      match value with
      | String "Z" v =>
          Some (mkFields (fYear f) (fMonth f) (fDay f) (fHour f) (fMin f)
                  (fSec f) (fNsec f) (fPM f) (fAM f) ZoneUTC, v)
      | String sign (String h1 (String h2 (String ":" (String m1 (String m2 v))))) =>
          match getnum (String h1 (String h2 "")) true,
                getnum (String m1 (String m2 "")) true with
          | Some (hr, _), Some (mm, _) =>
              if (24 <? hr) || (60 <? mm) then None
              else
                let off := (hr * 60 + mm) * 60 in
                if Ascii.eqb sign "+" then
                  Some (mkFields (fYear f) (fMonth f) (fDay f) (fHour f) (fMin f)
                          (fSec f) (fNsec f) (fPM f) (fAM f) (ZoneOffset off), v)
                else if Ascii.eqb sign "-" then
                  Some (mkFields (fYear f) (fMonth f) (fDay f) (fHour f) (fMin f)
                          (fSec f) (fNsec f) (fPM f) (fAM f) (ZoneOffset (- off)), v)
                else None
          | _, _ => None
          end
      | _ => None
      end
  end.

Fixpoint parseChunks (layout : list Chunk) (f : Fields) (value : string)
  : option Fields :=
  match layout with
  | [] => match value with EmptyString => Some f | _ => None end
  | c :: rest =>
      match parseChunk c f value with
      | Some (f', v) => parseChunks rest f' v
      | None => None
      end
  end.

(** time.Parse: [None] stands for a non-nil error (the zero [Time] is then
    what the caller receives). *)
Definition Parse (layout : list Chunk) (value : string) : option Time :=
  match parseChunks layout noFields value with
  | None => None
  | Some f =>
      let hour :=
        if fPM f && (fHour f <? 12) then fHour f + 12
        else if fAM f && (fHour f =? 12) then 0
        else fHour f in
      if (fDay f <? 1) || (daysIn (fMonth f) (fYear f) <? fDay f) then None
      else
        let t := Date (fYear f) (fMonth f) (fDay f) hour (fMin f) (fSec f) (fNsec f) UTC in
        match fZone f with
        | NoZone | ZoneUTC => Some t
        | ZoneOffset off =>
            Some {| unixNano := unixNano t - off * Second; loc := FixedZone "" off |}
        end
  end.

(** The value of [t, _ := time.Parse(layout, value)] with the error
    dropped. *)
Definition ParseOrZero (layout : list Chunk) (value : string) : Time :=
  match Parse layout value with Some t => t | None => zeroTime end.

End GoTime.

(* ===================================================================== *)
(** * pkg/types/errors.go *)
(* ===================================================================== *)

Module Types.

Import GoStrings.
Local Open Scope string_scope.

Definition ErrCodeAuthFailed : string := "AUTH_FAILED".
Definition ErrCodeInvalidInput : string := "INVALID_INPUT".
Definition ErrCodeMissingRequired : string := "MISSING_REQUIRED".
Definition ErrCodeInvalidTimeRange : string := "INVALID_TIME_RANGE".
Definition ErrCodeNotFound : string := "NOT_FOUND".
Definition ErrCodeRateLimit : string := "RATE_LIMIT".
Definition ErrCodeAPIError : string := "API_ERROR".
Definition ErrCodePermissionDenied : string := "PERMISSION_DENIED".
Definition ErrCodeNetworkError : string := "NETWORK_ERROR".

(** The struct [AppError]; [E] is the type of the error it wraps. *)
Record AppErrorOf (E : Type) := mkAppError {
  Code : string;
  Message : string;
  Details : string;
  Recoverable : bool;
  SuggestedAction : string;
  wrapped : option E
}.
Arguments mkAppError {E}.
Arguments Code {E}.
Arguments Message {E}.
Arguments Details {E}.
Arguments Recoverable {E}.
Arguments SuggestedAction {E}.
Arguments wrapped {E}.

(** The values of Go's [error] interface that the sources tell apart by a
    type assertion: [*googleapi.Error], [*types.AppError], and every other
    error (such as [context.Canceled] or the result of [fmt.Errorf]). *)
Inductive GoError :=
| GoogleAPIError (code : Z) (message : string)
| AppErr (e : AppErrorOf GoError)
| OtherError (text : string).

Definition AppError : Type := AppErrorOf GoError.

Definition NewAppError (code message : string) (recoverable : bool) : AppError :=
  mkAppError code message "" recoverable "" None.

Definition WithDetails (e : AppError) (details : string) : AppError :=
  mkAppError (Code e) (Message e) details (Recoverable e) (SuggestedAction e) (wrapped e).

Definition WithSuggestedAction (e : AppError) (action : string) : AppError :=
  mkAppError (Code e) (Message e) (Details e) (Recoverable e) action (wrapped e).

Definition WithWrappedError (e : AppError) (err : option GoError) : AppError :=
  mkAppError (Code e) (Message e) (Details e) (Recoverable e) (SuggestedAction e) err.

Definition ErrAuthFailed (message : string) : AppError :=
  WithSuggestedAction (NewAppError ErrCodeAuthFailed message true)
    "Run 'gcal-cli auth login' to authenticate".

Definition ErrInvalidInput (field reason : string) : AppError :=
  WithDetails (NewAppError ErrCodeInvalidInput ("Invalid value for " ++ field) true) reason.

Definition ErrNotFound (resource id : string) : AppError :=
  WithDetails (NewAppError ErrCodeNotFound (resource ++ " not found") false) ("ID: " ++ id).

Definition ErrNetworkError (message : string) : AppError :=
  WithSuggestedAction (NewAppError ErrCodeNetworkError message true)
    "Check your internet connection and try again".

(** [var ErrAPIError = NewAppError(...)] is one package-level pointer;
    the [With...] methods assign its fields in place and hand the same
    pointer back.  Errors are passed by value here: an [AppError] is what
    the caller reads through the pointer when the call returns. *)
Definition ErrAPIError : AppError :=
  NewAppError ErrCodeAPIError "API operation failed" true.

End Types.

(* ===================================================================== *)
(** * google.golang.org/api/calendar/v3: what the sources exchange with
    the remote service *)
(* ===================================================================== *)

Module GCal.

Import Types.

Record TimePeriod := mkTimePeriod { Start : string; End : string }.

Record FreeBusyCalendar := mkFreeBusyCalendar {
  Busy : list TimePeriod;
  Errors : list (string * string)      (* Domain, Reason *)
}.

Record FreeBusyRequest := mkFreeBusyRequest {
  TimeMin : string;
  TimeMax : string;
  TimeZone : string;
  Items : list string
}.

Record EventDateTime := mkEventDateTime {
  DateTime : string;
  Date : string;
  EventTimeZone : string
}.

(** The fields of an event that the modelled functions read. *)
Record Event := mkEvent {
  Id : string;
  Summary : string;
  EventStart : option EventDateTime;
  EventEnd : option EventDateTime
}.

(** The remote service.  A call answers with a value or with an error;
    the answer is a function of the request, i.e. the remote calendars
    do not change between the calls a property compares. *)
Record Service := mkService {
  FreebusyQuery : FreeBusyRequest -> gmap string FreeBusyCalendar + GoError;
  EventsList : string -> string -> string -> Z -> list Event + GoError
}.

End GCal.

(* ===================================================================== *)
(** * pkg/calendar/client.go *)
(* ===================================================================== *)

Module Client.

Import GoInt GoStrings GoTime Types.
Local Open Scope string_scope.
Local Open Scope Z_scope.

Record Client := mkClient {
  Service : option GCal.Service;
  CalendarID : string;
  MaxRetries : Z;
  RetryDelay : Z
}.

Definition NewClient (service : option GCal.Service) (calendarID : string) : Client :=
  {| Service := service; CalendarID := calendarID;
     MaxRetries := 3; RetryDelay := 1 * Second |}.

(** isRetryable: rate limiting and server errors of the remote API. *)
Definition isRetryable (err : GoError) : bool :=
  match err with
  | GoogleAPIError code _ =>
      (code =? 429) || (code =? 500) || (code =? 502) || (code =? 503) || (code =? 504)
  | _ => false
  end.

(** What a run of [withRetry] did: the error it returned, how often it
    called [fn], and the backoff delays it waited out, in order. *)
Record RetryRun := mkRetryRun {
  ret : option GoError;
  calls : nat;
  waits : list Z
}.

(** [c.RetryDelay * time.Duration(1<<uint(attempt-1))]. *)
Definition backoffDelay (c : Client) (attempt : Z) : Z :=
  wrap64 (RetryDelay c * shl64 1 (toUint (attempt - 1))).

(** The statement after the loop. *)
Definition wrapFinal (c : Client) (operation : string) (lastErr : option GoError)
  : option GoError :=
  Some (AppErr (WithWrappedError
                  (WithDetails ErrAPIError
                     (operation ++ " failed after "
                        ++ itoa (wrap64 (MaxRetries c + 1)) ++ " attempts"))
                  lastErr)).

(** The loop of withRetry from the test [attempt <= c.MaxRetries] on.
    [fn k] is what the k-th call of the wrapped function returns (k counts
    from 0); [ctxDone a] tells whether the [select] before attempt [a]
    takes the [ctx.Done()] branch. *)
Fixpoint retryLoop (fuel : nat) (c : Client) (ctxDone : Z -> bool)
    (operation : string) (fn : nat -> option GoError)
    (attempt : Z) (lastErr : option GoError) (ncalls : nat) (waited : list Z)
  : option RetryRun :=
  match fuel with
  | O => None
  | S fuel' =>
      if attempt <=? MaxRetries c then
        if (0 <? attempt) && ctxDone attempt then
          Some (mkRetryRun (Some (AppErr (ErrNetworkError "operation cancelled")))
                  ncalls waited)
        else
          let waited :=
            if 0 <? attempt then (waited ++ [backoffDelay c attempt])%list else waited in
          match fn ncalls with
          | None => Some (mkRetryRun None (S ncalls) waited)
          | Some err =>
              if negb (isRetryable err) then
                Some (mkRetryRun (wrapFinal c operation (Some err)) (S ncalls) waited)
              else
                retryLoop fuel' c ctxDone operation fn
                  (wrap64 (attempt + 1)) (Some err) (S ncalls) waited
          end
      else
        Some (mkRetryRun (wrapFinal c operation lastErr) ncalls waited)
  end.

Definition withRetry (fuel : nat) (c : Client) (ctxDone : Z -> bool)
    (operation : string) (fn : nat -> option GoError) : option RetryRun :=
  retryLoop fuel c ctxDone operation fn 0 None 0%nat [].

(** The delays waited out before [n] consecutive attempts, the first of
    which is number [attempt]; attempt 0 starts at once. *)
Fixpoint backoffs (c : Client) (attempt : Z) (n : nat) : list Z :=
  match n with
  | O => []
  | S n' =>
      ((if 0 <? attempt then [backoffDelay c attempt] else [])
         ++ backoffs c (attempt + 1) n')%list
  end.

End Client.

(* ===================================================================== *)
(** * pkg/calendar/freebusy.go *)
(* ===================================================================== *)

Module FreeBusy.

Import GoInt GoStrings GoTime Types Client.
Local Open Scope string_scope.
Local Open Scope Z_scope.

Record FreeBusyPeriod := mkFreeBusyPeriod { Start : string; End : string }.

Record FreeBusyInfo := mkFreeBusyInfo {
  InfoCalendarID : string;
  Busy : list FreeBusyPeriod;
  Errors : list string
}.

Record FreeBusyQueryRequest := mkFreeBusyQueryRequest {
  TimeMin : string;
  TimeMax : string;
  CalendarIDs : list string;
  TimeZone : string
}.

Record FreeBusyQueryResponse := mkFreeBusyQueryResponse {
  Calendars : gmap string FreeBusyInfo;
  ResponseTimeMin : string;
  ResponseTimeMax : string
}.

(** The text [%v] prints for an error.  For an [AppError] it is the
    [Error] method of the sources; for the other errors it is the library's
    and only its general shape is kept. *)
Definition errorString (err : GoError) : string :=
  match err with
  | AppErr e =>
      if String.eqb (Details e) "" then Code e ++ ": " ++ Message e
      else Code e ++ ": " ++ Message e ++ " (" ++ Details e ++ ")"
  | GoogleAPIError code message => "googleapi: Error " ++ itoa code ++ ": " ++ message
  | OtherError text => text
  end.

(** The conversion of one calendar of the remote answer. *)
Definition convertCalendar (calID : string) (calInfo : GCal.FreeBusyCalendar)
  : FreeBusyInfo :=
  {| InfoCalendarID := calID;
     Busy := map (fun period => mkFreeBusyPeriod (GCal.Start period) (GCal.End period))
                 (GCal.Busy calInfo);
     Errors := map (fun errItem => fst errItem ++ ": " ++ snd errItem)
                   (GCal.Errors calInfo) |}.

(** QueryFreeBusy.  The library's text for a time that does not parse is
    not modelled: the details of these two errors end after the colon. *)
Definition QueryFreeBusy (c : Client) (request : FreeBusyQueryRequest)
  : FreeBusyQueryResponse + AppError :=
  match Service c with
  | None => inr (ErrAuthFailed "calendar service not initialized")
  | Some service =>
      if String.eqb (TimeMin request) "" || String.eqb (TimeMax request) "" then
        inr (ErrInvalidInput "timeMin and timeMax" "both required for free/busy query")
      else if (length (CalendarIDs request) =? 0)%nat then
        inr (ErrInvalidInput "calendarIds" "at least one calendar ID required")
      else
        match Parse RFC3339 (TimeMin request) with
        | None => inr (ErrInvalidInput "timeMin" "invalid RFC3339 format: ")
        | Some timeMin =>
            match Parse RFC3339 (TimeMax request) with
            | None => inr (ErrInvalidInput "timeMax" "invalid RFC3339 format: ")
            | Some timeMax =>
                if Before timeMax timeMin then
                  inr (WithDetails
                         (NewAppError ErrCodeInvalidTimeRange
                            "end time must be after start time" true)
                         ("start: " ++ TimeMin request ++ ", end: " ++ TimeMax request))
                else
                  let fbRequest :=
                    {| GCal.TimeMin := TimeMin request;
                       GCal.TimeMax := TimeMax request;
                       GCal.TimeZone := TimeZone request;
                       GCal.Items := CalendarIDs request |} in
                  match GCal.FreebusyQuery service fbRequest with
                  | inr err =>
                      inr (WithDetails ErrAPIError
                             ("free/busy query failed: " ++ errorString err))
                  | inl calendars =>
                      inl {| Calendars :=
                               map_imap (fun calID calInfo =>
                                           Some (convertCalendar calID calInfo))
                                        calendars;
                             ResponseTimeMin := TimeMin request;
                             ResponseTimeMax := TimeMax request |}
                  end
            end
        end
  end.

(** The request the four availability functions build. *)
Definition windowRequest (calendarIDs : list string) (start end_ : Time)
  : FreeBusyQueryRequest :=
  {| TimeMin := FormatRFC3339 start;
     TimeMax := FormatRFC3339 end_;
     CalendarIDs := calendarIDs;
     TimeZone := "" |}.

(** IsBusy. *)
Definition IsBusy (c : Client) (calendarID : string) (start end_ : Time)
  : bool * option AppError :=
  match QueryFreeBusy c (windowRequest [calendarID] start end_) with
  | inr err => (false, Some err)
  | inl response =>
      match Calendars response !! calendarID with
      | None => (false, Some (ErrNotFound "calendar" calendarID))
      | Some calInfo => ((0 <? length (Busy calInfo))%nat, None)
      end
  end.

(** [struct{ Start, End time.Time }], with the parse errors dropped as the
    sources drop them. *)
Definition parsePeriod (period : FreeBusyPeriod) : Time * Time :=
  (ParseOrZero RFC3339 (Start period), ParseOrZero RFC3339 (End period)).

(** The inner loop: the slot is free unless it overlaps a busy period. *)
Fixpoint slotIsFree (busyPeriods : list (Time * Time)) (current slotEnd : Time) : bool :=
  match busyPeriods with
  | [] => true
  | busy :: rest =>
      if Before current (snd busy) && After slotEnd (fst busy) then false
      else slotIsFree rest current slotEnd
  end.

(** The outer loop, which FindFreeSlots and FindCommonFreeTime both have,
    word for word: [for current.Add(d).Before(end) || current.Add(d).Equal(end)]. *)
Fixpoint slotLoop (fuel : nat) (busyPeriods : list (Time * Time)) (end_ : Time)
    (slotDuration : Z) (current : Time) (freeSlots : list Time) : option (list Time) :=
  match fuel with
  | O => None
  | S fuel' =>
      if Before (Add current slotDuration) end_ || Equal (Add current slotDuration) end_
      then
        let slotEnd := Add current slotDuration in
        let freeSlots :=
          if slotIsFree busyPeriods current slotEnd
          then (freeSlots ++ [current])%list else freeSlots in
        slotLoop fuel' busyPeriods end_ slotDuration (Add current slotDuration) freeSlots
      else Some freeSlots
  end.

(** FindFreeSlots; [None] when the fuel does not suffice for the loop. *)
Definition FindFreeSlots (fuel : nat) (c : Client) (calendarID : string)
    (start end_ : Time) (slotDuration : Z) : option (list Time * option AppError) :=
  match QueryFreeBusy c (windowRequest [calendarID] start end_) with
  | inr err => Some ([], Some err)
  | inl response =>
      match Calendars response !! calendarID with
      | None => Some ([], Some (ErrNotFound "calendar" calendarID))
      | Some calInfo =>
          let busyPeriods := map parsePeriod (Busy calInfo) in
          match slotLoop fuel busyPeriods end_ slotDuration start [] with
          | Some freeSlots => Some (freeSlots, None)
          | None => None
          end
      end
  end.

(** The number of candidates [start + k * slotDuration] whose slot ends by
    [end_], for a positive [slotDuration], and the candidates themselves. *)
Definition slotCount (start end_ : Time) (slotDuration : Z) : nat :=
  Z.to_nat ((unixNano end_ - unixNano start) / slotDuration).

Definition strides (start : Time) (slotDuration : Z) (n : nat) : list Time :=
  map (fun k => Add start (Z.of_nat k * slotDuration)) (seq 0 n).

(** The overlap test of CheckConflicts. *)
Definition conflictsWith (start end_ : Time) (period : FreeBusyPeriod) : bool :=
  let periodStart := ParseOrZero RFC3339 (Start period) in
  let periodEnd := ParseOrZero RFC3339 (End period) in
  Before start periodEnd && After end_ periodStart.

(** CheckConflicts. *)
Definition CheckConflicts (c : Client) (calendarID : string) (start end_ : Time)
  : bool * list FreeBusyPeriod * option AppError :=
  match QueryFreeBusy c (windowRequest [calendarID] start end_) with
  | inr err => (false, [], Some err)
  | inl response =>
      match Calendars response !! calendarID with
      | None => (false, [], Some (ErrNotFound "calendar" calendarID))
      | Some calInfo =>
          let conflicts := List.filter (conflictsWith start end_) (Busy calInfo) in
          ((0 <? length conflicts)%nat, conflicts, None)
      end
  end.

End FreeBusy.

(* ===================================================================== *)
(** * pkg/types/event.go and convertEvent of pkg/calendar/events.go *)
(* ===================================================================== *)

Module Events.

Import GoTime.
Local Open Scope string_scope.

Record EventTime := mkEventTime {
DateTime : string;
Date : string;
TimeZone : string
}.

(** The fields of [types.Event] that the modelled functions read. *)
Record Event := mkEvent {
ID : string;
Summary : string;
Start : EventTime;
End : EventTime
}.

Definition convertTime (t : option GCal.EventDateTime) : EventTime :=
  match t with
  | Some t => mkEventTime (GCal.DateTime t) (GCal.Date t) (GCal.EventTimeZone t)
  | None => mkEventTime "" "" ""
  end.

Definition convertEvent (event : GCal.Event) : Event :=
  {| ID := GCal.Id event;
     Summary := GCal.Summary event;
     Start := convertTime (GCal.EventStart event);
     End := convertTime (GCal.EventEnd event) |}.

(** The payload of a create or update; the bulk executor only passes it
    on. *)
Record CreateEventParams := mkCreateEventParams {
ParamSummary : string;
ParamStart : Time;
ParamEnd : Time
}.

End Events.

(** What a function run under a schedule of its goroutines does: the
    schedule is not one of its executions, it dereferences a nil pointer,
    or it returns. *)
Inductive Exec (A : Type) :=
| NotAnExecution
| Panics
| Returns (a : A).
Arguments NotAnExecution {A}.
Arguments Panics {A}.
Arguments Returns {A}.

(* ===================================================================== *)
(** * pkg/calendar/multi_calendar.go *)
(* ===================================================================== *)

Module Multi.

Import GoInt GoStrings GoTime Types Client Events.
Local Open Scope string_scope.
Local Open Scope Z_scope.

Record MultiCalendarEvent := mkMultiCalendarEvent {
CalendarID : string;
Event : Events.Event
}.

Record MultiCalendarListResult := mkMultiCalendarListResult {
Events : list MultiCalendarEvent;
TotalCount : Z;
ByCalendar : gmap string Z
}.

(** The key sortMultiCalendarEvents compares. *)
Definition startOf (e : MultiCalendarEvent) : string :=
  if negb (String.eqb (Date (Start (Event e))) "") then Date (Start (Event e))
  else DateTime (Start (Event e)).

(** The inner loop, [for j := i + 1; j < len(events); j++], with [k]
    iterations left. *)
Fixpoint sortInner (k i j : nat) (events : list MultiCalendarEvent)
  : list MultiCalendarEvent :=
  match k with
  | O => events
  | S k' =>
      match events !! i, events !! j with
      | Some ei, Some ej =>
          let events :=
            if String.ltb (startOf ej) (startOf ei)
            then <[i := ej]> (<[j := ei]> events) else events in
          sortInner k' i (S j) events
      | _, _ => events
      end
  end.

Fixpoint sortOuter (k i : nat) (events : list MultiCalendarEvent)
  : list MultiCalendarEvent :=
  match k with
  | O => events
  | S k' => sortOuter k' (S i) (sortInner (length events - S i) i (S i) events)
  end.

Definition sortMultiCalendarEvents (events : list MultiCalendarEvent)
  : list MultiCalendarEvent :=
  sortOuter (length events) 0 events.

(** A schedule of [n] goroutines that each take one atomic step: the
    order in which they take it, every goroutine once. *)
Definition completionOrder (n : nat) (order : list nat) : bool :=
  (length order =? n)%nat
  && forallb (fun i => existsb (Nat.eqb i) order) (seq 0 n).

(** The body of one goroutine of ListEventsMultiCalendar: the remote call,
    then either the send on [errorsChan] or the locked update of [result].
    The channel has room for every goroutine, so the send never blocks. *)
Definition listOne (service : GCal.Service) (timeMin timeMax : Time) (maxResults : Z)
    (st : MultiCalendarListResult * list GoError) (calendarID : string)
  : MultiCalendarListResult * list GoError :=
  let '(result, errorsChan) := st in
  match GCal.EventsList service calendarID
          (FormatRFC3339 timeMin) (FormatRFC3339 timeMax)
          (if 0 <? maxResults then maxResults else 0) with
  | inr err =>
      (result,
       (errorsChan ++ [OtherError ("calendar " ++ calendarID ++ ": "
                                     ++ FreeBusy.errorString err)])%list)
  | inl items =>
      ({| Events := (Events result
                       ++ map (fun event => mkMultiCalendarEvent calendarID
                                              (convertEvent event)) items)%list;
          TotalCount := TotalCount result;
          ByCalendar := <[calendarID := Z.of_nat (length items)]> (ByCalendar result) |},
       errorsChan)
  end.

(** ListEventsMultiCalendar, run with its goroutines completing in the
    given order (positions in [calendarIDs]). *)
Definition ListEventsMultiCalendar (c : Client) (calendarIDs : list string)
    (timeMin timeMax : Time) (maxResults : Z) (order : list nat)
  : Exec (option MultiCalendarListResult * option AppError) :=
  match Service c with
  | None => Returns (None, Some (ErrAuthFailed "calendar service not initialized"))
  | Some service =>
      if (length calendarIDs =? 0)%nat then
        Returns (None, Some (ErrInvalidInput "calendarIds"
                               "at least one calendar ID required"))
      else if negb (completionOrder (length calendarIDs) order) then NotAnExecution
      else
        let '(result, errorsChan) :=
          fold_left (listOne service timeMin timeMax maxResults)
                    (omap (fun i => calendarIDs !! i) order)
                    (mkMultiCalendarListResult [] 0 ∅, []) in
        match errorsChan with
        | err :: _ =>
            Returns (None, Some (WithDetails ErrAPIError
                                   ("multi-calendar query failed: "
                                      ++ FreeBusy.errorString err)))
        | [] =>
            Returns (Some {| Events := sortMultiCalendarEvents (Events result);
                             TotalCount := Z.of_nat (length (Events result));
                             ByCalendar := ByCalendar result |},
                     None)
        end
  end.

(** FindCommonFreeTime.  The busy periods are collected calendar by
    calendar in the order the map yields them. *)
Definition FindCommonFreeTime (fuel : nat) (c : Client) (calendarIDs : list string)
    (start end_ : Time) (slotDuration : Z) : option (list Time * option AppError) :=
  match Service c with
  | None => Some ([], Some (ErrAuthFailed "calendar service not initialized"))
  | Some _ =>
      if (length calendarIDs =? 0)%nat then
        Some ([], Some (ErrInvalidInput "calendarIds" "at least one calendar ID required"))
      else
        match FreeBusy.QueryFreeBusy c (FreeBusy.windowRequest calendarIDs start end_) with
        | inr err => Some ([], Some err)
        | inl response =>
            let allBusyPeriods :=
              concat (map (fun entry => map FreeBusy.parsePeriod (FreeBusy.Busy (snd entry)))
                          (map_to_list (FreeBusy.Calendars response))) in
            match FreeBusy.slotLoop fuel allBusyPeriods end_ slotDuration start [] with
            | Some commonFreeSlots => Some (commonFreeSlots, None)
            | None => None
            end
        end
  end.

End Multi.

(* ===================================================================== *)
(** * pkg/calendar/batch.go *)
(* ===================================================================== *)

Module Batch.

Import GoInt GoStrings GoTime Types Client Events.
Local Open Scope string_scope.
Local Open Scope Z_scope.

Record BatchResult := mkBatchResult {
Success : bool;
Index : Z;
EventID : string;
Event : option Events.Event;
Error : option AppError
}.

(** BatchCreateParams, BatchUpdateParams and BatchDeleteParams differ in
    their first field only ([Events], [Updates], [EventIDs]), which is
    [Items] here. *)
Record BatchParams (I : Type) := mkBatchParams {
Items : I;
ContinueOnError : bool;
MaxConcurrent : Z
}.
Arguments mkBatchParams {I}.
Arguments Items {I}.
Arguments ContinueOnError {I}.
Arguments MaxConcurrent {I}.

Definition BatchCreateParams : Type := BatchParams (list CreateEventParams).
Definition BatchUpdateParams : Type := BatchParams (gmap string CreateEventParams).
Definition BatchDeleteParams : Type := BatchParams (list string).

(** [if params.MaxConcurrent <= 0 { params.MaxConcurrent = 5 }]: the
    capacity the semaphore channel is made with. *)
Definition semaphoreCapacity (maxConcurrent : Z) : Z :=
  if maxConcurrent <=? 0 then 5 else maxConcurrent.

(** ** The goroutines of one call *)

(** A goroutine waits for a permit, then holds it while it runs its
    operation and stores the result, then is done. *)
Inductive GStatus := Waiting | Running | Finished.

(** The steps of a schedule: goroutine [i] gets its permit (the send on
    the semaphore channel goes through), or goroutine [i] finishes: its
    remote operation answers [r], the result is stored under the mutex and
    the permit is given back. *)
Inductive Step (R : Type) :=
| Acquire (i : nat)
| Complete (i : nat) (r : R).
Arguments Acquire {R}.
Arguments Complete {R}.

Definition isRunning (s : GStatus) : bool :=
  match s with Running => true | _ => false end.

Definition isFinished (s : GStatus) : bool :=
  match s with Finished => true | _ => false end.

(** Permits in use. *)
Definition running (status : list GStatus) : nat :=
  length (List.filter isRunning status).

(** Goroutines that are done. *)
Definition finished (status : list GStatus) : nat :=
  length (List.filter isFinished status).

Section Pool.

Context {R A : Type}.
Variable capacity : Z.
Variable store : nat -> R -> A -> A.

Definition poolStep (st : list GStatus * A) (e : Step R) : option (list GStatus * A) :=
  match e with
  | Acquire i =>
      match fst st !! i with
      | Some Waiting =>
          if Z.of_nat (running (fst st)) <? capacity
          then Some (<[i := Running]> (fst st), snd st) else None
      | _ => None
      end
  | Complete i r =>
      match fst st !! i with
      | Some Running => Some (<[i := Finished]> (fst st), store i r (snd st))
      | _ => None
      end
  end.

Fixpoint runPool (sched : list (Step R)) (st : list GStatus * A)
  : option (list GStatus * A) :=
  match sched with
  | [] => Some st
  | e :: rest =>
      match poolStep st e with
      | Some st' => runPool rest st'
      | None => None
      end
  end.

(** The largest number of permits in use at any moment of a schedule. *)
Fixpoint peakPermits (sched : list (Step R)) (st : list GStatus * A) : option nat :=
  match sched with
  | [] => Some (running (fst st))
  | e :: rest =>
      match poolStep st e with
      | Some st' => option_map (Nat.max (running (fst st))) (peakPermits rest st')
      | None => None
      end
  end.

(** The state in which [wg.Wait()] returns, if the schedule leads there. *)
Definition joined (n : nat) (init : A) (sched : list (Step R)) : option A :=
  match runPool sched (replicate n Waiting, init) with
  | Some (status, a) => if forallb isFinished status then Some a else None
  | None => None
  end.

End Pool.

(** The loop after the join, [for _, result := range results], which
    tells whether some result has [Success] unset. *)
Fixpoint anyFailed (results : list (option BatchResult)) : Exec bool :=
  match results with
  | [] => Returns false
  | None :: _ => Panics
  | Some result :: rest =>
      if negb (Success result) then Returns true else anyFailed rest
  end.

Definition afterJoin (continueOnError : bool) (failure : string)
    (results : list (option BatchResult))
  : Exec (list (option BatchResult) * option AppError) :=
  if negb continueOnError then
    match anyFailed results with
    | Returns true => Returns (results, Some (WithDetails ErrAPIError failure))
    | Returns false => Returns (results, None)
    | Panics => Panics
    | NotAnExecution => NotAnExecution
    end
  else Returns (results, None).

(** A result slot that does not record a success. *)
Definition failed (result : option BatchResult) : bool :=
  match result with
  | Some result => negb (Success result)
  | None => false
  end.

(** The error a result records: the operation's own [*AppError], or the
    API error wrapped around anything else. *)
Definition asAppError (err : GoError) (details : string) : AppError :=
  match err with
  | AppErr e => e
  | _ => WithWrappedError (WithDetails ErrAPIError details) (Some err)
  end.

(** ** BatchCreateEvents *)

Definition createResult (index : nat) (r : Events.Event + GoError) : BatchResult :=
  match r with
  | inr err =>
      {| Success := false; Index := Z.of_nat index; EventID := ""; Event := None;
         Error := Some (asAppError err
                          ("failed to create event at index " ++ itoa (Z.of_nat index))) |}
  | inl event =>
      {| Success := true; Index := Z.of_nat index; EventID := Events.ID event;
         Event := Some event; Error := None |}
  end.

Definition BatchCreateEvents (params : BatchCreateParams)
    (sched : list (Step (Events.Event + GoError)))
  : Exec (list (option BatchResult) * option AppError) :=
  let n := length (Items params) in
  if (n =? 0)%nat then Returns ([], Some (ErrInvalidInput "events" "no events provided"))
  else
    match joined (semaphoreCapacity (MaxConcurrent params))
                 (fun index r results => <[index := Some (createResult index r)]> results)
                 n (replicate n None) sched with
    | None => NotAnExecution
    | Some results =>
        afterJoin (ContinueOnError params)
          "batch create failed: one or more events failed to create" results
    end.

(** ** BatchUpdateEvents *)

Definition updateResult (idx : nat) (id : string) (r : Events.Event + GoError)
  : BatchResult :=
  match r with
  | inr err =>
      {| Success := false; Index := Z.of_nat idx; EventID := id; Event := None;
         Error := Some (asAppError err ("failed to update event " ++ id)) |}
  | inl event =>
      {| Success := true; Index := Z.of_nat idx; EventID := id;
         Event := Some event; Error := None |}
  end.

(** The goroutines are started in the order the [range] over the map
    yields its entries, numbered from 0; each appends its result. *)
Definition BatchUpdateEvents (params : BatchUpdateParams)
    (sched : list (Step (Events.Event + GoError)))
  : Exec (list (option BatchResult) * option AppError) :=
  let started := map_to_list (Items params) in
  let n := length started in
  if (n =? 0)%nat then Returns ([], Some (ErrInvalidInput "updates" "no updates provided"))
  else
    match joined (semaphoreCapacity (MaxConcurrent params))
                 (fun idx r results =>
                    match started !! idx with
                    | Some (id, _) => (results ++ [Some (updateResult idx id r)])%list
                    | None => results
                    end)
                 n [] sched with
    | None => NotAnExecution
    | Some results =>
        afterJoin (ContinueOnError params)
          "batch update failed: one or more events failed to update" results
    end.

(** ** BatchDeleteEvents *)

Definition deleteResult (ids : list string) (index : nat) (r : option GoError)
  : BatchResult :=
  let id := default "" (ids !! index) in
  match r with
  | Some err =>
      {| Success := false; Index := Z.of_nat index; EventID := id; Event := None;
         Error := Some (asAppError err ("failed to delete event " ++ id)) |}
  | None =>
      {| Success := true; Index := Z.of_nat index; EventID := id;
         Event := None; Error := None |}
  end.

Definition BatchDeleteEvents (params : BatchDeleteParams)
    (sched : list (Step (option GoError)))
  : Exec (list (option BatchResult) * option AppError) :=
  let n := length (Items params) in
  if (n =? 0)%nat then Returns ([], Some (ErrInvalidInput "eventIds" "no event IDs provided"))
  else
    match joined (semaphoreCapacity (MaxConcurrent params))
                 (fun index r results =>
                    <[index := Some (deleteResult (Items params) index r)]> results)
                 n (replicate n None) sched with
    | None => NotAnExecution
    | Some results =>
        afterJoin (ContinueOnError params)
          "batch delete failed: one or more events failed to delete" results
    end.

(** The schedule that runs the goroutines one after the other, from
    number [k] on, goroutine [i] receiving the answer [out i]; and the one
    that lets them all get a permit before the first finishes. *)
Fixpoint oneByOne {R : Type} (out : nat -> R) (k n : nat) : list (Step R) :=
  match n with
  | O => []
  | S n' => Acquire k :: Complete k (out k) :: oneByOne out (S k) n'
  end.

Definition allAtOnce {R : Type} (out : nat -> R) (n : nat) : list (Step R) :=
  (map Acquire (seq 0 n) ++ map (fun i => Complete i (out i)) (seq 0 n))%list.

(** ** GetBatchSummary *)

Definition bump (key : string) (summary : gmap string Z) : gmap string Z :=
  <[key := default 0 (summary !! key) + 1]> summary.

Fixpoint summarise (results : list (option BatchResult)) (summary : gmap string Z)
  : Exec (gmap string Z) :=
  match results with
  | [] => Returns summary
  | None :: _ => Panics
  | Some result :: rest =>
      summarise rest (if Success result then bump "success" summary
                      else bump "failed" summary)
  end.

Definition GetBatchSummary (results : list (option BatchResult)) : Exec (gmap string Z) :=
  summarise results
    (<["total" := Z.of_nat (length results)]>
       (<["success" := 0]> (<["failed" := 0]> ∅))).

End Batch.

(* ===================================================================== *)
(** * pkg/calendar/nlp_dates.go *)
(* ===================================================================== *)

Module NLP.

Import GoInt GoStrings GoTime.
Local Open Scope string_scope.
Local Open Scope Z_scope.

(** ** The two regular expressions *)

(** [(.+)] at the head of [s]: the longest run without a newline, which
    must not be empty. *)
Definition dotPlus (s : string) : option string :=
  match fst (span (fun c => negb (isNewline c)) s) with
  | EmptyString => None
  | g => Some g
  end.

(** [\s*(.+)] after a first blank has been consumed: the blanks are taken
    greedily and given back one at a time until the group matches. *)
Fixpoint blanksThenRest (s : string) : option string :=
  match s with
  | String c r =>
      if isReSpace c then
        match blanksThenRest r with
        | Some g => Some g
        | None => dotPlus s
        end
      else dotPlus s
  | EmptyString => None
  end.

(** [\s+at\s+(.+)] at the head of [s]; the result is the second group.
    The first [\s+] is followed by a letter, so only its longest match can
    succeed. *)
Definition atClause (s : string) : option string :=
  match span isReSpace s with
  | (String _ _, String "a" (String "t" (String c r))) =>
      if isReSpace c then blanksThenRest r else None
  | _ => None
  end.

(** [atRegex.FindStringSubmatch(s)] for [(.*?)\s+at\s+(.+)]: the leftmost
    match, with the first group as short as possible.  The first group
    cannot cross a newline, so the search restarts after each one; [seen]
    is the text of the current line read so far. *)
Fixpoint findAt (s seen : string) : option (string * string) :=
  match atClause s with
  | Some timeStr => Some (seen, timeStr)
  | None =>
      match s with
      | String c r =>
          if isNewline c then findAt r "" else findAt r (seen ++ String c "")
      | EmptyString => None
      end
  end.

Definition timeUnits : list string :=
  ["minute"; "minutes"; "hour"; "hours"; "day"; "days"; "week"; "weeks";
   "month"; "months"].

(** [offsetRegex.FindStringSubmatch(s)] for
    [^in\s+(\d+)\s+(minute|minutes|...|months)$]: the two groups. *)
Definition findOffset (s : string) : option (string * string) :=
  match stripPrefix "in" s with
  | None => None
  | Some r =>
      match span isReSpace r with
      | (String _ _, r) =>
          match span isDigit r with
          | (String d ds, r) =>
              match span isReSpace r with
              | (String _ _, unit) =>
                  if existsb (String.eqb unit) timeUnits
                  then Some (String d ds, unit) else None
              | _ => None
              end
          | _ => None
          end
      | _ => None
      end
  end.

(** [fmt.Sscanf(digits, "%d", &amount)] with the error dropped: a number
    that does not fit 64 bits leaves [amount] at zero. *)
Definition scanAmount (digits : string) : Z :=
  match atou digits with
  | Some n => if n <=? maxInt64 then n else 0
  | None => 0
  end.

(** ** parseTimeOfDay *)

(** The layouts ["3pm"], ["3:04pm"], ["15:04"] and ["15:04:05"]. *)
Definition formats : list (list Chunk) :=
  [ [stdHour12; stdpm];
    [stdHour12; lit ":"; stdZeroMinute; stdpm];
    [stdHour; lit ":"; stdZeroMinute];
    [stdHour; lit ":"; stdZeroMinute; lit ":"; stdZeroSecond] ].

Fixpoint firstParse (formats : list (list Chunk)) (timeStr : string) : option Time :=
  match formats with
  | [] => None
  | format :: rest =>
      match Parse format timeStr with
      | Some t => Some t
      | None => firstParse rest timeStr
      end
  end.

Definition parseTimeOfDay (timeStr : string) (tz : Location) : Time + string :=
  let timeStr := TrimSpace (ToLower timeStr) in
  match firstParse formats timeStr with
  | Some t => inl t
  | None => inr ("unable to parse time: " ++ timeStr)
  end.

(** The part both date matchers start with: the text before and after
    ["at"]. *)
Definition splitAtTime (input : string) : string * string :=
  match findAt input "" with
  | Some (dateStr, timeStr) => (dateStr, timeStr)
  | None => (input, "")
  end.

(** The part both date matchers end with: the time of day, if one was
    given, replaces midnight. *)
Definition applyTime (targetDate : Time) (timeStr : string) (tz : Location)
  : string + string :=
  if negb (String.eqb timeStr "") then
    match parseTimeOfDay timeStr tz with
    | inr err => inr err
    | inl parsedTime =>
        inl (FormatRFC3339
               (Date (Year targetDate) (Month targetDate) (Day targetDate)
                     (HourOf parsedTime) (MinuteOf parsedTime) 0 0 tz))
    end
  else inl (FormatRFC3339 targetDate).

(** ** parseRelativeDate *)

Definition parseRelativeDate (input : string) (now : Time) (tz : Location)
  : string + string :=
  let '(dateStr, timeStr) := splitAtTime input in
  let word := TrimSpace dateStr in
  if String.eqb word "now" then inl (FormatRFC3339 now)
  else if String.eqb word "today" then
    applyTime (Date (Year now) (Month now) (Day now) 0 0 0 0 tz) timeStr tz
  else if String.eqb word "tomorrow" then
    applyTime (Date (Year now) (Month now) (Day now + 1) 0 0 0 0 tz) timeStr tz
  else if String.eqb word "yesterday" then
    applyTime (Date (Year now) (Month now) (Day now - 1) 0 0 0 0 tz) timeStr tz
  else inr "not a relative date".

(** ** parseTimeOffset *)

Definition parseTimeOffset (input : string) (now : Time) : string + string :=
  match findOffset input with
  | None => inr "not a time offset"
  | Some (digits, unit) =>
      let amount := scanAmount digits in
      if String.eqb unit "minute" || String.eqb unit "minutes" then
        inl (FormatRFC3339 (Add now (wrap64 (amount * Minute))))
      else if String.eqb unit "hour" || String.eqb unit "hours" then
        inl (FormatRFC3339 (Add now (wrap64 (amount * Hour))))
      else if String.eqb unit "day" || String.eqb unit "days" then
        inl (FormatRFC3339 (AddDate now 0 0 amount))
      else if String.eqb unit "week" || String.eqb unit "weeks" then
        inl (FormatRFC3339 (AddDate now 0 0 (wrap64 (amount * 7))))
      else if String.eqb unit "month" || String.eqb unit "months" then
        inl (FormatRFC3339 (AddDate now 0 amount 0))
      else inr ("unknown time unit: " ++ unit)
  end.

(** ** parseDayOfWeek *)

Definition dayMap : list (string * Z) :=
  [("sunday", 0); ("monday", 1); ("tuesday", 2); ("wednesday", 3);
   ("thursday", 4); ("friday", 5); ("saturday", 6);
   ("sun", 0); ("mon", 1); ("tue", 2); ("wed", 3); ("thu", 4); ("fri", 5);
   ("sat", 6)].

Fixpoint lookupDay (m : list (string * Z)) (dayStr : string) : option Z :=
  match m with
  | [] => None
  | (name, weekday) :: rest =>
      if String.eqb name dayStr then Some weekday else lookupDay rest dayStr
  end.

Definition parseDayOfWeek (input : string) (now : Time) (tz : Location)
  : string + string :=
  let '(dateStr, timeStr) := splitAtTime input in
  let '(modifier, dayStr) :=
    if HasPrefix dateStr "next " then ("next", TrimPrefix dateStr "next ")
    else if HasPrefix dateStr "this " then ("this", TrimPrefix dateStr "this ")
    else if HasPrefix dateStr "last " then ("last", TrimPrefix dateStr "last ")
    else ("next", dateStr) in
  match lookupDay dayMap (ToLower dayStr) with
  | None => inr "not a day of week"
  | Some targetWeekday =>
      let currentWeekday := Weekday now in
      let targetDate :=
        if String.eqb modifier "this" then
          let daysUntil := targetWeekday - currentWeekday in
          AddDate now 0 0 (if daysUntil <? 0 then daysUntil + 7 else daysUntil)
        else if String.eqb modifier "last" then
          let daysAgo := currentWeekday - targetWeekday in
          AddDate now 0 0 (- (if daysAgo <=? 0 then daysAgo + 7 else daysAgo))
        else
          let daysUntil := targetWeekday - currentWeekday in
          AddDate now 0 0 (if daysUntil <=? 0 then daysUntil + 7 else daysUntil) in
      applyTime (Date (Year targetDate) (Month targetDate) (Day targetDate) 0 0 0 0 tz)
                timeStr tz
  end.

(** ** parseSpecificDateTime *)

Definition parseSpecificDateTime (input : string) (now : Time) (tz : Location)
  : string + string :=
  inr "specific date/time parsing not implemented".

(** ** ParseNaturalLanguageDate *)

(** The state of the process that the function reads without being handed
    it: the reading of the wall clock that [time.Now()] returns, and
    [time.Local]. *)
Record Ambient := mkAmbient {
clock : Z;
Local : Location
}.

(** [time.Now()]. *)
Definition Now (amb : Ambient) : Time :=
  {| unixNano := clock amb; loc := Local amb |}.

Definition ParseNaturalLanguageDate (amb : Ambient) (input : string)
    (timezone : option Location) : string + string :=
  let timezone := match timezone with Some tz => tz | None => Local amb end in
  let input := ToLower (TrimSpace input) in
  let now := In (Now amb) timezone in
  match parseRelativeDate input now timezone with
  | inl parsed => inl parsed
  | inr _ =>
      match parseTimeOffset input now with
      | inl parsed => inl parsed
      | inr _ =>
          match parseDayOfWeek input now timezone with
          | inl parsed => inl parsed
          | inr _ =>
              match parseSpecificDateTime input now timezone with
              | inl parsed => inl parsed
              | inr _ => inr ("unable to parse natural language date: " ++ input)
              end
          end
      end
  end.

(** ** A location for the examples *)

(** America/New_York as the IANA time zone database has it for 2023 to
    2025: Eastern Standard Time, UTC-5, and daylight saving time, UTC-4,
    from the second Sunday of March to the first Sunday of November. *)
Definition America_New_York : Location :=
  {| locName := "America/New_York";
     locBase := -18000;
     locTrans := [ (1678604400, -14400); (1699164000, -18000);
                   (1710054000, -14400); (1730613600, -18000);
                   (1741503600, -14400); (1762063200, -18000) ] |}.

End NLP.

(* ===================================================================== *)
(** * Data for the examples *)
(* ===================================================================== *)

Module Examples.

Import GoTime.
Local Open Scope string_scope.
Local Open Scope Z_scope.

(** A remote service with one calendar, ["cal1"], busy from 10:00 to
    11:00 (UTC) on 2024-01-15, and no events. *)
Definition busyTenToEleven : GCal.Service :=
  {| GCal.FreebusyQuery := fun _ =>
       inl {[ "cal1" := GCal.mkFreeBusyCalendar
                          [GCal.mkTimePeriod "2024-01-15T10:00:00Z" "2024-01-15T11:00:00Z"]
                          [] ]};
     GCal.EventsList := fun _ _ _ _ => inl [] |}.

(** A remote service whose calendar ["cal1"] has nothing booked. *)
Definition nothingBooked : GCal.Service :=
  {| GCal.FreebusyQuery := fun _ => inl {[ "cal1" := GCal.mkFreeBusyCalendar [] [] ]};
     GCal.EventsList := fun _ _ _ _ => inl [] |}.


Definition at_ (hour min : Z) : Time := Date 2024 1 15 hour min 0 0 UTC.

(** Monday 2024-01-15, 10:00 in New York (15:00 UTC), as a clock reading. *)
Definition mondayMorning : Z := 1705330800 * Second.

Definition meeting (summary : string) : Events.CreateEventParams :=
  {| Events.ParamSummary := summary;
     Events.ParamStart := at_ 9 0;
     Events.ParamEnd := at_ 10 0 |}.

Definition created (id : string) : Events.Event :=
  {| Events.ID := id; Events.Summary := "meeting";
     Events.Start := Events.mkEventTime "2024-01-15T09:00:00Z" "" "UTC";
     Events.End := Events.mkEventTime "2024-01-15T10:00:00Z" "" "UTC" |}.

(** Five events to create, of which the one at index 3 is refused as
    invalid input, and an order in which the five goroutines may run. *)
Definition fiveEvents : Batch.BatchCreateParams :=
  {| Batch.Items := [meeting "a"; meeting "b"; meeting "c"; meeting ""; meeting "e"];
     Batch.ContinueOnError := true;
     Batch.MaxConcurrent := 0 |}.

Definition fiveAnswers (i : nat) : Events.Event + Types.GoError :=
  if (i =? 3)%nat
  then inr (Types.AppErr (Types.ErrInvalidInput "request" "missing title"))
  else inl (created "ev").

Definition shuffled : list (Batch.Step (Events.Event + Types.GoError)) :=
  [Batch.Acquire 4; Batch.Acquire 1; Batch.Acquire 0;
   Batch.Complete 1 (fiveAnswers 1); Batch.Acquire 3; Batch.Acquire 2;
   Batch.Complete 3 (fiveAnswers 3); Batch.Complete 0 (fiveAnswers 0);
   Batch.Complete 4 (fiveAnswers 4); Batch.Complete 2 (fiveAnswers 2)]%nat.

(** Two events to update, and a schedule in which the goroutine started
    second finishes first. *)
Definition twoUpdates : Batch.BatchUpdateParams :=
  {| Batch.Items := {[ "a" := meeting "first"; "b" := meeting "second" ]};
     Batch.ContinueOnError := true;
     Batch.MaxConcurrent := 0 |}.

Definition secondFirst : list (Batch.Step (Events.Event + Types.GoError)) :=
  [Batch.Acquire 0; Batch.Acquire 1;
   Batch.Complete 1 (inl (created "x")); Batch.Complete 0 (inl (created "y"))]%nat.

(** Eleven events to create with room asked for fifty at a time. *)
Definition elevenEvents : Batch.BatchCreateParams :=
  {| Batch.Items := replicate 11 (meeting "m");
     Batch.ContinueOnError := true;
     Batch.MaxConcurrent := 50 |}.

End Examples.

(* ===================================================================== *)
(** * pkg/calendar/client.go: handleAPIError *)
(* ===================================================================== *)

Module APIErrors.

Import GoStrings Types.
Local Open Scope string_scope.
Local Open Scope Z_scope.

(** Two more constructors of pkg/types/errors.go. *)
Definition ErrMissingRequired (field : string) : AppError :=
  WithSuggestedAction
    (NewAppError ErrCodeMissingRequired ("Required field '" ++ field ++ "' is missing") true)
    ("Provide the --" ++ field ++ " flag").

Definition ErrRateLimit : AppError :=
  WithSuggestedAction (NewAppError ErrCodeRateLimit "API rate limit exceeded" true)
    "Wait a moment and try again".

(** handleAPIError: the switch on the status code of a [*googleapi.Error],
    and the API error around anything else. *)
Definition handleAPIError (err : option GoError) (operation : string) : option GoError :=
  match err with
  | None => None
  | Some (GoogleAPIError code message) =>
      let err := Some (GoogleAPIError code message) in
      Some (AppErr
        (if code =? 400 then
           WithWrappedError (ErrInvalidInput "request" message) err
         else if code =? 401 then
           WithSuggestedAction
             (WithWrappedError (ErrAuthFailed "invalid or expired credentials") err)
             "Run 'gcal-cli auth login' to re-authenticate"
         else if code =? 403 then
           WithSuggestedAction
             (WithWrappedError
                (WithDetails
                   (NewAppError ErrCodePermissionDenied "insufficient permissions" true)
                   message)
                err)
             "Check calendar sharing settings"
         else if code =? 404 then
           WithWrappedError (WithDetails (ErrNotFound "event" "") message) err
         else if code =? 409 then
           WithWrappedError
             (WithDetails
                (NewAppError ErrCodeInvalidInput "conflict with existing event" true)
                message)
             err
         else if code =? 429 then
           WithWrappedError ErrRateLimit err
         else if (code =? 500) || (code =? 502) || (code =? 503) || (code =? 504) then
           WithSuggestedAction
             (WithWrappedError
                (WithDetails
                   (NewAppError ErrCodeAPIError "Google Calendar service error" true)
                   message)
                err)
             "Try again in a few moments"
         else
           WithWrappedError
             (WithDetails ErrAPIError ("API error " ++ itoa code ++ ": " ++ message))
             err))
  | Some other =>
      Some (AppErr (WithWrappedError (WithDetails ErrAPIError (operation ++ " failed"))
                      (Some other)))
  end.

End APIErrors.

(* ===================================================================== *)
(** * google.golang.org/api/calendar/v3: events and the Events service *)
(* ===================================================================== *)

Module CalendarAPI.

Import Types.

(** [calendar.EventAttendee] and [calendar.Event], with the fields the
    sources read or set. *)
Record EventAttendee := mkEventAttendee {
  Email : string;
  ResponseStatus : string
}.

Record Event := mkEvent {
  Id : string;
  Summary : string;
  Description : string;
  Location : string;
  Status : string;
  Start : option GCal.EventDateTime;
  End : option GCal.EventDateTime;
  Attendees : list EventAttendee;
  Recurrence : list string
}.

(** [c.Service.Events], which the single-event operations dereference
    without a nil check.  The last argument of a call is the number of
    remote calls the operation in progress has made before it, so that
    the remote may answer a retry, or a second reading, differently. *)
Record EventsService := mkEventsService {
  Get : string -> string -> nat -> Event + GoError;
  Insert : string -> Event -> nat -> Event + GoError;
  Update : string -> string -> Event -> nat -> Event + GoError;
  Delete : string -> string -> nat -> option GoError
}.

End CalendarAPI.

(* ===================================================================== *)
(** * pkg/types/event.go *)
(* ===================================================================== *)

Module EventTypes.

Record Attendee := mkAttendee {
  Email : string;
  ResponseStatus : string;
  Organizer : bool;
  DisplayName : string
}.

Record Event := mkEvent {
  ID : string;
  Summary : string;
  Description : string;
  Start : Events.EventTime;
  End : Events.EventTime;
  Status : string;
  Attendees : list Attendee;
  Recurrence : list string;
  Location : string;
  HTMLLink : string
}.

End EventTypes.

(* ===================================================================== *)
(** * pkg/calendar/events.go: the single-event operations *)
(* ===================================================================== *)

Module EventOps.

Import GoInt GoStrings GoTime Types Client APIErrors.
Local Open Scope string_scope.
Local Open Scope Z_scope.

Record CreateEventParams := mkCreateEventParams {
  Summary : string;
  Description : string;
  Location : string;
  Start : Time;
  End : Time;
  TimeZone : string;
  Attendees : list string;
  Recurrence : list string;
  AllDay : bool
}.

(** The zero value [CreateEventParams{}]. *)
Definition noParams : CreateEventParams :=
  mkCreateEventParams "" "" "" zeroTime zeroTime "" [] [] false.

(** ** isValidEmail *)

Definition isAt (c : ascii) : bool := byteOf c =? 64.
Definition isDot (c : ascii) : bool := byteOf c =? 46.

(** [for i, c := range email], from byte [i] on: the index of the ['@']
    if there is one, [-1] if there is none, [None] where the loop returns
    false for a second one.  The loop decodes UTF-8, and ['@'] is an ASCII
    byte, which is part of no longer sequence: it finds the ['@'] bytes,
    at their byte indices. *)
Fixpoint scanAt (email : string) (i atIndex : Z) : option Z :=
  match email with
  | EmptyString => Some atIndex
  | String c r =>
      if isAt c then
        if negb (atIndex =? -1) then None else scanAt r (i + 1) i
      else scanAt r (i + 1) atIndex
  end.

(** [s[n:]]. *)
Fixpoint sliceFrom (n : nat) (s : string) : string :=
  match n, s with
  | O, _ => s
  | S k, String _ r => sliceFrom k r
  | S _, EmptyString => EmptyString
  end.

Fixpoint hasDot (domain : string) : bool :=
  match domain with
  | EmptyString => false
  | String c r => if isDot c then true else hasDot r
  end.

Definition isValidEmail (email : string) : bool :=
  let len := Z.of_nat (String.length email) in
  if len <? 3 then false
  else
    match scanAt email 0 (-1) with
    | None => false
    | Some atIndex =>
        if (atIndex =? -1) || (atIndex =? 0) || (atIndex =? len - 1) then false
        else
          let domain := sliceFrom (Z.to_nat (atIndex + 1)) email in
          if Z.of_nat (String.length domain) <? 3 then false
          else hasDot domain
    end.

(** The validation loops: the first address that is refused. *)
Fixpoint firstInvalidEmail (emails : list string) : option string :=
  match emails with
  | [] => None
  | email :: rest =>
      if negb (isValidEmail email) then Some email else firstInvalidEmail rest
  end.

Definition invalidEmail (email : string) : AppError :=
  ErrInvalidInput "attendees" ("invalid email address: " ++ email).

(** ** validateCreateParams *)

Definition validateCreateParams (params : CreateEventParams) : option AppError :=
  if String.eqb (Summary params) "" then Some (ErrMissingRequired "title")
  else if IsZero (Start params) then Some (ErrMissingRequired "start")
  else if IsZero (End params) then Some (ErrMissingRequired "end")
  else if negb (Before (Start params) (End params)) then
    Some (WithSuggestedAction
            (WithDetails
               (NewAppError ErrCodeInvalidTimeRange "start time must be before end time"
                  true)
               ("start: " ++ FormatRFC3339 (Start params)
                  ++ ", end: " ++ FormatRFC3339 (End params)))
            "Adjust the start and end times")
  else
    match firstInvalidEmail (Attendees params) with
    | Some email => Some (invalidEmail email)
    | None => None
    end.

(** ** convertEvent *)

Definition convertAttendee (att : CalendarAPI.EventAttendee) : EventTypes.Attendee :=
  {| EventTypes.Email := CalendarAPI.Email att;
     EventTypes.ResponseStatus := CalendarAPI.ResponseStatus att;
     EventTypes.Organizer := false;
     EventTypes.DisplayName := "" |}.

(** convertEvent on an event that is not nil. *)
Definition convertEvent (event : CalendarAPI.Event) : EventTypes.Event :=
  {| EventTypes.ID := CalendarAPI.Id event;
     EventTypes.Summary := CalendarAPI.Summary event;
     EventTypes.Description := CalendarAPI.Description event;
     EventTypes.Start := Events.convertTime (CalendarAPI.Start event);
     EventTypes.End := Events.convertTime (CalendarAPI.End event);
     EventTypes.Status := CalendarAPI.Status event;
     EventTypes.Attendees := map convertAttendee (CalendarAPI.Attendees event);
     EventTypes.Recurrence := CalendarAPI.Recurrence event;
     EventTypes.Location := CalendarAPI.Location event;
     EventTypes.HTMLLink := "" |}.

(** ** The calls through withRetry *)

(** The error of a remote call that answers with an event. *)
Definition getError (answer : CalendarAPI.Event + GoError) : option GoError :=
  match answer with
  | inl _ => None
  | inr err => Some err
  end.

(** What an operation returns: [None] when the fuel does not suffice for
    its retry loops, [Panics] where it would dereference a nil event, else
    its two results and the number of remote calls it made. *)
Definition Outcome (A : Type) : Type := option (Exec (A * option GoError * nat)).

(** The common shape of CreateEvent, GetEvent and the second half of
    UpdateEvent: a remote call under withRetry, whose event, assigned by
    the last run of the closure, is converted when withRetry returns nil.
    A nil event converts to nil. *)
Definition retried (fuel : nat) (c : Client) (ctxDone : Z -> bool) (operation : string)
    (call : nat -> CalendarAPI.Event + GoError) (base : nat)
  : option (option EventTypes.Event * option GoError * nat) :=
  match withRetry fuel c ctxDone operation (fun k => getError (call (base + k)%nat)) with
  | None => None
  | Some run =>
      match ret run with
      | Some err => Some (None, handleAPIError (Some err) operation, calls run)
      | None =>
          match calls run with
          | O => Some (None, None, O)
          | S last =>
              match call (base + last)%nat with
              | inl event => Some (Some (convertEvent event), None, calls run)
              | inr _ => Some (None, None, calls run)
              end
          end
      end
  end.

(** ** CreateEvent *)

(** [t.Format("2006-01-02")]. *)
Definition FormatDate (t : Time) : string :=
  appendInt (Year t) 4 ++ "-" ++ appendInt (Month t) 2 ++ "-" ++ appendInt (Day t) 2.

Definition attendeeOf (email : string) : CalendarAPI.EventAttendee :=
  {| CalendarAPI.Email := email; CalendarAPI.ResponseStatus := "" |}.

(** The event CreateEvent builds. *)
Definition newEvent (params : CreateEventParams) : CalendarAPI.Event :=
  let times :=
    if AllDay params then
      (Some (GCal.mkEventDateTime "" (FormatDate (Start params)) ""),
       Some (GCal.mkEventDateTime "" (FormatDate (End params)) ""))
    else
      let tz := if String.eqb (TimeZone params) "" then "UTC" else TimeZone params in
      (Some (GCal.mkEventDateTime (FormatRFC3339 (Start params)) "" tz),
       Some (GCal.mkEventDateTime (FormatRFC3339 (End params)) "" tz)) in
  {| CalendarAPI.Id := "";
     CalendarAPI.Summary := Summary params;
     CalendarAPI.Description := Description params;
     CalendarAPI.Location := Location params;
     CalendarAPI.Status := "";
     CalendarAPI.Start := fst times;
     CalendarAPI.End := snd times;
     CalendarAPI.Attendees := map attendeeOf (Attendees params);
     CalendarAPI.Recurrence := Recurrence params |}.

Definition CreateEvent (fuel : nat) (c : Client) (ctxDone : Z -> bool)
    (service : CalendarAPI.EventsService) (base : nat) (params : CreateEventParams)
  : option (option EventTypes.Event * option GoError * nat) :=
  match validateCreateParams params with
  | Some err => Some (None, Some (AppErr err), O)
  | None =>
      retried fuel c ctxDone "create event"
        (CalendarAPI.Insert service (CalendarID c) (newEvent params)) base
  end.

(** ** GetEvent *)

Definition GetEvent (fuel : nat) (c : Client) (ctxDone : Z -> bool)
    (service : CalendarAPI.EventsService) (base : nat) (eventID : string)
  : option (option EventTypes.Event * option GoError * nat) :=
  if String.eqb eventID "" then
    Some (None, Some (AppErr (ErrMissingRequired "event-id")), O)
  else
    retried fuel c ctxDone "get event" (CalendarAPI.Get service (CalendarID c) eventID) base.

(** ** UpdateEvent *)

Definition keepTime (t : Events.EventTime) : option GCal.EventDateTime :=
  Some (GCal.mkEventDateTime (Events.DateTime t) (Events.Date t) (Events.TimeZone t)).

(** The event UpdateEvent builds from the one it read and its
    parameters. *)
Definition mergeEvent (existing : EventTypes.Event) (params : CreateEventParams)
  : CalendarAPI.Event :=
  let times :=
    if negb (IsZero (Start params)) && negb (IsZero (End params)) then
      if AllDay params then
        (Some (GCal.mkEventDateTime "" (FormatDate (Start params)) ""),
         Some (GCal.mkEventDateTime "" (FormatDate (End params)) ""))
      else
        let tz := if String.eqb (TimeZone params) ""
                  then Events.TimeZone (EventTypes.Start existing)
                  else TimeZone params in
        (Some (GCal.mkEventDateTime (FormatRFC3339 (Start params)) "" tz),
         Some (GCal.mkEventDateTime (FormatRFC3339 (End params)) "" tz))
    else (keepTime (EventTypes.Start existing), keepTime (EventTypes.End existing)) in
  {| CalendarAPI.Id := "";
     CalendarAPI.Summary :=
       if String.eqb (Summary params) "" then EventTypes.Summary existing
       else Summary params;
     CalendarAPI.Description :=
       if String.eqb (Description params) "" then EventTypes.Description existing
       else Description params;
     CalendarAPI.Location :=
       if String.eqb (Location params) "" then EventTypes.Location existing
       else Location params;
     CalendarAPI.Status := "";
     CalendarAPI.Start := fst times;
     CalendarAPI.End := snd times;
     CalendarAPI.Attendees :=
       if (0 <? length (Attendees params))%nat then map attendeeOf (Attendees params)
       else map (fun att => {| CalendarAPI.Email := EventTypes.Email att;
                               CalendarAPI.ResponseStatus :=
                                 EventTypes.ResponseStatus att |})
                (EventTypes.Attendees existing);
     CalendarAPI.Recurrence :=
       if (0 <? length (Recurrence params))%nat then Recurrence params
       else EventTypes.Recurrence existing |}.

Definition UpdateEvent (fuel : nat) (c : Client) (ctxDone : Z -> bool)
    (service : CalendarAPI.EventsService) (base : nat) (eventID : string)
    (params : CreateEventParams) : Outcome (option EventTypes.Event) :=
  if String.eqb eventID "" then
    Some (Returns (None, Some (AppErr (ErrMissingRequired "event-id")), O))
  else
    match GetEvent fuel c ctxDone service base eventID with
    | None => None
    | Some (_, Some err, n) => Some (Returns (None, Some err, n))
    | Some (None, None, _) => Some Panics
    | Some (Some existing, None, n) =>
        match retried fuel c ctxDone "update event"
                (CalendarAPI.Update service (CalendarID c) eventID
                   (mergeEvent existing params)) (base + n) with
        | None => None
        | Some (updated, err, m) => Some (Returns (updated, err, (n + m)%nat))
        end
    end.

(** ** DeleteEvent *)

Definition DeleteEvent (fuel : nat) (c : Client) (ctxDone : Z -> bool)
    (service : CalendarAPI.EventsService) (base : nat) (eventID : string)
  : option (option GoError * nat) :=
  if String.eqb eventID "" then
    Some (Some (AppErr (ErrMissingRequired "event-id")), O)
  else
    match withRetry fuel c ctxDone "delete event"
            (fun k => CalendarAPI.Delete service (CalendarID c) eventID (base + k)%nat) with
    | None => None
    | Some run => Some (handleAPIError (ret run) "delete event", calls run)
    end.

End EventOps.

(* ===================================================================== *)
(** * pkg/calendar/attendees.go *)
(* ===================================================================== *)

Module Attendees.

Import GoStrings GoTime Types Client APIErrors EventOps.
Local Open Scope string_scope.
Local Open Scope Z_scope.

Record AttendeeOperation := mkAttendeeOperation {
  Add : list string;
  Remove : list string
}.

(** The map ManageAttendees builds: the attendees of the event by their
    address, without those to remove, with those to add that are not yet
    in it. *)
Definition addNew (m : gmap string EventTypes.Attendee) (email : string)
  : gmap string EventTypes.Attendee :=
  match m !! email with
  | Some _ => m
  | None => <[email := EventTypes.mkAttendee email "needsAction" false ""]> m
  end.

Definition newAttendees (existing : list EventTypes.Attendee)
    (operation : AttendeeOperation) : gmap string EventTypes.Attendee :=
  let m := fold_left (fun m att => <[EventTypes.Email att := att]> m) existing ∅ in
  let m := fold_left (fun m email => delete email m) (Remove operation) m in
  fold_left addNew (Add operation) m.

(** [for email := range newAttendees]: the addresses in the order the map
    yields them. *)
Definition attendeeEmails (m : gmap string EventTypes.Attendee) : list string :=
  map fst (map_to_list m).

Definition ManageAttendees (fuel : nat) (c : Client) (ctxDone : Z -> bool)
    (service : CalendarAPI.EventsService) (eventID : string)
    (operation : AttendeeOperation) : Outcome (option EventTypes.Event) :=
  if String.eqb eventID "" then
    Some (Returns (None, Some (AppErr (ErrMissingRequired "event-id")), O))
  else
    match firstInvalidEmail (Add operation) with
    | Some email => Some (Returns (None, Some (AppErr (invalidEmail email)), O))
    | None =>
        match firstInvalidEmail (Remove operation) with
        | Some email => Some (Returns (None, Some (AppErr (invalidEmail email)), O))
        | None =>
            match GetEvent fuel c ctxDone service 0 eventID with
            | None => None
            | Some (_, Some err, n) => Some (Returns (None, Some err, n))
            | Some (None, None, _) => Some Panics
            | Some (Some event, None, n) =>
                let updateParams :=
                  mkCreateEventParams "" "" "" zeroTime zeroTime ""
                    (attendeeEmails (newAttendees (EventTypes.Attendees event) operation))
                    [] false in
                match UpdateEvent fuel c ctxDone service n eventID updateParams with
                | None => None
                | Some Panics => Some Panics
                | Some NotAnExecution => Some NotAnExecution
                | Some (Returns (updated, err, m)) =>
                    Some (Returns (updated, err, (n + m)%nat))
                end
            end
        end
    end.

Definition AddAttendees (fuel : nat) (c : Client) (ctxDone : Z -> bool)
    (service : CalendarAPI.EventsService) (eventID : string) (emails : list string)
  : Outcome (option EventTypes.Event) :=
  ManageAttendees fuel c ctxDone service eventID (mkAttendeeOperation emails []).

Definition RemoveAttendees (fuel : nat) (c : Client) (ctxDone : Z -> bool)
    (service : CalendarAPI.EventsService) (eventID : string) (emails : list string)
  : Outcome (option EventTypes.Event) :=
  ManageAttendees fuel c ctxDone service eventID (mkAttendeeOperation [] emails).


Definition GetAttendees (fuel : nat) (c : Client) (ctxDone : Z -> bool)
    (service : CalendarAPI.EventsService) (eventID : string)
  : Outcome (list EventTypes.Attendee) :=
  match GetEvent fuel c ctxDone service 0 eventID with
  | None => None
  | Some (_, Some err, n) => Some (Returns ([], Some err, n))
  | Some (None, None, _) => Some Panics
  | Some (Some event, None, n) => Some (Returns (EventTypes.Attendees event, None, n))
  end.

(** The loop of FindAttendee. *)
Fixpoint firstWithEmail (attendees : list EventTypes.Attendee) (email : string)
  : option EventTypes.Attendee :=
  match attendees with
  | [] => None
  | att :: rest =>
      if String.eqb (EventTypes.Email att) email then Some att
      else firstWithEmail rest email
  end.

Definition FindAttendee (fuel : nat) (c : Client) (ctxDone : Z -> bool)
    (service : CalendarAPI.EventsService) (eventID email : string)
  : Outcome (option EventTypes.Attendee) :=
  match GetAttendees fuel c ctxDone service eventID with
  | None => None
  | Some Panics => Some Panics
  | Some NotAnExecution => Some NotAnExecution
  | Some (Returns (_, Some err, n)) => Some (Returns (None, Some err, n))
  | Some (Returns (attendees, None, n)) =>
      match firstWithEmail attendees email with
      | Some att => Some (Returns (Some att, None, n))
      | None => Some (Returns (None, Some (AppErr (ErrNotFound "attendee" email)), n))
      end
  end.

End Attendees.

(* ===================================================================== *)
(** * More data for the examples *)
(* ===================================================================== *)

Module MoreExamples.

Import GoTime.
Local Open Scope string_scope.
Local Open Scope Z_scope.

Definition standUp : GCal.Event :=
  GCal.mkEvent "e1" "stand-up"
    (Some (GCal.mkEventDateTime "2024-01-15T09:00:00Z" "" "UTC"))
    (Some (GCal.mkEventDateTime "2024-01-15T09:15:00Z" "" "UTC")).

(** The same event as the Events service returns it, with two
    attendees. *)
Definition standUpEvent : CalendarAPI.Event :=
  {| CalendarAPI.Id := "e1";
     CalendarAPI.Summary := "stand-up";
     CalendarAPI.Description := "";
     CalendarAPI.Location := "";
     CalendarAPI.Status := "confirmed";
     CalendarAPI.Start := Some (GCal.mkEventDateTime "2024-01-15T09:00:00Z" "" "UTC");
     CalendarAPI.End := Some (GCal.mkEventDateTime "2024-01-15T09:15:00Z" "" "UTC");
     CalendarAPI.Attendees :=
       [CalendarAPI.mkEventAttendee "ann@example.org" "accepted";
        CalendarAPI.mkEventAttendee "bob@example.org" "tentative"];
     CalendarAPI.Recurrence := [] |}.

(** A remote that does not know the event: 404 to every call. *)
Definition unknownEvent : CalendarAPI.EventsService :=
  {| CalendarAPI.Get := fun _ _ _ => inr (Types.GoogleAPIError 404 "Not Found");
     CalendarAPI.Insert := fun _ _ _ => inr (Types.GoogleAPIError 404 "Not Found");
     CalendarAPI.Update := fun _ _ _ _ => inr (Types.GoogleAPIError 404 "Not Found");
     CalendarAPI.Delete := fun _ _ _ => Some (Types.GoogleAPIError 404 "Not Found") |}.

(** A remote that is overloaded for the first two calls of an operation
    and then answers. *)
Definition slowStart : CalendarAPI.EventsService :=
  {| CalendarAPI.Get := fun _ _ k =>
       if (k <? 2)%nat then inr (Types.GoogleAPIError 503 "backend error")
       else inl standUpEvent;
     CalendarAPI.Insert := fun _ event k =>
       if (k <? 2)%nat then inr (Types.GoogleAPIError 503 "backend error")
       else inl event;
     CalendarAPI.Update := fun _ _ event k =>
       if (k <? 2)%nat then inr (Types.GoogleAPIError 503 "backend error")
       else inl event;
     CalendarAPI.Delete := fun _ _ k =>
       if (k <? 2)%nat then Some (Types.GoogleAPIError 503 "backend error") else None |}.

(** A remote that holds the stand-up and stores what it is sent. *)
Definition holdsStandUp : CalendarAPI.EventsService :=
  {| CalendarAPI.Get := fun _ _ _ => inl standUpEvent;
     CalendarAPI.Insert := fun _ event _ => inl event;
     CalendarAPI.Update := fun _ _ event _ => inl event;
     CalendarAPI.Delete := fun _ _ _ => None |}.

(** A meeting to create. *)
Definition reviewMeeting : EventOps.CreateEventParams :=
  {| EventOps.Summary := "review";
     EventOps.Description := "";
     EventOps.Location := "room 2";
     EventOps.Start := Examples.at_ 9 0;
     EventOps.End := Examples.at_ 10 0;
     EventOps.TimeZone := "";
     EventOps.Attendees := ["ann@example.org"];
     EventOps.Recurrence := [];
     EventOps.AllDay := false |}.

(** A remote with three calendars on 2024-01-15: ["work"] busy from 10:00
    to 11:00, ["home"] busy from 9:00 to 9:30, and ["gone"], which it does
    not know and reports with an error and no busy period. *)
Definition threeCalendars : GCal.Service :=
  {| GCal.FreebusyQuery := fun _ =>
       inl {[ "work" := GCal.mkFreeBusyCalendar
                          [GCal.mkTimePeriod "2024-01-15T10:00:00Z" "2024-01-15T11:00:00Z"]
                          [];
              "home" := GCal.mkFreeBusyCalendar
                          [GCal.mkTimePeriod "2024-01-15T09:00:00Z" "2024-01-15T09:30:00Z"]
                          [];
              "gone" := GCal.mkFreeBusyCalendar [] [("global", "notFound")] ]};
     GCal.EventsList := fun _ _ _ _ => inl [] |}.

(** What QueryFreeBusy makes of its answer for the window from 9:00 to
    12:00. *)
Definition threeCalendarsAnswer : FreeBusy.FreeBusyQueryResponse :=
  FreeBusy.mkFreeBusyQueryResponse
    {[ "work" := FreeBusy.mkFreeBusyInfo "work"
                   [FreeBusy.mkFreeBusyPeriod "2024-01-15T10:00:00Z"
                      "2024-01-15T11:00:00Z"] [];
       "home" := FreeBusy.mkFreeBusyInfo "home"
                   [FreeBusy.mkFreeBusyPeriod "2024-01-15T09:00:00Z"
                      "2024-01-15T09:30:00Z"] [];
       "gone" := FreeBusy.mkFreeBusyInfo "gone" [] ["global: notFound"] ]}
    "2024-01-15T09:00:00Z" "2024-01-15T12:00:00Z".

(** A remote that lists one timed event for ["work"] and, for ["home"],
    a timed event at 08:00 and an all-day event. *)
Definition twoListings : GCal.Service :=
  {| GCal.FreebusyQuery := fun _ => inl ∅;
     GCal.EventsList := fun calendarID _ _ _ =>
       if String.eqb calendarID "work" then inl [standUp]
       else inl [GCal.mkEvent "h1" "school run"
                   (Some (GCal.mkEventDateTime "2024-01-15T08:00:00Z" "" "UTC"))
                   (Some (GCal.mkEventDateTime "2024-01-15T08:30:00Z" "" "UTC"));
                 GCal.mkEvent "h2" "birthday"
                   (Some (GCal.mkEventDateTime "" "2024-01-15" ""))
                   (Some (GCal.mkEventDateTime "" "2024-01-16" ""))] |}.

End MoreExamples.

(* ===================================================================== *)
(** * pkg/calendar/nlp_dates.go: recognising a natural-language date *)
(* ===================================================================== *)

Module Recognise.

Import GoStrings.
Local Open Scope string_scope.

(** strings.Contains. *)
Fixpoint Contains (s substr : string) : bool :=
  HasPrefix s substr
  || match s with
     | EmptyString => false
     | String _ r => Contains r substr
     end.

Definition nlPatterns : list string :=
  [ "now"; "today"; "tomorrow"; "yesterday";
    "next "; "this "; "last ";
    "in ";
    "monday"; "tuesday"; "wednesday"; "thursday"; "friday"; "saturday"; "sunday";
    "mon"; "tue"; "wed"; "thu"; "fri"; "sat"; "sun" ].

Definition IsNaturalLanguageDate (input : string) : bool :=
  let input := ToLower (TrimSpace input) in
  existsb (Contains input) nlPatterns.

End Recognise.

(* ===================================================================== *)
(** * Measures the properties are stated with *)
(* ===================================================================== *)

Module Measures.

Import GoTime Types Multi.
Local Open Scope string_scope.
Local Open Scope Z_scope.

(** [a] does not start after [b]: the swap test [startI > startJ] fails
    for them in this order. *)
Definition notAfter (a b : MultiCalendarEvent) : Prop :=
  String.ltb (startOf b) (startOf a) = false.

(** The events before position [i] are in their final place: none starts
    after any event that follows it. *)
Definition settled (i : nat) (events : list MultiCalendarEvent) : Prop :=
  forall p q a b,
    (p < i)%nat -> (p < q)%nat ->
    events !! p = Some a -> events !! q = Some b -> notAfter a b.

(** The event at position [i] does not start after those up to [j]. *)
Definition leads (i j : nat) (events : list MultiCalendarEvent) : Prop :=
  forall q a b,
    (i < q < j)%nat ->
    events !! i = Some a -> events !! q = Some b -> notAfter a b.

Section Listing.

Variable service : GCal.Service.
Variables timeMin timeMax : Time.
Variable maxResults : Z.

(** The events the remote lists for one calendar, and the entries the
    goroutine of that calendar appends. *)
Definition listedItems (calendarID : string) : list GCal.Event :=
  match GCal.EventsList service calendarID (FormatRFC3339 timeMin) (FormatRFC3339 timeMax)
          (if 0 <? maxResults then maxResults else 0) with
  | inl items => items
  | inr _ => []
  end.

Definition entriesOf (calendarID : string) : list MultiCalendarEvent :=
  map (fun event => mkMultiCalendarEvent calendarID (Events.convertEvent event))
      (listedItems calendarID).

Definition answers (calendarID : string) : Prop :=
  exists items,
    GCal.EventsList service calendarID (FormatRFC3339 timeMin) (FormatRFC3339 timeMax)
      (if 0 <? maxResults then maxResults else 0) = inl items.

End Listing.

(** The first instant of the civil day that lies [k] days after the day
    of [now], in a location whose offset never changes. *)
Definition startOfDay (now : Time) (k : Z) : Time :=
  {| unixNano := ((absSec now / 86400 + k) * 86400 - locBase (loc now)) * Second;
     loc := loc now |}.

(** A day and the text after ["at"]: the first instant of the day when
    there is no text, else the hour and the minute that the text gives,
    its seconds left out, or the error of reading it. *)
Definition atTimeOfDay (midnight : Time) (timeStr : string) : string + string :=
  if String.eqb timeStr "" then inl (FormatRFC3339 midnight)
  else
    match NLP.parseTimeOfDay timeStr (loc midnight) with
    | inr err => inr err
    | inl parsedTime =>
        inl (FormatRFC3339
               (Add midnight
                    ((HourOf parsedTime * 3600 + MinuteOf parsedTime * 60) * Second)))
    end.

(** The length of the units of ["in <number> <unit>"] that have one. *)
Definition unitLength (unit : string) : option Z :=
  if String.eqb unit "minute" || String.eqb unit "minutes" then Some Minute
  else if String.eqb unit "hour" || String.eqb unit "hours" then Some Hour
  else if String.eqb unit "day" || String.eqb unit "days" then Some (24 * Hour)
  else if String.eqb unit "week" || String.eqb unit "weeks" then Some (7 * 24 * Hour)
  else None.

(** Whether the byte [c] occurs in [s]. *)
Fixpoint occurs (c : ascii) (s : string) : bool :=
  match s with
  | EmptyString => false
  | String d r => Ascii.eqb c d || occurs c r
  end.

(** The parameters CreateEvent accepts. *)
Definition validParams (params : EventOps.CreateEventParams) : Prop :=
  EventOps.Summary params <> ""
  /\ IsZero (EventOps.Start params) = false
  /\ IsZero (EventOps.End params) = false
  /\ unixNano (EventOps.Start params) < unixNano (EventOps.End params)
  /\ Forall (fun email => EventOps.isValidEmail email = true) (EventOps.Attendees params).


(** A time that RFC 3339 can show: the year has four digits, and the
    offset in force is a whole number of minutes, less than a day. *)
Definition printable (t : Time) : Prop :=
  0 <= Year t <= 9999
  /\ offsetAt (loc t) (unixSec t) mod 60 = 0
  /\ -86400 < offsetAt (loc t) (unixSec t) < 86400.

(** The two and the four decimal digits of a number. *)
Definition twoDigits (n : Z) : string :=
  String (GoStrings.digitChar (n / 10)) (String (GoStrings.digitChar (n mod 10)) "").

Definition fourDigits (n : Z) : string :=
  String (GoStrings.digitChar (n / 1000))
    (String (GoStrings.digitChar (n / 100 mod 10))
       (String (GoStrings.digitChar (n / 10 mod 10))
          (String (GoStrings.digitChar (n mod 10)) ""))).

(** A text of white space only. *)
Fixpoint blank (s : string) : bool :=
  match s with
  | EmptyString => true
  | String c r => GoStrings.isSpace c && blank r
  end.

(** The sum of the waits of a run. *)
Definition total (waits : list Z) : Z := fold_right Z.add 0 waits.

(** A result slot that records a success. *)
Definition succeeded (result : option Batch.BatchResult) : bool :=
  match result with
  | Some result => Batch.Success result
  | None => false
  end.

(** Goroutines that wait for their permit. *)
Definition isWaiting (s : Batch.GStatus) : bool :=
  match s with Batch.Waiting => true | _ => false end.

Definition waiting (status : list Batch.GStatus) : nat :=
  length (List.filter isWaiting status).

End Measures.

(* ===================================================================== *)
(** * Properties *)
(* ===================================================================== *)

(** ** Machine integers *)

Lemma wrap64_in_range (x : Z) :
  GoInt.minInt64 <= x <= GoInt.maxInt64 -> GoInt.wrap64 x = x.
Proof.
  unfold GoInt.minInt64, GoInt.maxInt64, GoInt.wrap64. intros Hx.
  rewrite Z.mod_small by lia. lia.
Qed.

(** ** The retry executor *)

Section Retry.

Import Types Client.

Variable c : Client.
Variable ctxDone : Z -> bool.
Variable operation : string.
Variable fn : nat -> option GoError.

Hypothesis retries_fit : MaxRetries c < GoInt.maxInt64.
Hypothesis never_cancelled : forall a, ctxDone a = false.

(** [j] retryable failures in a row take the loop [j] attempts further. *)
Lemma retryLoop_retries (j : nat) :
  forall fuel attempt lastErr ncalls waited,
    0 <= attempt ->
    attempt + Z.of_nat j <= MaxRetries c + 1 ->
    (forall i, (i < j)%nat ->
               exists err, fn (ncalls + i)%nat = Some err /\ isRetryable err = true) ->
    retryLoop (j + fuel) c ctxDone operation fn attempt lastErr ncalls waited
    = retryLoop fuel c ctxDone operation fn (attempt + Z.of_nat j)
        (match j with O => lastErr | S j' => fn (ncalls + j')%nat end)
        (ncalls + j)%nat (waited ++ backoffs c attempt j).
Proof.
  induction j as [|j IH]; intros fuel attempt lastErr ncalls waited Hpos Hle Hfn.
  - cbn [backoffs Nat.add]. rewrite Z.add_0_r, Nat.add_0_r, app_nil_r. reflexivity.
  - destruct (Hfn 0%nat ltac:(lia)) as (err & Herr & Hretry).
    rewrite Nat.add_0_r in Herr.
    change (S j + fuel)%nat with (S (j + fuel)).
    cbn [retryLoop].
    replace (attempt <=? MaxRetries c) with true by (symmetry; apply Z.leb_le; lia).
    rewrite never_cancelled, andb_false_r, Herr, Hretry. cbn [negb].
    rewrite wrap64_in_range by (unfold GoInt.minInt64, GoInt.maxInt64 in *; lia).
    rewrite IH.
    + replace (attempt + 1 + Z.of_nat j) with (attempt + Z.of_nat (S j)) by lia.
      replace (S ncalls + j)%nat with (ncalls + S j)%nat by lia.
      cbn [backoffs]. f_equal.
      * destruct j as [|j']; [now rewrite Nat.add_0_r|].
        f_equal. lia.
      * destruct (0 <? attempt); cbn [app]; now rewrite <- ?app_assoc.
    + lia.
    + lia.
    + intros i Hi. destruct (Hfn (S i) ltac:(lia)) as (e & He & Hr).
      exists e. split; [|exact Hr]. rewrite <- He. f_equal. lia.
Qed.

End Retry.

Lemma backoffs_snoc (c : Client.Client) (n : nat) :
  forall a,
    Client.backoffs c a (S n)
    = (Client.backoffs c a n
         ++ (if 0 <? a + Z.of_nat n then [Client.backoffDelay c (a + Z.of_nat n)] else []))%list.
Proof.
  induction n as [|n IH]; intros a.
  - cbn [Client.backoffs]. rewrite Z.add_0_r, app_nil_r. reflexivity.
  - change (Client.backoffs c a (S (S n)))
      with ((if 0 <? a then [Client.backoffDelay c a] else [])
              ++ Client.backoffs c (a + 1) (S n))%list.
    rewrite IH. cbn [Client.backoffs].
    replace (a + 1 + Z.of_nat n) with (a + Z.of_nat (S n)) by lia.
    now rewrite app_assoc.
Qed.

(** C1 (as the code has it).  When the wrapped function fails with a
    retryable error on every call and the context is not cancelled,
    [withRetry] terminates (any fuel above [MaxRetries + 1] is enough)
    after calling the function exactly [MaxRetries + 1] times, with the
    backoff delays of attempts 1 to [MaxRetries] waited out in between, and
    returns the API error that names [MaxRetries + 1] attempts and wraps the
    error of the last call. *)
Theorem C1_withRetry_exhausts_after_MaxRetries_plus_one :
  forall (c : Client.Client) (ctxDone : Z -> bool) (operation : string)
         (fn : nat -> option Types.GoError) (fuel : nat),
    0 <= Client.MaxRetries c < GoInt.maxInt64 ->
    (forall a, ctxDone a = false) ->
    (forall k, exists err, fn k = Some err /\ Client.isRetryable err = true) ->
    (Z.to_nat (Client.MaxRetries c) + 1 < fuel)%nat ->
    exists run,
      Client.withRetry fuel c ctxDone operation fn = Some run
      /\ Client.calls run = Z.to_nat (Client.MaxRetries c + 1)
      /\ Client.waits run = Client.backoffs c 1 (Z.to_nat (Client.MaxRetries c))
      /\ exists e,
           Client.ret run = Some (Types.AppErr e)
           /\ Types.Code e = Types.ErrCodeAPIError
           /\ Types.Details e
              = (operation ++ " failed after "
                   ++ GoStrings.itoa (Client.MaxRetries c + 1) ++ " attempts")%string
           /\ Types.wrapped e = fn (Z.to_nat (Client.MaxRetries c)).
Proof.
  intros c ctxDone operation fn fuel [Hlo Hhi] Hctx Hfn Hfuel.
  set (j := Z.to_nat (Client.MaxRetries c + 1)).
  assert (Hj : j = S (Z.to_nat (Client.MaxRetries c))) by (unfold j; lia).
  destruct (Nat.le_exists_sub (S j) fuel ltac:(lia)) as (rest & -> & _).
  unfold Client.withRetry.
  replace (rest + S j)%nat with (j + S rest)%nat by lia.
  rewrite (retryLoop_retries c ctxDone operation fn Hhi Hctx j) by
    (try lia; intros i _; apply Hfn).
  cbn [Client.retryLoop].
  replace (0 + Z.of_nat j <=? Client.MaxRetries c) with false
    by (symmetry; apply Z.leb_gt; lia).
  eexists. split; [reflexivity|]. cbn.
  split; [lia|]. split.
  - rewrite Hj. cbn [Client.backoffs]. reflexivity.
  - eexists. split; [reflexivity|]. cbn.
    rewrite wrap64_in_range by (unfold GoInt.minInt64, GoInt.maxInt64 in *; lia).
    repeat split. rewrite Hj. reflexivity.
Qed.

(** The default client of [NewClient]: three retries, so four calls, after
    waits of one, two and four seconds. *)
Lemma C1_witness_default_client :
  exists run,
    Client.withRetry 10 (Client.NewClient None "primary") (fun _ => false)
      "list events" (fun _ => Some (Types.GoogleAPIError 429 "rate limit")) = Some run
    /\ Client.calls run = Z.to_nat (3 + 1)
    /\ Client.waits run = Client.backoffs (Client.NewClient None "primary") 1 (Z.to_nat 3)
    /\ exists e,
         Client.ret run = Some (Types.AppErr e)
         /\ Types.Code e = Types.ErrCodeAPIError
         /\ Types.Details e
            = ("list events" ++ " failed after "
                 ++ GoStrings.itoa (3 + 1) ++ " attempts")%string
         /\ Types.wrapped e = Some (Types.GoogleAPIError 429 "rate limit").
Proof.
  apply (C1_withRetry_exhausts_after_MaxRetries_plus_one
           (Client.NewClient None "primary") (fun _ => false) "list events"
           (fun _ => Some (Types.GoogleAPIError 429 "rate limit")) 10%nat).
  - cbn [Client.MaxRetries Client.NewClient]. unfold GoInt.maxInt64. lia.
  - intros a. reflexivity.
  - intros k. eexists. split; reflexivity.
  - cbn [Client.MaxRetries Client.NewClient]. lia.
Defined.

(** C1 as the specification states it fails: with the default client the
    function is called four times, not three. *)
Lemma C1_counterexample_four_calls :
  exists run,
    Client.withRetry 10 (Client.NewClient None "primary") (fun _ => false)
      "list events" (fun _ => Some (Types.GoogleAPIError 429 "rate limit")) = Some run
    /\ Client.MaxRetries (Client.NewClient None "primary") = 3
    /\ Client.calls run = 4%nat
    /\ Client.calls run <> 3%nat
    /\ Client.waits run = [1 * GoTime.Second; 2 * GoTime.Second; 4 * GoTime.Second].
Proof.
  eexists. split; [vm_compute; reflexivity|].
  cbn. repeat split. intros H; discriminate H.
Qed.




(** ** The availability engine *)

Section SlotLoop.

Import GoTime FreeBusy.

Lemma Add_zero (t : Time) : Add t 0 = t.
Proof. destruct t as [n l]. unfold Add. cbn. f_equal. lia. Qed.

Lemma Add_Add (t : Time) (a b : Z) : Add (Add t a) b = Add t (a + b).
Proof. unfold Add. cbn. f_equal. lia. Qed.

(** The loop test: the slot that starts at [current] ends by [end_]. *)
Lemma slot_fits (current end_ : Time) (d : Z) :
  Before (Add current d) end_ || Equal (Add current d) end_ = true
  <-> unixNano current + d <= unixNano end_.
Proof.
  unfold Before, Equal, Add. cbn [unixNano].
  rewrite orb_true_iff, Z.ltb_lt, Z.eqb_eq. lia.
Qed.

Lemma strides_S (t : Time) (d : Z) (n : nat) :
  strides t d (S n) = t :: strides (Add t d) d n.
Proof.
  unfold strides. cbn [seq map]. f_equal.
  - cbn [Z.of_nat Z.mul]. apply Add_zero.
  - rewrite <- seq_shift, map_map. apply map_ext. intros k.
    rewrite Add_Add. f_equal. lia.
Qed.

Lemma slotCount_O (current end_ : Time) (d : Z) :
  0 < d -> slotCount current end_ d = O -> ~ unixNano current + d <= unixNano end_.
Proof.
  unfold slotCount. intros Hd Hn Hfit.
  assert (1 <= (unixNano end_ - unixNano current) / d)
    by (apply Z.div_le_lower_bound; lia).
  lia.
Qed.

Lemma slotCount_S (current end_ : Time) (d : Z) (n : nat) :
  0 < d -> slotCount current end_ d = S n ->
  unixNano current + d <= unixNano end_ /\ slotCount (Add current d) end_ d = n.
Proof.
  unfold slotCount, Add. cbn [unixNano]. intros Hd Hn.
  set (x := unixNano end_ - unixNano current) in *.
  assert (Hq : 1 <= x / d) by lia.
  assert (Hx : d <= x).
  { pose proof (Z.mul_div_le x d Hd). nia. }
  split; [lia|].
  replace (unixNano end_ - (unixNano current + d)) with (x + (-1) * d) by lia.
  rewrite Z.div_add by lia. lia.
Qed.

(** With a positive stride the loop ends, and what it returns are the
    candidates that no busy period overlaps, in order. *)
Lemma slotLoop_positive (busy : list (Time * Time)) (end_ : Time) (d : Z) :
  0 < d ->
  forall (n fuel : nat) (current : Time) (freeSlots : list Time),
    slotCount current end_ d = n ->
    (n < fuel)%nat ->
    slotLoop fuel busy end_ d current freeSlots
    = Some (freeSlots
              ++ List.filter (fun t => slotIsFree busy t (Add t d)) (strides current d n)).
Proof.
  intros Hd. induction n as [|n IH]; intros fuel current freeSlots Hn Hfuel;
    (destruct fuel as [|fuel]; [lia|]); cbn [slotLoop].
  - apply slotCount_O in Hn; [|exact Hd].
    destruct (Before (Add current d) end_ || Equal (Add current d) end_) eqn:E.
    + apply slot_fits in E. contradiction.
    + cbn. now rewrite app_nil_r.
  - apply slotCount_S in Hn; [|exact Hd]. destruct Hn as [Hfit Hn].
    apply slot_fits in Hfit. rewrite Hfit.
    rewrite (IH fuel) by (try exact Hn; lia).
    rewrite strides_S. cbn [List.filter].
    destruct (slotIsFree busy current (Add current d)); [|reflexivity].
    now rewrite <- app_assoc.
Qed.

(** With a stride that is zero or negative the loop, once entered, is
    never left. *)
Lemma slotLoop_nonpositive (busy : list (Time * Time)) (end_ : Time) (d : Z) :
  d <= 0 ->
  forall (fuel : nat) (current : Time) (freeSlots : list Time),
    unixNano current + d <= unixNano end_ ->
    slotLoop fuel busy end_ d current freeSlots = None.
Proof.
  intros Hd. induction fuel as [|fuel IH]; intros current freeSlots Hfit; [reflexivity|].
  cbn [slotLoop]. pose proof Hfit as Hfit'. apply slot_fits in Hfit'. rewrite Hfit'.
  apply IH. unfold Add. cbn [unixNano]. lia.
Qed.

Lemma filter_all_free (d : Z) (l : list Time) :
  List.filter (fun t => slotIsFree [] t (Add t d)) l = l.
Proof.
  induction l as [|t l IH]; [reflexivity|].
  change (t :: List.filter (fun t => slotIsFree [] t (Add t d)) l = t :: l).
  now rewrite IH.
Qed.

End SlotLoop.

(** C6.  For a calendar whose busy list comes back empty and a positive
    slot duration [d], FindFreeSlots returns (given fuel for one more test
    than there are slots) exactly the stride positions [start],
    [start + d], [start + 2d], ... in that order, and position number [k]
    is among them if and only if its slot ends by [end_]: the enumeration
    covers every fitting candidate and stops at the first that does not
    fit. *)
Theorem C6_FindFreeSlots_empty_busy_enumerates_strides :
  forall (c : Client.Client) (calendarID : string) (start end_ : GoTime.Time) (d : Z)
         (response : FreeBusy.FreeBusyQueryResponse) (calInfo : FreeBusy.FreeBusyInfo)
         (fuel : nat),
    0 < d ->
    FreeBusy.QueryFreeBusy c (FreeBusy.windowRequest [calendarID] start end_)
      = inl response ->
    FreeBusy.Calendars response !! calendarID = Some calInfo ->
    FreeBusy.Busy calInfo = [] ->
    (FreeBusy.slotCount start end_ d < fuel)%nat ->
    FreeBusy.FindFreeSlots fuel c calendarID start end_ d
      = Some (FreeBusy.strides start d (FreeBusy.slotCount start end_ d), None)
    /\ (forall k : nat,
          (k < FreeBusy.slotCount start end_ d)%nat
          <-> GoTime.unixNano start + Z.of_nat k * d + d <= GoTime.unixNano end_).
Proof.
  intros c calendarID start end_ d response calInfo fuel Hd Hq Hcal Hbusy Hfuel.
  split.
  - unfold FreeBusy.FindFreeSlots. rewrite Hq, Hcal, Hbusy. cbn [map].
    rewrite (slotLoop_positive [] end_ d Hd (FreeBusy.slotCount start end_ d))
      by (try reflexivity; exact Hfuel).
    now rewrite filter_all_free.
  - intros k. unfold FreeBusy.slotCount.
    set (x := GoTime.unixNano end_ - GoTime.unixNano start).
    split; intros H.
    + assert (Z.of_nat k + 1 <= x / d) by lia.
      pose proof (Z.mul_div_le x d Hd). nia.
    + assert (Z.of_nat k + 1 <= x / d) by (apply Z.div_le_lower_bound; lia).
      lia.
Qed.

(** Nothing booked between 9:00 and 12:00: the three one-hour slots. *)
Lemma C6_witness_three_hour_slots :
  FreeBusy.FindFreeSlots 10 (Client.NewClient (Some Examples.nothingBooked) "cal1")
    "cal1" (Examples.at_ 9 0) (Examples.at_ 12 0) GoTime.Hour
  = Some (FreeBusy.strides (Examples.at_ 9 0) GoTime.Hour
            (FreeBusy.slotCount (Examples.at_ 9 0) (Examples.at_ 12 0) GoTime.Hour),
          None)
  /\ (forall k : nat,
        (k < FreeBusy.slotCount (Examples.at_ 9 0) (Examples.at_ 12 0) GoTime.Hour)%nat
        <-> GoTime.unixNano (Examples.at_ 9 0) + Z.of_nat k * GoTime.Hour + GoTime.Hour
            <= GoTime.unixNano (Examples.at_ 12 0)).
Proof.
  eapply (C6_FindFreeSlots_empty_busy_enumerates_strides
            (Client.NewClient (Some Examples.nothingBooked) "cal1") "cal1"
            (Examples.at_ 9 0) (Examples.at_ 12 0) GoTime.Hour).
  - reflexivity.
  - vm_compute. reflexivity.
  - vm_compute. reflexivity.
  - reflexivity.
  - vm_compute. lia.
Defined.

(** C10.  The slot loops of FindFreeSlots and FindCommonFreeTime end for
    every positive slot duration, whatever the other inputs.  Nothing
    checks the duration before the loop: when the free/busy query succeeds
    and the first slot fits, a duration that is zero or negative keeps both
    functions in the loop for ever (no fuel is enough). *)
Theorem C10_slot_loops_end_iff_duration_positive :
  forall (c : Client.Client) (calendarID : string) (calendarIDs : list string)
         (start end_ : GoTime.Time) (d : Z),
    (0 < d ->
     forall fuel, (FreeBusy.slotCount start end_ d < fuel)%nat ->
       (exists r, FreeBusy.FindFreeSlots fuel c calendarID start end_ d = Some r)
       /\ (exists r, Multi.FindCommonFreeTime fuel c calendarIDs start end_ d = Some r))
    /\ (d <= 0 ->
        GoTime.unixNano start + d <= GoTime.unixNano end_ ->
        (forall response calInfo,
            FreeBusy.QueryFreeBusy c (FreeBusy.windowRequest [calendarID] start end_)
              = inl response ->
            FreeBusy.Calendars response !! calendarID = Some calInfo ->
            forall fuel, FreeBusy.FindFreeSlots fuel c calendarID start end_ d = None)
        /\ (forall response,
               FreeBusy.QueryFreeBusy c (FreeBusy.windowRequest calendarIDs start end_)
                 = inl response ->
               forall fuel, Multi.FindCommonFreeTime fuel c calendarIDs start end_ d = None)).
Proof.
  intros c calendarID calendarIDs start end_ d. split.
  - intros Hd fuel Hfuel. split.
    + unfold FreeBusy.FindFreeSlots.
      destruct (FreeBusy.QueryFreeBusy _ _) as [response|err]; [|eauto].
      destruct (FreeBusy.Calendars response !! calendarID) as [calInfo|]; [|eauto].
      rewrite (slotLoop_positive _ end_ d Hd (FreeBusy.slotCount start end_ d))
        by (try reflexivity; exact Hfuel).
      eauto.
    + unfold Multi.FindCommonFreeTime.
      destruct (Client.Service c); [|eauto].
      destruct (length calendarIDs =? 0)%nat; [eauto|].
      destruct (FreeBusy.QueryFreeBusy _ _) as [response|err]; [|eauto].
      rewrite (slotLoop_positive _ end_ d Hd (FreeBusy.slotCount start end_ d))
        by (try reflexivity; exact Hfuel).
      eauto.
  - intros Hd Hfit. split.
    + intros response calInfo Hq Hcal fuel.
      unfold FreeBusy.FindFreeSlots. rewrite Hq, Hcal.
      now rewrite slotLoop_nonpositive.
    + intros response Hq fuel.
      unfold Multi.FindCommonFreeTime.
      pose proof Hq as Hq'. unfold FreeBusy.QueryFreeBusy in Hq'.
      destruct (Client.Service c); [|discriminate Hq'].
      cbn [FreeBusy.windowRequest FreeBusy.CalendarIDs] in Hq'.
      destruct (String.eqb _ _ || String.eqb _ _); [discriminate Hq'|].
      destruct (length calendarIDs =? 0)%nat; [discriminate Hq'|].
      rewrite Hq. now rewrite slotLoop_nonpositive.
Qed.

(** One-hour slots between 9:00 and 12:00 are enumerated with fuel 10;
    slots of no length in the same window never are. *)
Lemma C10_witness_one_hour_and_zero :
  ((exists r, FreeBusy.FindFreeSlots 10
                (Client.NewClient (Some Examples.nothingBooked) "cal1") "cal1"
                (Examples.at_ 9 0) (Examples.at_ 12 0) GoTime.Hour = Some r)
   /\ (exists r, Multi.FindCommonFreeTime 10
                   (Client.NewClient (Some Examples.nothingBooked) "cal1") ["cal1"]
                   (Examples.at_ 9 0) (Examples.at_ 12 0) GoTime.Hour = Some r))
  /\ (forall fuel,
         FreeBusy.FindFreeSlots fuel
           (Client.NewClient (Some Examples.nothingBooked) "cal1") "cal1"
           (Examples.at_ 9 0) (Examples.at_ 12 0) 0 = None)
  /\ (forall fuel,
         Multi.FindCommonFreeTime fuel
           (Client.NewClient (Some Examples.nothingBooked) "cal1") ["cal1"]
           (Examples.at_ 9 0) (Examples.at_ 12 0) 0 = None).
Proof.
  split; [|split].
  - apply (proj1 (C10_slot_loops_end_iff_duration_positive
                    (Client.NewClient (Some Examples.nothingBooked) "cal1") "cal1" ["cal1"]
                    (Examples.at_ 9 0) (Examples.at_ 12 0) GoTime.Hour)).
    + reflexivity.
    + vm_compute. lia.
  - eapply (proj1 (proj2 (C10_slot_loops_end_iff_duration_positive
                            (Client.NewClient (Some Examples.nothingBooked) "cal1")
                            "cal1" ["cal1"] (Examples.at_ 9 0) (Examples.at_ 12 0) 0)
                         ltac:(lia) ltac:(vm_compute; discriminate))).
    + vm_compute. reflexivity.
    + vm_compute. reflexivity.
  - eapply (proj2 (proj2 (C10_slot_loops_end_iff_duration_positive
                            (Client.NewClient (Some Examples.nothingBooked) "cal1")
                            "cal1" ["cal1"] (Examples.at_ 9 0) (Examples.at_ 12 0) 0)
                         ltac:(lia) ltac:(vm_compute; discriminate))).
    vm_compute. reflexivity.
Defined.

(** C7 (as the code has it).  IsBusy does not test for overlap: it says
    "busy" exactly when the busy list returned for the window is not empty,
    while CheckConflicts keeps the returned periods that overlap
    [start, end).  So a conflict implies busy, both fail together with the
    same error, and "no conflict" implies "not busy" when every period
    returned for the window overlaps it. *)
Theorem C7_conflict_implies_busy :
  forall (c : Client.Client) (calendarID : string) (start end_ : GoTime.Time),
    (fst (fst (FreeBusy.CheckConflicts c calendarID start end_)) = true ->
     fst (FreeBusy.IsBusy c calendarID start end_) = true)
    /\ snd (FreeBusy.CheckConflicts c calendarID start end_)
       = snd (FreeBusy.IsBusy c calendarID start end_)
    /\ (forall response calInfo,
           FreeBusy.QueryFreeBusy c (FreeBusy.windowRequest [calendarID] start end_)
             = inl response ->
           FreeBusy.Calendars response !! calendarID = Some calInfo ->
           (fst (FreeBusy.IsBusy c calendarID start end_) = true
            <-> FreeBusy.Busy calInfo <> [])
           /\ (Forall (fun period => FreeBusy.conflictsWith start end_ period = true)
                      (FreeBusy.Busy calInfo) ->
               fst (fst (FreeBusy.CheckConflicts c calendarID start end_)) = false ->
               fst (FreeBusy.IsBusy c calendarID start end_) = false)).
Proof.
  intros c calendarID start end_.
  unfold FreeBusy.CheckConflicts, FreeBusy.IsBusy.
  destruct (FreeBusy.QueryFreeBusy _ _) as [response|err].
  2:{ cbn. repeat split; intros; try discriminate; reflexivity. }
  destruct (FreeBusy.Calendars response !! calendarID) as [calInfo|] eqn:Ecal.
  2:{ cbn. repeat split; intros; try discriminate; try reflexivity;
      match goal with H : inl _ = inl _ |- _ => injection H as <- end; congruence. }
  cbn [fst snd]. split; [|split; [reflexivity|]].
  - destruct (FreeBusy.Busy calInfo) as [|p l]; cbn; [discriminate|reflexivity].
  - intros response' calInfo' Hr Hc.
    injection Hr as <-. rewrite Ecal in Hc. injection Hc as <-. split.
    + destruct (FreeBusy.Busy calInfo) as [|p l]; cbn; split;
        try discriminate; try congruence; reflexivity.
    + intros Hall.
      destruct (FreeBusy.Busy calInfo) as [|p l]; [reflexivity|].
      inversion Hall as [|? ? Hp _]; subst. cbn [List.filter]. rewrite Hp.
      cbn. discriminate.
Qed.

(** A meeting from 10:30 to 11:30 conflicts with the busy hour from
    10:00, so the calendar is busy. *)
Lemma C7_witness_conflict_then_busy :
  fst (FreeBusy.IsBusy (Client.NewClient (Some Examples.busyTenToEleven) "cal1") "cal1"
         (Examples.at_ 10 30) (Examples.at_ 11 30)) = true.
Proof.
  apply (proj1 (C7_conflict_implies_busy
                  (Client.NewClient (Some Examples.busyTenToEleven) "cal1") "cal1"
                  (Examples.at_ 10 30) (Examples.at_ 11 30))).
  vm_compute. reflexivity.
Defined.

(** C7 as the specification states it fails: when the remote answer for
    the window 11:00 to 12:00 carries the period 10:00 to 11:00, which
    touches the window without overlapping it, CheckConflicts reports no
    conflict and IsBusy reports busy. *)
Lemma C7_counterexample_touching_period :
  FreeBusy.CheckConflicts (Client.NewClient (Some Examples.busyTenToEleven) "cal1") "cal1"
    (Examples.at_ 11 0) (Examples.at_ 12 0) = (false, [], None)
  /\ FreeBusy.IsBusy (Client.NewClient (Some Examples.busyTenToEleven) "cal1") "cal1"
       (Examples.at_ 11 0) (Examples.at_ 12 0) = (true, None).
Proof. split; vm_compute; reflexivity. Qed.

(** ** The bulk executor *)

Section PoolFacts.

Import Batch.

Context {R A : Type}.
Variable capacity : Z.
Variable store : nat -> R -> A -> A.

Lemma poolStep_inv (st st' : list GStatus * A) (e : Step R) :
  poolStep capacity store st e = Some st' ->
  (exists i, e = Acquire i /\ fst st !! i = Some Waiting
             /\ Z.of_nat (running (fst st)) < capacity
             /\ st' = (<[i := Running]> (fst st), snd st))
  \/ (exists i r, e = Complete i r /\ fst st !! i = Some Running
                  /\ st' = (<[i := Finished]> (fst st), store i r (snd st))).
Proof.
  unfold poolStep. destruct e as [i|i r].
  - destruct (fst st !! i) as [[| |]|] eqn:E; try discriminate.
    destruct (Z.of_nat (running (fst st)) <? capacity) eqn:Hc; [|discriminate].
    intros [= <-]. left. exists i. apply Z.ltb_lt in Hc. auto.
  - destruct (fst st !! i) as [[| |]|] eqn:E; try discriminate.
    intros [= <-]. right. exists i, r. auto.
Qed.

Lemma runPool_length (sched : list (Step R)) :
  forall st st', runPool capacity store sched st = Some st' ->
                 length (fst st') = length (fst st).
Proof.
  induction sched as [|e rest IH]; intros st st'; cbn [runPool].
  - now intros [= <-].
  - destruct (poolStep capacity store st e) as [st1|] eqn:E; [|discriminate].
    intros H. rewrite (IH _ _ H).
    destruct (poolStep_inv _ _ _ E) as [(i & _ & _ & _ & ->)|(i & r & _ & _ & ->)];
      cbn [fst]; apply length_insert.
Qed.

(** An invariant that holds along every schedule: [seen i r] collects the
    answers [r] the goroutines [i] have finished with. *)
Lemma runPool_invariant (P : list GStatus * A -> (nat -> R -> Prop) -> Prop) :
  (forall st (seen seen' : nat -> R -> Prop),
      P st seen -> (forall i r, seen i r -> seen' i r) -> P st seen') ->
  (forall st st' e seen,
      P st seen -> poolStep capacity store st e = Some st' ->
      P st' (fun i r => seen i r \/ Complete i r = e)) ->
  forall sched st st' seen,
    runPool capacity store sched st = Some st' ->
    P st seen ->
    P st' (fun i r => seen i r \/ In (Complete i r) sched).
Proof.
  intros Hmono Hstep. induction sched as [|e rest IH]; intros st st' seen; cbn [runPool].
  - intros [= <-] HP. eapply Hmono; [exact HP|]. auto.
  - destruct (poolStep capacity store st e) as [st1|] eqn:E; [|discriminate].
    intros Hrun HP.
    eapply Hmono; [apply (IH _ _ _ Hrun (Hstep _ _ _ _ HP E))|].
    cbn. intros i r [[H|H]|H]; auto.
Qed.

Lemma joined_inv (n : nat) (init : A) (sched : list (Step R)) (a : A) :
  joined capacity store n init sched = Some a ->
  exists status,
    runPool capacity store sched (replicate n Waiting, init) = Some (status, a)
    /\ length status = n
    /\ forall i, (i < n)%nat -> status !! i = Some Finished.
Proof.
  unfold joined.
  destruct (runPool _ _ _ _) as [[status a']|] eqn:E; [|discriminate].
  destruct (forallb isFinished status) eqn:F; [|discriminate].
  intros [= <-]. exists status.
  pose proof (runPool_length _ _ _ E) as Hlen. cbn [fst] in Hlen.
  rewrite length_replicate in Hlen.
  split; [reflexivity|]. split; [exact Hlen|].
  intros i Hi. destruct (lookup_lt_is_Some_2 status i ltac:(lia)) as [s Hs].
  rewrite Hs. f_equal.
  assert (Hin : In s status)
    by (apply list_elem_of_In; eapply list_elem_of_lookup_2; exact Hs).
  rewrite forallb_forall in F. specialize (F s Hin).
  destruct s; [discriminate F|discriminate F|reflexivity].
Qed.

End PoolFacts.

Section PermitFacts.

Import Batch.

Lemma running_insert_le (status : list GStatus) :
  forall i s, (running (<[i := s]> status) <= S (running status))%nat.
Proof.
  unfold running. induction status as [|a l IH]; intros i s; [simpl; lia|].
  destruct i as [|i].
  - change (<[0%nat := s]> (a :: l)) with (s :: l). cbn [List.filter].
    destruct (isRunning s), (isRunning a); cbn [length]; lia.
  - change (<[S i := s]> (a :: l)) with (a :: <[i := s]> l). cbn [List.filter].
    specialize (IH i s). destruct (isRunning a); cbn [length]; lia.
Qed.

Lemma running_insert_Finished (status : list GStatus) :
  forall i, (running (<[i := Finished]> status) <= running status)%nat.
Proof.
  unfold running. induction status as [|a l IH]; intros i; [simpl; lia|].
  destruct i as [|i].
  - change (<[0%nat := Finished]> (a :: l)) with (Finished :: l). cbn [List.filter isRunning].
    destruct (isRunning a); cbn [length]; lia.
  - change (<[S i := Finished]> (a :: l)) with (a :: <[i := Finished]> l).
    cbn [List.filter]. specialize (IH i). destruct (isRunning a); cbn [length]; lia.
Qed.

Lemma running_none (status : list GStatus) :
  Forall (fun s => isRunning s = false) status -> running status = O.
Proof.
  unfold running. induction 1 as [|s l Hs _ IH]; [reflexivity|].
  cbn [List.filter]. now rewrite Hs.
Qed.

Context {R A : Type}.
Variable capacity : Z.
Variable store : nat -> R -> A -> A.

(** The semaphore: never more permits in use than the channel holds. *)
Lemma permits_bounded (bound : nat) :
  capacity <= Z.of_nat bound ->
  forall sched st p,
    (running (fst st) <= bound)%nat ->
    peakPermits capacity store sched st = Some p ->
    (p <= bound)%nat.
Proof.
  intros Hcap. induction sched as [|e rest IH]; intros st p Hrun; cbn [peakPermits].
  - intros [= <-]. exact Hrun.
  - destruct (poolStep capacity store st e) as [st1|] eqn:E; [|discriminate].
    destruct (peakPermits capacity store rest st1) as [q|] eqn:Q; [|discriminate].
    intros [= <-].
    assert (Hq : (q <= bound)%nat).
    { apply (IH st1); [|exact Q].
      destruct (poolStep_inv _ _ _ _ _ E) as [(i & _ & _ & Hlt & ->)|(i & r & _ & _ & ->)];
        cbn [fst].
      - pose proof (running_insert_le (fst st) i Running). lia.
      - pose proof (running_insert_Finished (fst st) i). lia. }
    lia.
Qed.

(** Every call has an execution: the goroutines can always run one after
    the other. *)
Lemma oneByOne_runs (out : nat -> R) :
  1 <= capacity ->
  forall n pre a,
    Forall (fun s => s = Finished) pre ->
    exists a',
      runPool capacity store (oneByOne out (length pre) n) (pre ++ replicate n Waiting, a)
      = Some (pre ++ replicate n Finished, a').
Proof.
  intros Hcap. induction n as [|n IH]; intros pre a Hpre; cbn [oneByOne runPool replicate].
  - eauto.
  - assert (Hrun : running (pre ++ Waiting :: replicate n Waiting) = O).
    { apply running_none, Forall_app. split.
      - eapply Forall_impl; [exact Hpre|]. now intros s ->.
      - constructor; [reflexivity|]. apply Forall_replicate. reflexivity. }
    unfold poolStep at 1. cbn [fst snd].
    rewrite list_lookup_middle by reflexivity. rewrite Hrun.
    replace (Z.of_nat 0 <? capacity) with true by (symmetry; apply Z.ltb_lt; lia).
    rewrite insert_app_r_alt by lia. rewrite Nat.sub_diag.
    change (<[0%nat := Running]> (Waiting :: replicate n Waiting))
      with (Running :: replicate n Waiting).
    unfold poolStep at 1. cbn [fst snd].
    rewrite list_lookup_middle by reflexivity.
    rewrite insert_app_r_alt by lia. rewrite Nat.sub_diag.
    change (<[0%nat := Finished]> (Running :: replicate n Waiting))
      with (Finished :: replicate n Waiting).
    destruct (IH (pre ++ [Finished]) (store (length pre) (out (length pre)) a)) as [a' Ha'].
    { apply Forall_app. split; [exact Hpre|]. constructor; [reflexivity|constructor]. }
    rewrite length_app in Ha'. cbn [length] in Ha'.
    rewrite Nat.add_1_r, <- !app_assoc in Ha'. cbn [app] in Ha'.
    eauto.
Qed.

Lemma oneByOne_joined (out : nat -> R) (n : nat) (init : A) :
  1 <= capacity ->
  exists a, joined capacity store n init (oneByOne out 0 n) = Some a.
Proof.
  intros Hcap. unfold joined.
  destruct (oneByOne_runs out Hcap n [] init ltac:(constructor)) as [a Ha].
  cbn [length app] in Ha. rewrite Ha.
  replace (forallb isFinished (replicate n Finished)) with true; [eauto|].
  symmetry. apply forallb_forall. intros s Hs.
  apply list_elem_of_In, elem_of_replicate in Hs. destruct Hs as [-> _]. reflexivity.
Qed.

End PermitFacts.

Section ResultFacts.

Import Types Batch.

(** After the join every slot is filled, so the loop over the results
    meets no nil pointer, and the call fails as a whole exactly when the
    caller did not ask to continue on error and some item failed; the
    results are returned either way. *)
Lemma afterJoin_filled (continueOnError : bool) (failure : string)
    (results : list (option BatchResult)) :
  Forall (fun result => result <> None) results ->
  afterJoin continueOnError failure results
  = Returns (results,
             if negb continueOnError && existsb failed results
             then Some (WithDetails ErrAPIError failure) else None).
Proof.
  intros Hall. unfold afterJoin.
  assert (H : anyFailed results = Returns (existsb failed results)).
  { induction Hall as [|[b|] l Hb _ IH]; cbn [anyFailed existsb failed];
      [reflexivity| |congruence].
    destruct (negb (Success b)); [reflexivity|exact IH]. }
  rewrite H. destruct continueOnError; cbn [negb andb]; [reflexivity|].
  destruct (existsb failed results); reflexivity.
Qed.

Context {R : Type}.
Variable capacity : Z.

(** Results stored by index (create, delete): after the join, slot [i]
    holds the result built from the answer goroutine [i] finished with. *)
Lemma joined_by_index (mk : nat -> R -> BatchResult) (n : nat)
    (sched : list (Step R)) (results : list (option BatchResult)) :
  joined capacity (fun index r results => <[index := Some (mk index r)]> results)
         n (replicate n None) sched = Some results ->
  length results = n
  /\ forall i, (i < n)%nat ->
       exists r, In (Complete i r) sched /\ results !! i = Some (Some (mk i r)).
Proof.
  set (store := fun (index : nat) (r : R) (results : list (option BatchResult)) =>
                  <[index := Some (mk index r)]> results).
  intros Hj. apply joined_inv in Hj. destruct Hj as (status & Hrun & Hlen & Hfin).
  pose (P := fun (st : list GStatus * list (option BatchResult))
                 (seen : nat -> R -> Prop) =>
               length (snd st) = length (fst st)
               /\ forall i, fst st !! i = Some Finished ->
                    exists r, seen i r /\ snd st !! i = Some (Some (mk i r))).
  assert (HP : P (status, results) (fun i r => False \/ In (Complete i r) sched)).
  { apply (runPool_invariant capacity store P)
      with (st := (replicate n Waiting, replicate n None)); [| |exact Hrun|].
    - intros st seen seen' [Hl Hs] Hsub. split; [exact Hl|].
      intros i Hi. destruct (Hs i Hi) as (r & Hr & Hres). eauto.
    - intros st st' e seen [Hl Hs] Hstep.
      destruct (poolStep_inv _ _ _ _ _ Hstep)
        as [(i & -> & Hw & _ & ->)|(i & r & -> & Hw & ->)];
        unfold P, store; cbn [fst snd].
      + split; [now rewrite length_insert|].
        intros j Hj.
        assert (j <> i).
        { intros ->. rewrite list_lookup_insert_eq in Hj
            by (eapply lookup_lt_Some; exact Hw). discriminate Hj. }
        rewrite list_lookup_insert_ne in Hj by congruence.
        destruct (Hs j Hj) as (r & Hr & Hres). eauto.
      + split; [now rewrite !length_insert|].
        intros j Hj. destruct (decide (j = i)) as [->|Hne].
        * exists r. split; [now right|].
          apply list_lookup_insert_eq. rewrite Hl. eapply lookup_lt_Some; exact Hw.
        * rewrite list_lookup_insert_ne in Hj by congruence.
          destruct (Hs j Hj) as (r' & Hr & Hres).
          exists r'. split; [now left|]. now rewrite list_lookup_insert_ne by congruence.
    - unfold P. split; cbn [fst snd]; [now rewrite !length_replicate|].
      intros i Hi. apply lookup_replicate in Hi. destruct Hi as [Hi _]. discriminate Hi. }
  destruct HP as [Hl Hs]. cbn [fst snd] in Hl, Hs. split; [lia|].
  intros i Hi. destruct (Hs i (Hfin i Hi)) as (r & [[]|Hr] & Hres). eauto.
Qed.

Lemma filled_by_index (n : nat) (results : list (option BatchResult)) :
  length results = n ->
  (forall i, (i < n)%nat -> exists b, results !! i = Some (Some b)) ->
  Forall (fun result => result <> None) results.
Proof.
  intros Hlen Hall. apply Forall_lookup. intros i x Hx.
  destruct (Hall i) as [b Hb]; [rewrite <- Hlen; eapply lookup_lt_Some; exact Hx|].
  congruence.
Qed.

End ResultFacts.

Section AppendFacts.

Import Types Batch.

Lemma finished_insert_Running (status : list GStatus) :
  forall i, status !! i = Some Waiting ->
            finished (<[i := Running]> status) = finished status.
Proof.
  unfold finished. induction status as [|a l IH]; intros i Hi; [discriminate Hi|].
  destruct i as [|i].
  - injection Hi as ->. reflexivity.
  - change (<[S i := Running]> (a :: l)) with (a :: <[i := Running]> l).
    cbn [List.filter]. specialize (IH i Hi).
    destruct (isFinished a); cbn [length]; lia.
Qed.

Lemma finished_insert_Finished (status : list GStatus) :
  forall i, status !! i = Some Running ->
            finished (<[i := Finished]> status) = S (finished status).
Proof.
  unfold finished. induction status as [|a l IH]; intros i Hi; [discriminate Hi|].
  destruct i as [|i].
  - injection Hi as ->. reflexivity.
  - change (<[S i := Finished]> (a :: l)) with (a :: <[i := Finished]> l).
    cbn [List.filter]. specialize (IH i Hi).
    destruct (isFinished a); cbn [length]; lia.
Qed.

Lemma finished_all (status : list GStatus) :
  (forall i, (i < length status)%nat -> status !! i = Some Finished) ->
  finished status = length status.
Proof.
  unfold finished. induction status as [|a l IH]; intros Hall; [reflexivity|].
  pose proof (Hall 0%nat ltac:(cbn; lia)) as H0. injection H0 as ->.
  cbn [List.filter isFinished length]. f_equal. apply IH.
  intros i Hi. apply (Hall (S i)). cbn. lia.
Qed.

Lemma finished_waiting (n : nat) : finished (replicate n Waiting) = O.
Proof. unfold finished. induction n as [|n IH]; [reflexivity|exact IH]. Qed.

Variable capacity : Z.
Variable started : list (string * Events.CreateEventParams).

(** Results appended (update): after the join there is one result for each
    goroutine, built from the answer it finished with, somewhere in the
    list. *)
Lemma joined_by_append (sched : list (Step (Events.Event + GoError)))
    (results : list (option BatchResult)) :
  joined capacity
         (fun idx r results =>
            match started !! idx with
            | Some (id, _) => (results ++ [Some (updateResult idx id r)])%list
            | None => results
            end)
         (length started) [] sched = Some results ->
  length results = length started
  /\ Forall (fun result => result <> None) results
  /\ forall idx, (idx < length started)%nat ->
       exists id p r,
         started !! idx = Some (id, p)
         /\ In (Complete idx r) sched
         /\ In (Some (updateResult idx id r)) results.
Proof.
  set (store := fun (idx : nat) (r : Events.Event + GoError)
                    (results : list (option BatchResult)) =>
                  match started !! idx with
                  | Some (id, _) => (results ++ [Some (updateResult idx id r)])%list
                  | None => results
                  end).
  intros Hj. apply joined_inv in Hj. destruct Hj as (status & Hrun & Hlen & Hfin).
  pose (P := fun (st : list GStatus * list (option BatchResult))
                 (seen : nat -> Events.Event + GoError -> Prop) =>
               length (fst st) = length started
               /\ length (snd st) = finished (fst st)
               /\ Forall (fun result => result <> None) (snd st)
               /\ forall idx, fst st !! idx = Some Finished ->
                    exists id p r,
                      started !! idx = Some (id, p) /\ seen idx r
                      /\ In (Some (updateResult idx id r)) (snd st)).
  assert (HP : P (status, results) (fun i r => False \/ In (Complete i r) sched)).
  { apply (runPool_invariant capacity store P)
      with (st := (replicate (length started) Waiting, [])); [| |exact Hrun|].
    - intros st seen seen' (Hn & Hl & Hs & Hf) Hsub. repeat split; try assumption.
      intros idx Hi. destruct (Hf idx Hi) as (id & p & r & H1 & H2 & H3).
      exists id, p, r. auto.
    - intros st st' e seen (Hn & Hl & Hs & Hf) Hstep.
      destruct (poolStep_inv _ _ _ _ _ Hstep)
        as [(i & -> & Hw & _ & ->)|(i & r & -> & Hw & ->)];
        unfold P, store; cbn [fst snd].
      + repeat split; try assumption.
        * now rewrite length_insert.
        * now rewrite finished_insert_Running.
        * intros j Hj.
          assert (j <> i).
          { intros ->. rewrite list_lookup_insert_eq in Hj
              by (eapply lookup_lt_Some; exact Hw). discriminate Hj. }
          rewrite list_lookup_insert_ne in Hj by congruence.
          destruct (Hf j Hj) as (id & p & r & H1 & H2 & H3).
          exists id, p, r. auto.
      + assert (Hi : (i < length started)%nat)
          by (rewrite <- Hn; eapply lookup_lt_Some; exact Hw).
        destruct (lookup_lt_is_Some_2 started i Hi) as [[id p] Hid]. rewrite Hid.
        repeat split.
        * now rewrite length_insert.
        * rewrite length_app, finished_insert_Finished by exact Hw. cbn [length]. lia.
        * apply Forall_app. split; [exact Hs|]. constructor; [discriminate|constructor].
        * intros j Hj. destruct (decide (j = i)) as [->|Hne].
          -- exists id, p, r. split; [exact Hid|]. split; [now right|].
             apply in_or_app. right. now left.
          -- rewrite list_lookup_insert_ne in Hj by congruence.
             destruct (Hf j Hj) as (id' & p' & r' & H1 & H2 & H3).
             exists id', p', r'. split; [exact H1|]. split; [now left|].
             apply in_or_app. now left.
    - unfold P. cbn [fst snd]. repeat split.
      + apply length_replicate.
      + now rewrite finished_waiting.
      + constructor.
      + intros i Hi. apply lookup_replicate in Hi. destruct Hi as [Hi _]. discriminate Hi. }
  destruct HP as (Hn & Hl & Hs & Hf). cbn [fst snd] in Hn, Hl, Hs, Hf.
  split; [|split; [exact Hs|]].
  - rewrite Hl, finished_all; [exact Hlen|].
    intros i Hi. apply Hfin. lia.
  - intros idx Hi. destruct (Hf idx (Hfin idx Hi)) as (id & p & r & H1 & [[]|H2] & H3).
    exists id, p, r. auto.
Qed.

End AppendFacts.

(** ** The multi-calendar aggregator *)

Section AggregatorFacts.

Import GoTime Types Multi.

Variable service : GCal.Service.
Variables timeMin timeMax : Time.
Variable maxResults : Z.




Lemma completionOrder_covers (n : nat) (order : list nat) :
  completionOrder n order = true -> forall i, (i < n)%nat -> List.In i order.
Proof.
  unfold completionOrder. intros H i Hi.
  apply andb_true_iff in H. destruct H as [_ H].
  rewrite forallb_forall in H. specialize (H i ltac:(apply in_seq; lia)).
  apply existsb_exists in H. destruct H as (j & Hj & Heq).
  apply Nat.eqb_eq in Heq. now subst.
Qed.

End AggregatorFacts.




(** C4 at the failing input.  Two updates, the goroutine started second
    finishing first: BatchUpdateEvents returns two results whose first has
    index 1 and whose second has index 0, because each goroutine appends.
    Under the same schedule BatchCreateEvents, which stores by index,
    returns index 0 first. *)
Theorem C4_BatchUpdateEvents_results_in_completion_order :
  (exists first second,
      Batch.BatchUpdateEvents Examples.twoUpdates Examples.secondFirst
      = Returns ([Some first; Some second], None)
      /\ Batch.Index first = 1 /\ Batch.EventID first = "b"
      /\ Batch.Index second = 0 /\ Batch.EventID second = "a")
  /\ (exists first second,
         Batch.BatchCreateEvents
           (Batch.mkBatchParams [Examples.meeting "first"; Examples.meeting "second"]
              true 0)
           Examples.secondFirst
         = Returns ([Some first; Some second], None)
         /\ Batch.Index first = 0 /\ Batch.Index second = 1).
Proof.
  split.
  - eexists _, _. split; [vm_compute; reflexivity|]. repeat split.
  - eexists _, _. split; [vm_compute; reflexivity|]. repeat split.
Qed.

(** C8 at the failing input.  A MaxConcurrent that is zero or negative
    becomes 5, but one above 10 is taken as it is: with MaxConcurrent 50
    the semaphore holds 50 permits, and eleven goroutines hold one each at
    the same time in an execution of BatchCreateEvents that returns. *)
Theorem C8_MaxConcurrent_has_no_upper_bound :
  Batch.semaphoreCapacity 0 = 5
  /\ Batch.semaphoreCapacity (-1) = 5
  /\ Batch.semaphoreCapacity (Batch.MaxConcurrent Examples.elevenEvents) = 50
  /\ Batch.peakPermits
       (Batch.semaphoreCapacity (Batch.MaxConcurrent Examples.elevenEvents))
       (fun index r results => <[index := Some (Batch.createResult index r)]> results)
       (Batch.allAtOnce (fun _ => inl (Examples.created "ev")) 11)
       (replicate 11 Batch.Waiting, replicate 11 None)
     = Some 11%nat
  /\ exists results,
       Batch.BatchCreateEvents Examples.elevenEvents
         (Batch.allAtOnce (fun _ => inl (Examples.created "ev")) 11)
       = Returns (results, None)
       /\ length results = 11%nat.
Proof.
  repeat split; try (vm_compute; reflexivity).
  eexists. split; [vm_compute; reflexivity|reflexivity].
Qed.

(** Every bulk call has an execution that returns: letting the goroutines
    run one after the other is always possible, the capacity being at
    least 1. *)
Lemma BatchCreateEvents_returns (params : Batch.BatchCreateParams)
    (out : nat -> Events.Event + Types.GoError) :
  exists results err,
    Batch.BatchCreateEvents params
      (Batch.oneByOne out 0 (length (Batch.Items params))) = Returns (results, err).
Proof.
  unfold Batch.BatchCreateEvents.
  destruct (length (Batch.Items params) =? 0)%nat; [eauto|].
  assert (Hcap : 1 <= Batch.semaphoreCapacity (Batch.MaxConcurrent params)).
  { unfold Batch.semaphoreCapacity.
    destruct (Batch.MaxConcurrent params <=? 0) eqn:E; [lia|apply Z.leb_gt in E; lia]. }
  destruct (oneByOne_joined _
              (fun index r results => <[index := Some (Batch.createResult index r)]> results)
              out (length (Batch.Items params))
              (replicate (length (Batch.Items params)) None) Hcap) as [results Hj].
  rewrite Hj.
  destruct (joined_by_index _ Batch.createResult _ _ _ Hj) as [Hlen Hslots].
  rewrite afterJoin_filled; [eauto|].
  eapply filled_by_index; [exact Hlen|].
  intros i Hi. destruct (Hslots i Hi) as (r & _ & Hr). eauto.
Qed.

(** The semaphore is what bounds the concurrency of a bulk call, and its
    capacity is MaxConcurrent whenever that is positive. *)
Lemma semaphoreCapacity_spec (maxConcurrent : Z) :
  1 <= Batch.semaphoreCapacity maxConcurrent
  /\ (maxConcurrent <= 0 -> Batch.semaphoreCapacity maxConcurrent = 5)
  /\ (0 < maxConcurrent -> Batch.semaphoreCapacity maxConcurrent = maxConcurrent).
Proof.
  unfold Batch.semaphoreCapacity.
  destruct (maxConcurrent <=? 0) eqn:E; [apply Z.leb_le in E|apply Z.leb_gt in E];
    repeat split; lia.
Qed.

(** ** The natural-language date parser *)

(** C9.  With the clock at Monday 2024-01-15 10:00 in America/New_York,
    "tomorrow at 2pm" parses to 14:00 of the next calendar day in that
    zone, both through parseRelativeDate given that [now] and through
    ParseNaturalLanguageDate when the process clock reads it (whatever
    time.Local is). *)
Theorem C9_tomorrow_at_2pm_in_New_York :
  GoTime.FormatRFC3339 (GoTime.mkTime Examples.mondayMorning NLP.America_New_York)
  = "2024-01-15T10:00:00-05:00"%string
  /\ GoTime.Weekday (GoTime.mkTime Examples.mondayMorning NLP.America_New_York) = 1
  /\ NLP.parseTimeOfDay "2pm" NLP.America_New_York
     = inl (GoTime.Date 0 1 1 14 0 0 0 GoTime.UTC)
  /\ NLP.parseRelativeDate "tomorrow at 2pm"
       (GoTime.mkTime Examples.mondayMorning NLP.America_New_York) NLP.America_New_York
     = inl "2024-01-16T14:00:00-05:00"%string
  /\ forall local : GoTime.Location,
       NLP.ParseNaturalLanguageDate (NLP.mkAmbient Examples.mondayMorning local)
         "tomorrow at 2pm" (Some NLP.America_New_York)
       = inl "2024-01-16T14:00:00-05:00"%string.
Proof.
  split; [vm_compute; reflexivity|].
  split; [vm_compute; reflexivity|].
  split; [vm_compute; reflexivity|].
  split; [vm_compute; reflexivity|].
  intros local. vm_compute. reflexivity.
Qed.

(** C5 (as the code has it).  ParseNaturalLanguageDate is a function of
    the text, the timezone and the reading of the process clock it takes
    itself: two parses with the same arguments agree when the clock reads
    the same instant, and time.Local matters only when no timezone was
    given. *)
Theorem C5_parse_depends_on_text_timezone_and_clock :
  forall (amb1 amb2 : NLP.Ambient) (input : string) (timezone : option GoTime.Location),
    NLP.clock amb1 = NLP.clock amb2 ->
    (timezone = None -> NLP.Local amb1 = NLP.Local amb2) ->
    NLP.ParseNaturalLanguageDate amb1 input timezone
    = NLP.ParseNaturalLanguageDate amb2 input timezone.
Proof.
  intros amb1 amb2 input timezone Hclock Hlocal.
  unfold NLP.ParseNaturalLanguageDate, NLP.Now, GoTime.In. cbn [GoTime.unixNano].
  rewrite Hclock. destruct timezone as [tz|]; [reflexivity|].
  now rewrite (Hlocal eq_refl).
Qed.

(** The same reading of the clock in two processes whose time.Local
    differ, and a timezone given. *)
Lemma C5_witness_same_clock_other_local :
  NLP.ParseNaturalLanguageDate (NLP.mkAmbient Examples.mondayMorning GoTime.UTC)
    "tomorrow at 2pm" (Some NLP.America_New_York)
  = NLP.ParseNaturalLanguageDate
      (NLP.mkAmbient Examples.mondayMorning (GoTime.FixedZone "CET" 3600))
      "tomorrow at 2pm" (Some NLP.America_New_York).
Proof.
  apply (C5_parse_depends_on_text_timezone_and_clock
           (NLP.mkAmbient Examples.mondayMorning GoTime.UTC)
           (NLP.mkAmbient Examples.mondayMorning (GoTime.FixedZone "CET" 3600))
           "tomorrow at 2pm" (Some NLP.America_New_York)).
  - reflexivity.
  - intros H. discriminate H.
Defined.

(** C5 as the specification states it fails: the function is not handed
    the current time, it reads the clock.  The same text and timezone parse
    to different instants a day apart, and with no timezone given the same
    text at the same instant parses differently under different
    time.Local. *)
Lemma C5_counterexample_clock_is_read :
  NLP.ParseNaturalLanguageDate (NLP.mkAmbient Examples.mondayMorning GoTime.UTC)
    "tomorrow" (Some NLP.America_New_York)
  = inl "2024-01-16T00:00:00-05:00"%string
  /\ NLP.ParseNaturalLanguageDate
       (NLP.mkAmbient (Examples.mondayMorning + 24 * GoTime.Hour) GoTime.UTC)
       "tomorrow" (Some NLP.America_New_York)
     = inl "2024-01-17T00:00:00-05:00"%string
  /\ NLP.ParseNaturalLanguageDate (NLP.mkAmbient Examples.mondayMorning GoTime.UTC)
       "now" None
     = inl "2024-01-15T15:00:00Z"%string
  /\ NLP.ParseNaturalLanguageDate
       (NLP.mkAmbient Examples.mondayMorning NLP.America_New_York) "now" None
     = inl "2024-01-15T10:00:00-05:00"%string.
Proof.
  split; [vm_compute; reflexivity|].
  split; [vm_compute; reflexivity|].
  split; vm_compute; reflexivity.
Qed.

(* ===================================================================== *)
(** * Further properties *)
(* ===================================================================== *)

(** ** withRetry, whatever the wrapped function does *)

Section RetryAlways.

Import Types Client.

Variable c : Client.
Variable ctxDone : Z -> bool.
Variable operation : string.
Variable fn : nat -> option GoError.

Hypothesis retries_fit : MaxRetries c < GoInt.maxInt64.

(** The loop ends within the attempts that are left, and calls the
    function at most once for each. *)
Lemma retryLoop_ends (n : nat) :
  forall fuel attempt lastErr ncalls waited,
    0 <= attempt ->
    Z.to_nat (MaxRetries c + 1 - attempt) = n ->
    (n < fuel)%nat ->
    exists run,
      retryLoop fuel c ctxDone operation fn attempt lastErr ncalls waited = Some run
      /\ (ncalls <= calls run <= ncalls + n)%nat.
Proof.
  induction n as [|n IH]; intros fuel attempt lastErr ncalls waited Hpos Hn Hfuel;
    (destruct fuel as [|fuel]; [lia|]); cbn [retryLoop].
  - replace (attempt <=? MaxRetries c) with false by (symmetry; apply Z.leb_gt; lia).
    eexists. split; [reflexivity|]. cbn. lia.
  - replace (attempt <=? MaxRetries c) with true by (symmetry; apply Z.leb_le; lia).
    destruct ((0 <? attempt) && ctxDone attempt).
    { eexists. split; [reflexivity|]. cbn. lia. }
    set (waited0 := if 0 <? attempt then (waited ++ [backoffDelay c attempt])%list
                    else waited).
    destruct (fn ncalls) as [err|].
    2:{ eexists. split; [reflexivity|]. cbn. lia. }
    destruct (negb (isRetryable err)).
    { eexists. split; [reflexivity|]. cbn. lia. }
    rewrite wrap64_in_range by (unfold GoInt.minInt64, GoInt.maxInt64 in *; lia).
    destruct (IH fuel (attempt + 1) (Some err) (S ncalls) waited0)
      as (run & Hrun & Hcalls); try lia.
    exists run. split; [exact Hrun|]. lia.
Qed.

(** retryLoop_retries with the context only known not to be cancelled
    during the waits that are passed. *)
Lemma retryLoop_retries_until (j : nat) :
  forall fuel attempt lastErr ncalls waited,
    0 <= attempt ->
    attempt + Z.of_nat j <= MaxRetries c + 1 ->
    (forall a, attempt <= a < attempt + Z.of_nat j -> ctxDone a = false) ->
    (forall i, (i < j)%nat ->
               exists err, fn (ncalls + i)%nat = Some err /\ isRetryable err = true) ->
    retryLoop (j + fuel) c ctxDone operation fn attempt lastErr ncalls waited
    = retryLoop fuel c ctxDone operation fn (attempt + Z.of_nat j)
        (match j with O => lastErr | S j' => fn (ncalls + j')%nat end)
        (ncalls + j)%nat (waited ++ backoffs c attempt j).
Proof.
  induction j as [|j IH]; intros fuel attempt lastErr ncalls waited Hpos Hle Hctx Hfn.
  - cbn [backoffs Nat.add]. rewrite Z.add_0_r, Nat.add_0_r, app_nil_r. reflexivity.
  - destruct (Hfn 0%nat ltac:(lia)) as (err & Herr & Hretry).
    rewrite Nat.add_0_r in Herr.
    change (S j + fuel)%nat with (S (j + fuel)).
    cbn [retryLoop].
    replace (attempt <=? MaxRetries c) with true by (symmetry; apply Z.leb_le; lia).
    rewrite (Hctx attempt) by lia. rewrite andb_false_r, Herr, Hretry. cbn [negb].
    rewrite wrap64_in_range by (unfold GoInt.minInt64, GoInt.maxInt64 in *; lia).
    rewrite IH.
    + replace (attempt + 1 + Z.of_nat j) with (attempt + Z.of_nat (S j)) by lia.
      replace (S ncalls + j)%nat with (ncalls + S j)%nat by lia.
      cbn [backoffs]. f_equal.
      * destruct j as [|j']; [now rewrite Nat.add_0_r|].
        f_equal. lia.
      * destruct (0 <? attempt); cbn [app]; now rewrite <- ?app_assoc.
    + lia.
    + lia.
    + intros a Ha. apply Hctx. lia.
    + intros i Hi. destruct (Hfn (S i) ltac:(lia)) as (e & He & Hr).
      exists e. split; [|exact Hr]. rewrite <- He. f_equal. lia.
Qed.

(** What the loop returns is nil or one of two application errors. *)
Lemma retryLoop_error_shape (fuel : nat) :
  forall attempt lastErr ncalls waited run,
    retryLoop fuel c ctxDone operation fn attempt lastErr ncalls waited = Some run ->
    ret run = None
    \/ exists e, ret run = Some (AppErr e)
                 /\ (Code e = ErrCodeAPIError \/ Code e = ErrCodeNetworkError).
Proof.
  induction fuel as [|fuel IH]; intros attempt lastErr ncalls waited run; cbn [retryLoop];
    [discriminate|].
  destruct (attempt <=? MaxRetries c).
  2:{ intros [= <-]. right. eexists. split; [reflexivity|]. now left. }
  destruct ((0 <? attempt) && ctxDone attempt).
  { intros [= <-]. right. eexists. split; [reflexivity|]. now right. }
  destruct (fn ncalls) as [err|].
  2:{ intros [= <-]. now left. }
  destruct (negb (isRetryable err)).
  { intros [= <-]. right. eexists. split; [reflexivity|]. now left. }
  apply IH.
Qed.

End RetryAlways.

(** X1.  Whatever the wrapped function answers and whenever the context
    is cancelled, withRetry terminates (fuel above [MaxRetries + 1] is
    enough, none is needed beyond it) and has called the function at most
    [MaxRetries + 1] times; what it returns is nil, or an AppError with
    code API_ERROR, or the NETWORK_ERROR of a cancelled wait. *)
Theorem withRetry_always_ends_within_budget :
  forall (c : Client.Client) (ctxDone : Z -> bool) (operation : string)
         (fn : nat -> option Types.GoError) (fuel : nat),
    Client.MaxRetries c < GoInt.maxInt64 ->
    (Z.to_nat (Client.MaxRetries c + 1) < fuel)%nat ->
    exists run,
      Client.withRetry fuel c ctxDone operation fn = Some run
      /\ (Client.calls run <= Z.to_nat (Client.MaxRetries c + 1))%nat
      /\ (Client.ret run = None
          \/ exists e, Client.ret run = Some (Types.AppErr e)
                       /\ (Types.Code e = Types.ErrCodeAPIError
                           \/ Types.Code e = Types.ErrCodeNetworkError)).
Proof.
  intros c ctxDone operation fn fuel Hfit Hfuel. unfold Client.withRetry.
  destruct (retryLoop_ends c ctxDone operation fn Hfit
              (Z.to_nat (Client.MaxRetries c + 1)) fuel 0 None 0%nat [])
    as (run & Hrun & Hcalls); try lia.
  exists run. split; [exact Hrun|]. split; [lia|].
  eapply retryLoop_error_shape. exact Hrun.
Qed.

Lemma withRetry_always_ends_witness :
  exists run,
    Client.withRetry 5 (Client.NewClient None "primary") (fun a => a =? 2) "list events"
      (fun k => if (k =? 0)%nat then Some (Types.GoogleAPIError 503 "backend error")
                else Some (Types.OtherError "connection reset")) = Some run
    /\ (Client.calls run <= Z.to_nat (3 + 1))%nat
    /\ (Client.ret run = None
        \/ exists e, Client.ret run = Some (Types.AppErr e)
                     /\ (Types.Code e = Types.ErrCodeAPIError
                         \/ Types.Code e = Types.ErrCodeNetworkError)).
Proof.
  apply (withRetry_always_ends_within_budget
           (Client.NewClient None "primary") (fun a => a =? 2) "list events"
           (fun k => if (k =? 0)%nat then Some (Types.GoogleAPIError 503 "backend error")
                     else Some (Types.OtherError "connection reset")) 5%nat).
  - cbn [Client.MaxRetries Client.NewClient]. unfold GoInt.maxInt64. lia.
  - cbn [Client.MaxRetries Client.NewClient]. lia.
Defined.

(** X2.  When the first [k] calls fail with retryable errors and call [k]
    succeeds, within the budget and with no cancellation during the [k]
    waits, withRetry returns nil after exactly [k + 1] calls, having waited
    the backoff delays of attempts 1 to [k]. *)
Theorem withRetry_succeeds_after_retries :
  forall (c : Client.Client) (ctxDone : Z -> bool) (operation : string)
         (fn : nat -> option Types.GoError) (fuel k : nat),
    Client.MaxRetries c < GoInt.maxInt64 ->
    Z.of_nat k <= Client.MaxRetries c ->
    (forall a, 0 <= a <= Z.of_nat k -> ctxDone a = false) ->
    (forall i, (i < k)%nat ->
               exists e, fn i = Some e /\ Client.isRetryable e = true) ->
    fn k = None ->
    (k < fuel)%nat ->
    Client.withRetry fuel c ctxDone operation fn
    = Some (Client.mkRetryRun None (S k) (Client.backoffs c 1 k)).
Proof.
  intros c ctxDone operation fn fuel k Hfit Hk Hctx Hfn Hok Hfuel.
  destruct (Nat.le_exists_sub (S k) fuel ltac:(lia)) as (rest & -> & _).
  unfold Client.withRetry.
  replace (rest + S k)%nat with (k + S rest)%nat by lia.
  rewrite (retryLoop_retries_until c ctxDone operation fn Hfit k) by
    (first [lia|intros a Ha; apply Hctx; lia|intros i Hi; apply Hfn; exact Hi]).
  cbn [Client.retryLoop Nat.add].
  replace (0 + Z.of_nat k <=? Client.MaxRetries c) with true
    by (symmetry; apply Z.leb_le; lia).
  rewrite (Hctx (0 + Z.of_nat k)) by lia. rewrite andb_false_r, Hok.
  f_equal. f_equal.
  change (Client.backoffs c 1 k) with (Client.backoffs c 0 (S k)).
  rewrite backoffs_snoc. cbn [app].
  destruct (0 <? 0 + Z.of_nat k); [reflexivity|]. now rewrite app_nil_r.
Qed.

Lemma withRetry_succeeds_witness :
  Client.withRetry 10 (Client.NewClient None "primary") (fun _ => false) "get event"
    (fun k => if (k <? 2)%nat then Some (Types.GoogleAPIError 429 "slow down") else None)
  = Some (Client.mkRetryRun None 3 (Client.backoffs (Client.NewClient None "primary") 1 2)).
Proof.
  apply (withRetry_succeeds_after_retries
           (Client.NewClient None "primary") (fun _ => false) "get event"
           (fun k => if (k <? 2)%nat then Some (Types.GoogleAPIError 429 "slow down")
                     else None) 10%nat 2%nat).
  - cbn [Client.MaxRetries Client.NewClient]. unfold GoInt.maxInt64. lia.
  - cbn [Client.MaxRetries Client.NewClient]. lia.
  - intros a _. reflexivity.
  - intros i Hi. eexists. destruct i as [|[|i]]; [split; reflexivity|split; reflexivity|lia].
  - reflexivity.
  - lia.
Defined.

(** X3.  A cancellation that wins the wait before attempt [k] (after [k]
    retryable failures) ends the run there: the function is not called
    again, the interrupted wait is not completed, and the error is the
    NETWORK_ERROR "operation cancelled". *)
Theorem withRetry_cancelled_during_backoff :
  forall (c : Client.Client) (ctxDone : Z -> bool) (operation : string)
         (fn : nat -> option Types.GoError) (fuel k : nat),
    Client.MaxRetries c < GoInt.maxInt64 ->
    (0 < k)%nat ->
    Z.of_nat k <= Client.MaxRetries c ->
    (forall a, 0 <= a < Z.of_nat k -> ctxDone a = false) ->
    ctxDone (Z.of_nat k) = true ->
    (forall i, (i < k)%nat ->
               exists e, fn i = Some e /\ Client.isRetryable e = true) ->
    (k < fuel)%nat ->
    Client.withRetry fuel c ctxDone operation fn
    = Some (Client.mkRetryRun
              (Some (Types.AppErr (Types.ErrNetworkError "operation cancelled")))
              k (Client.backoffs c 1 (k - 1))).
Proof.
  intros c ctxDone operation fn fuel k Hfit Hpos Hk Hctx Hdone Hfn Hfuel.
  destruct (Nat.le_exists_sub (S k) fuel ltac:(lia)) as (rest & -> & _).
  unfold Client.withRetry.
  replace (rest + S k)%nat with (k + S rest)%nat by lia.
  rewrite (retryLoop_retries_until c ctxDone operation fn Hfit k) by
    (first [lia|intros a Ha; apply Hctx; lia|intros i Hi; apply Hfn; exact Hi]).
  cbn [Client.retryLoop Nat.add].
  replace (0 + Z.of_nat k <=? Client.MaxRetries c) with true
    by (symmetry; apply Z.leb_le; lia).
  replace (0 <? 0 + Z.of_nat k) with true by (symmetry; apply Z.ltb_lt; lia).
  rewrite Z.add_0_l, Hdone. cbn [andb]. f_equal. f_equal.
  destruct k as [|k]; [lia|]. cbn [Client.backoffs app Nat.sub].
  now rewrite Nat.sub_0_r.
Qed.

Lemma withRetry_cancelled_witness :
  Client.withRetry 10 (Client.NewClient None "primary") (fun a => a =? 2) "get event"
    (fun _ => Some (Types.GoogleAPIError 503 "backend error"))
  = Some (Client.mkRetryRun
            (Some (Types.AppErr (Types.ErrNetworkError "operation cancelled")))
            2 (Client.backoffs (Client.NewClient None "primary") 1 (2 - 1))).
Proof.
  apply (withRetry_cancelled_during_backoff
           (Client.NewClient None "primary") (fun a => a =? 2) "get event"
           (fun _ => Some (Types.GoogleAPIError 503 "backend error")) 10%nat 2%nat).
  - cbn [Client.MaxRetries Client.NewClient]. unfold GoInt.maxInt64. lia.
  - lia.
  - cbn [Client.MaxRetries Client.NewClient]. lia.
  - intros a Ha. apply Z.eqb_neq. lia.
  - reflexivity.
  - intros i _. eexists. split; reflexivity.
  - lia.
Defined.

Lemma backoffDelay_power (c : Client.Client) (a : Z) :
  1 <= a <= 63 ->
  0 <= Client.RetryDelay c ->
  Client.RetryDelay c * 2 ^ (a - 1) <= GoInt.maxInt64 ->
  Client.backoffDelay c a = Client.RetryDelay c * 2 ^ (a - 1).
Proof.
  intros Ha Hd Hfit. unfold Client.backoffDelay, GoInt.shl64, GoInt.toUint.
  assert (Hp : 0 < 2 ^ (a - 1)) by (apply Z.pow_pos_nonneg; lia).
  assert (Hq : 2 ^ (a - 1) <= 2 ^ 62) by (apply Z.pow_le_mono_r; lia).
  rewrite (Z.mod_small (a - 1))
    by (split; [lia|]; change (2 ^ 64) with 18446744073709551616; lia).
  replace (64 <=? a - 1) with false by (symmetry; apply Z.leb_gt; lia).
  rewrite Z.shiftl_1_l.
  rewrite (wrap64_in_range (2 ^ (a - 1)))
    by (unfold GoInt.minInt64, GoInt.maxInt64; change (2 ^ 63) with (2 * 2 ^ 62); lia).
  apply wrap64_in_range. unfold GoInt.minInt64, GoInt.maxInt64 in *. nia.
Qed.

(** X4.  The backoff is exponential: as long as the product fits 64 bits,
    the wait before attempt [a] is [RetryDelay * 2^(a-1)], so each wait is
    twice the one before. *)
Theorem backoffDelay_is_exponential :
  forall (c : Client.Client) (a : Z),
    1 <= a <= 63 ->
    0 <= Client.RetryDelay c ->
    Client.RetryDelay c * 2 ^ (a - 1) <= GoInt.maxInt64 ->
    Client.backoffDelay c a = Client.RetryDelay c * 2 ^ (a - 1)
    /\ (a <= 62 ->
        Client.RetryDelay c * 2 ^ a <= GoInt.maxInt64 ->
        Client.backoffDelay c (a + 1) = 2 * Client.backoffDelay c a).
Proof.
  intros c a Ha Hd Hfit. split; [now apply backoffDelay_power|].
  intros Ha' Hfit'. rewrite !backoffDelay_power; try lia.
  - replace (a + 1 - 1) with (Z.succ (a - 1)) by lia.
    rewrite Z.pow_succ_r by lia. ring.
  - now replace (a + 1 - 1) with a by lia.
Qed.

(** The default client: one second, then two, then four. *)
Lemma backoffDelay_is_exponential_witness :
  Client.backoffDelay (Client.NewClient None "primary") 3
  = Client.RetryDelay (Client.NewClient None "primary") * 2 ^ (3 - 1)
  /\ (3 <= 62 ->
      Client.RetryDelay (Client.NewClient None "primary") * 2 ^ 3 <= GoInt.maxInt64 ->
      Client.backoffDelay (Client.NewClient None "primary") (3 + 1)
      = 2 * Client.backoffDelay (Client.NewClient None "primary") 3).
Proof.
  apply (backoffDelay_is_exponential (Client.NewClient None "primary") 3).
  - lia.
  - vm_compute. discriminate.
  - vm_compute. discriminate.
Defined.


Section WaitFacts.

Import Types Client.

Variable c : Client.
Variable ctxDone : Z -> bool.
Variable operation : string.
Variable fn : nat -> option GoError.

Hypothesis delay_positive : 0 <= RetryDelay c.
Hypothesis retries_few : MaxRetries c <= 63.
Hypothesis delays_fit : RetryDelay c * 2 ^ (MaxRetries c - 1) <= GoInt.maxInt64.

Lemma total_snoc (waits : list Z) (w : Z) :
  Measures.total (waits ++ [w]) = Measures.total waits + w.
Proof.
  unfold Measures.total. induction waits as [|x waits IH]; cbn [app fold_right]; lia.
Qed.

(** Along the loop the attempt number is the number of calls made, and
    the waits add up to what that number of calls asks for. *)
Lemma retryLoop_waits (fuel : nat) :
  forall lastErr ncalls waited run,
    retryLoop fuel c ctxDone operation fn (Z.of_nat ncalls) lastErr ncalls waited
      = Some run ->
    Measures.total waited = RetryDelay c * (2 ^ Z.of_nat (ncalls - 1) - 1) ->
    length waited = (ncalls - 1)%nat ->
    Measures.total (waits run) = RetryDelay c * (2 ^ Z.of_nat (calls run - 1) - 1)
    /\ length (waits run) = (calls run - 1)%nat
    /\ Z.of_nat (calls run) <= Z.max (MaxRetries c + 1) (Z.of_nat ncalls).
Proof.
  induction fuel as [|fuel IH]; intros lastErr ncalls waited run; cbn [retryLoop];
    [discriminate|].
  destruct (Z.leb_spec (Z.of_nat ncalls) (MaxRetries c)) as [Hle|Hgt].
  2:{ intros [= <-] Htotal Hlen. cbn [waits calls]. repeat split; try assumption. lia. }
  destruct ((0 <? Z.of_nat ncalls) && ctxDone (Z.of_nat ncalls)).
  { intros [= <-] Htotal Hlen. cbn [waits calls]. repeat split; try assumption. lia. }
  intros Hrun Htotal Hlen.
  set (waited' := if 0 <? Z.of_nat ncalls
                  then (waited ++ [backoffDelay c (Z.of_nat ncalls)])%list else waited)
    in *.
  assert (Hnext : Measures.total waited' = RetryDelay c * (2 ^ Z.of_nat (S ncalls - 1) - 1)
                  /\ length waited' = (S ncalls - 1)%nat).
  { unfold waited'. destruct (Z.ltb_spec 0 (Z.of_nat ncalls)) as [Hpos|Hzero].
    - rewrite total_snoc, length_app, Htotal, Hlen. cbn [length].
      rewrite backoffDelay_power; try lia.
      + replace (Z.of_nat (S ncalls - 1)) with (Z.succ (Z.of_nat ncalls - 1)) by lia.
        replace (Z.of_nat (ncalls - 1)) with (Z.of_nat ncalls - 1) by lia.
        rewrite Z.pow_succ_r by lia. split; [ring|lia].
      + assert (2 ^ (Z.of_nat ncalls - 1) <= 2 ^ (MaxRetries c - 1))
          by (apply Z.pow_le_mono_r; lia).
        nia.
    - assert (ncalls = O) by lia. subst ncalls. cbn in Hlen.
      destruct waited; [|discriminate Hlen]. cbn. split; [lia|reflexivity]. }
  destruct Hnext as [Htotal' Hlen'].
  destruct (fn ncalls) as [err|].
  2:{ injection Hrun as <-. cbn [waits calls]. repeat split; try assumption. lia. }
  destruct (negb (isRetryable err)).
  { injection Hrun as <-. cbn [waits calls]. repeat split; try assumption. lia. }
  rewrite wrap64_in_range in Hrun
    by (unfold GoInt.minInt64, GoInt.maxInt64; lia).
  replace (Z.of_nat ncalls + 1) with (Z.of_nat (S ncalls)) in Hrun by lia.
  destruct (IH _ _ _ _ Hrun Htotal' Hlen') as (H1 & H2 & H3).
  repeat split; try assumption. lia.
Qed.

End WaitFacts.

(** X6.  The number of calls withRetry has made tells how long it has
    waited: as long as the largest delay fits a Duration, a run of n calls
    has waited n - 1 times, [RetryDelay * (2^(n-1) - 1)] in all, whether it
    ended in success, in an error or in a cancelled wait; with
    [MaxRetries >= 0] that is never more than
    [RetryDelay * (2^MaxRetries - 1)]. *)
Theorem withRetry_waits_follow_from_the_calls :
  forall (c : Client.Client) (ctxDone : Z -> bool) (operation : string)
         (fn : nat -> option Types.GoError) (fuel : nat) (run : Client.RetryRun),
    0 <= Client.RetryDelay c ->
    0 <= Client.MaxRetries c <= 63 ->
    Client.RetryDelay c * 2 ^ (Client.MaxRetries c - 1) <= GoInt.maxInt64 ->
    Client.withRetry fuel c ctxDone operation fn = Some run ->
    length (Client.waits run) = (Client.calls run - 1)%nat
    /\ Measures.total (Client.waits run)
       = Client.RetryDelay c * (2 ^ Z.of_nat (Client.calls run - 1) - 1)
    /\ Measures.total (Client.waits run)
       <= Client.RetryDelay c * (2 ^ Client.MaxRetries c - 1).
Proof.
  intros c ctxDone operation fn fuel run Hdelay Hretries Hfit Hrun.
  unfold Client.withRetry in Hrun.
  destruct (retryLoop_waits c ctxDone operation fn Hdelay ltac:(lia) Hfit
              fuel None 0%nat [] run Hrun) as (Htotal & Hlen & Hcalls).
  - cbn. lia.
  - reflexivity.
  - split; [exact Hlen|]. split; [exact Htotal|]. rewrite Htotal.
    assert (2 ^ Z.of_nat (Client.calls run - 1) <= 2 ^ Client.MaxRetries c)
      by (apply Z.pow_le_mono_r; lia).
    nia.
Qed.

(** The default client, failing with 503 every time: 1 + 2 + 4 seconds. *)
Lemma withRetry_waits_witness :
  exists run,
    Client.withRetry 10 (Client.NewClient None "primary") (fun _ => false) "list events"
      (fun _ => Some (Types.GoogleAPIError 503 "backend error")) = Some run
    /\ Client.calls run = 4%nat
    /\ Measures.total (Client.waits run) = 7 * GoTime.Second.
Proof.
  destruct (Client.withRetry 10 (Client.NewClient None "primary") (fun _ => false)
              "list events" (fun _ => Some (Types.GoogleAPIError 503 "backend error")))
    as [run|] eqn:Hrun; [|vm_compute in Hrun; discriminate Hrun].
  destruct (withRetry_waits_follow_from_the_calls
              (Client.NewClient None "primary") (fun _ => false) "list events"
              (fun _ => Some (Types.GoogleAPIError 503 "backend error")) 10 run
              ltac:(vm_compute; congruence)
              ltac:(split; vm_compute; congruence)
              ltac:(vm_compute; congruence) Hrun) as (_ & Htotal & _).
  exists run. split; [reflexivity|].
  vm_compute in Hrun. injection Hrun as <-. split; reflexivity.
Defined.

(** ** The single-event operations *)

Section RetriedFacts.

Import Types Client APIErrors EventOps.

Variable c : Client.
Variable ctxDone : Z -> bool.
Variable operation : string.

(** When the loop returns nil, the last call it made returned nil. *)
Lemma retryLoop_success_last (fn : nat -> option GoError) (fuel : nat) :
  forall attempt lastErr ncalls waited run,
    retryLoop fuel c ctxDone operation fn attempt lastErr ncalls waited = Some run ->
    ret run = None ->
    exists last, calls run = S last /\ fn last = None.
Proof.
  induction fuel as [|fuel IH]; intros attempt lastErr ncalls waited run; cbn [retryLoop];
    [discriminate|].
  destruct (attempt <=? MaxRetries c).
  2:{ intros [= <-]. discriminate. }
  destruct ((0 <? attempt) && ctxDone attempt).
  { intros [= <-]. discriminate. }
  destruct (fn ncalls) as [err|] eqn:Hfn.
  2:{ intros [= <-] _. exists ncalls. auto. }
  destruct (negb (isRetryable err)).
  { intros [= <-]. discriminate. }
  apply IH.
Qed.

Variable call : nat -> CalendarAPI.Event + GoError.
Variable base : nat.

(** A call under withRetry gives an event and no error, or no event and
    the API error that handleAPIError puts around what withRetry returned:
    never neither, and never one of the other classes of handleAPIError. *)
Lemma retried_shape (fuel : nat) event err n :
  retried fuel c ctxDone operation call base = Some (event, err, n) ->
  (exists answer last,
      n = S last /\ call (base + last)%nat = inl answer
      /\ event = Some (convertEvent answer) /\ err = None)
  \/ (event = None
      /\ exists e, err = Some (AppErr e)
                   /\ Code e = ErrCodeAPIError
                   /\ Details e = (operation ++ " failed")%string).
Proof.
  unfold retried.
  destruct (withRetry _ _ _ _ _) as [run|] eqn:Hrun; [|discriminate].
  unfold withRetry in Hrun.
  destruct (ret run) as [failure|] eqn:Hret.
  - intros [= <- <- <-]. right. split; [reflexivity|].
    destruct (retryLoop_error_shape _ _ _ _ _ _ _ _ _ _ Hrun) as [H|(e & H & _)];
      rewrite Hret in H; [discriminate|].
    injection H as ->. eexists. split; [reflexivity|]. split; reflexivity.
  - destruct (retryLoop_success_last _ _ _ _ _ _ _ Hrun Hret) as (last & Hcalls & Hlast).
    rewrite Hcalls. unfold getError in Hlast.
    destruct (call (base + last)%nat) as [answer|failure] eqn:Hanswer; [|discriminate].
    intros [= <- <- <-]. left. exists answer, last. auto.
Qed.

Hypothesis retries_fit : MaxRetries c < GoInt.maxInt64.


(** The first call that succeeds, after retryable failures. *)
Lemma retried_first_success (fuel k : nat) (answer : CalendarAPI.Event) :
  Z.of_nat k <= MaxRetries c ->
  (forall a, 0 <= a <= Z.of_nat k -> ctxDone a = false) ->
  (forall i, (i < k)%nat ->
             exists err, call (base + i)%nat = inr err /\ isRetryable err = true) ->
  call (base + k)%nat = inl answer ->
  (k < fuel)%nat ->
  retried fuel c ctxDone operation call base
  = Some (Some (convertEvent answer), None, S k).
Proof.
  intros Hk Hctx Hfail Hok Hfuel. unfold retried.
  destruct (Nat.le_exists_sub (S k) fuel ltac:(lia)) as (rest & -> & _).
  unfold withRetry.
  replace (rest + S k)%nat with (k + S rest)%nat by lia.
  set (fn := fun i => getError (call (base + i)%nat)).
  assert (Hfn : forall i, (i < k)%nat ->
                          exists e, fn (0 + i)%nat = Some e /\ isRetryable e = true).
  { intros i Hi. destruct (Hfail i Hi) as (err & Herr & Hr).
    exists err. unfold fn. cbn [Nat.add]. rewrite Herr. split; [reflexivity|exact Hr]. }
  rewrite (retryLoop_retries_until c ctxDone operation fn retries_fit k) by
    (first [lia|intros a Ha; apply Hctx; lia|exact Hfn]).
  cbn [retryLoop Nat.add].
  replace (0 + Z.of_nat k <=? MaxRetries c) with true
    by (symmetry; apply Z.leb_le; lia).
  rewrite (Hctx (0 + Z.of_nat k)) by lia. rewrite andb_false_r.
  unfold fn at 1. rewrite Hok.
  cbn [getError ret calls]. now rewrite Hok.
Qed.

(** A call that succeeds at once. *)
Lemma retried_at_once (fuel : nat) (answer : CalendarAPI.Event) :
  0 <= MaxRetries c ->
  call base = inl answer ->
  (0 < fuel)%nat ->
  retried fuel c ctxDone operation call base
  = Some (Some (convertEvent answer), None, 1%nat).
Proof.
  intros Hretries Hok Hfuel. unfold retried, withRetry.
  destruct fuel as [|fuel]; [lia|]. cbn [retryLoop].
  replace (0 <=? MaxRetries c) with true by (symmetry; apply Z.leb_le; lia).
  cbn [Z.ltb Z.compare andb]. rewrite Nat.add_0_r, Hok.
  cbn [getError ret calls]. now rewrite Nat.add_0_r, Hok.
Qed.

End RetriedFacts.

(** X7.  DeleteEvent refuses an empty event ID with MISSING_REQUIRED
    before any remote call.  Otherwise its error, if any, always has the
    code API_ERROR and the details "delete event failed": what withRetry
    hands back is already an AppError, so the status-code switch of
    handleAPIError is never reached and, for one, a remote 404 is reported
    as API_ERROR after a single call, not as NOT_FOUND. *)
Theorem DeleteEvent_reports_only_API_ERROR :
  forall (fuel : nat) (c : Client.Client) (ctxDone : Z -> bool)
         (service : CalendarAPI.EventsService) (base : nat) (eventID : string),
    (forall result ncalls,
        EventOps.DeleteEvent fuel c ctxDone service base eventID = Some (result, ncalls) ->
        (eventID = ""%string ->
         ncalls = O
         /\ result = Some (Types.AppErr (APIErrors.ErrMissingRequired "event-id")))
        /\ (eventID <> ""%string ->
            result = None
            \/ exists e, result = Some (Types.AppErr e)
                         /\ Types.Code e = Types.ErrCodeAPIError
                         /\ Types.Details e = "delete event failed"%string))
    /\ (forall message,
           eventID <> ""%string ->
           0 <= Client.MaxRetries c ->
           (0 < fuel)%nat ->
           CalendarAPI.Delete service (Client.CalendarID c) eventID base
             = Some (Types.GoogleAPIError 404 message) ->
           exists e,
             EventOps.DeleteEvent fuel c ctxDone service base eventID
               = Some (Some (Types.AppErr e), 1%nat)
             /\ Types.Code e = Types.ErrCodeAPIError).
Proof.
  intros fuel c ctxDone service base eventID. split.
  - intros result ncalls. unfold EventOps.DeleteEvent.
    destruct (String.eqb eventID "") eqn:E.
    + apply String.eqb_eq in E. intros [= <- <-]. split; [auto|]. intros H. contradiction.
    + apply String.eqb_neq in E.
      destruct (Client.withRetry _ _ _ _ _) as [run|] eqn:Hrun; [|discriminate].
      intros [= <- <-]. split; [intros H; contradiction|]. intros _.
      unfold Client.withRetry in Hrun.
      destruct (retryLoop_error_shape _ _ _ _ _ _ _ _ _ _ Hrun) as [->|(e & -> & _)];
        [now left|].
      right. eexists. split; [reflexivity|]. split; reflexivity.
  - intros message Hid Hretries Hfuel H404. unfold EventOps.DeleteEvent.
    apply String.eqb_neq in Hid. rewrite Hid. unfold Client.withRetry.
    destruct fuel as [|fuel]; [lia|]. cbn [Client.retryLoop].
    replace (0 <=? Client.MaxRetries c) with true by (symmetry; apply Z.leb_le; lia).
    cbn [Z.ltb Z.compare andb]. rewrite Nat.add_0_r, H404. cbn [Client.isRetryable].
    replace ((404 =? 429) || (404 =? 500) || (404 =? 502) || (404 =? 503) || (404 =? 504))
      with false by reflexivity.
    cbn [negb]. eexists. split; [reflexivity|reflexivity].
Qed.

Lemma DeleteEvent_reports_only_API_ERROR_witness :
  exists e,
    EventOps.DeleteEvent 10 (Client.NewClient None "primary") (fun _ => false)
      MoreExamples.unknownEvent 0 "gone"
    = Some (Some (Types.AppErr e), 1%nat)
    /\ Types.Code e = Types.ErrCodeAPIError.
Proof.
  apply (proj2 (DeleteEvent_reports_only_API_ERROR 10
                  (Client.NewClient None "primary") (fun _ => false)
                  MoreExamples.unknownEvent 0 "gone") "Not Found"%string).
  - intros H. discriminate H.
  - cbn [Client.MaxRetries Client.NewClient]. lia.
  - lia.
  - reflexivity.
Defined.

(** X8.  GetEvent returns the converted event of the first call that
    succeeds, after as many remote calls as that took, when the failures
    before it were retryable, within the budget and not cancelled. *)
Theorem GetEvent_returns_first_successful_answer :
  forall (fuel : nat) (c : Client.Client) (ctxDone : Z -> bool)
         (service : CalendarAPI.EventsService) (base : nat) (eventID : string) (k : nat)
         (event : CalendarAPI.Event),
    eventID <> ""%string ->
    Client.MaxRetries c < GoInt.maxInt64 ->
    Z.of_nat k <= Client.MaxRetries c ->
    (forall a, 0 <= a <= Z.of_nat k -> ctxDone a = false) ->
    (forall i, (i < k)%nat ->
               exists err,
                 CalendarAPI.Get service (Client.CalendarID c) eventID (base + i)%nat
                   = inr err
                 /\ Client.isRetryable err = true) ->
    CalendarAPI.Get service (Client.CalendarID c) eventID (base + k)%nat = inl event ->
    (k < fuel)%nat ->
    EventOps.GetEvent fuel c ctxDone service base eventID
    = Some (Some (EventOps.convertEvent event), None, S k).
Proof.
  intros fuel c ctxDone service base eventID k event Hid Hfit Hk Hctx Hfail Hok Hfuel.
  unfold EventOps.GetEvent. apply String.eqb_neq in Hid. rewrite Hid.
  now apply retried_first_success.
Qed.

Lemma GetEvent_returns_first_successful_answer_witness :
  EventOps.GetEvent 10 (Client.NewClient None "primary") (fun _ => false)
    MoreExamples.slowStart 0 "e1"
  = Some (Some (EventOps.convertEvent MoreExamples.standUpEvent), None, 3%nat).
Proof.
  apply (GetEvent_returns_first_successful_answer 10
           (Client.NewClient None "primary") (fun _ => false)
           MoreExamples.slowStart 0 "e1" 2 MoreExamples.standUpEvent).
  - intros H. discriminate H.
  - cbn [Client.MaxRetries Client.NewClient]. unfold GoInt.maxInt64. lia.
  - cbn [Client.MaxRetries Client.NewClient]. lia.
  - intros a _. reflexivity.
  - intros i Hi. eexists. destruct i as [|[|i]]; [split; reflexivity|split; reflexivity|lia].
  - reflexivity.
  - lia.
Defined.

(** ** Attendee addresses *)

Section EmailFacts.

Import GoStrings EventOps.

Lemma isAt_spec (c : ascii) : isAt c = Ascii.eqb "@" c.
Proof. destruct c as [[] [] [] [] [] [] [] []]; reflexivity. Qed.

Lemma isDot_spec (c : ascii) : isDot c = Ascii.eqb "." c.
Proof. destruct c as [[] [] [] [] [] [] [] []]; reflexivity. Qed.

Lemma hasDot_occurs (s : string) : hasDot s = Measures.occurs "." s.
Proof.
  induction s as [|c s IH]; [reflexivity|].
  cbn [hasDot Measures.occurs]. rewrite isDot_spec, IH.
  now destruct (Ascii.eqb "." c).
Qed.

(** Once an ['@'] has been seen, the scan fails on the next one. *)
Lemma scanAt_after (s : string) :
  forall i atIndex,
    atIndex <> -1 ->
    scanAt s i atIndex = if Measures.occurs "@" s then None else Some atIndex.
Proof.
  induction s as [|c s IH]; intros i atIndex Hseen; [reflexivity|].
  cbn [scanAt Measures.occurs]. rewrite isAt_spec.
  destruct (Ascii.eqb "@" c); cbn [orb].
  - now replace (atIndex =? -1) with false by (symmetry; apply Z.eqb_neq; exact Hseen).
  - now apply IH.
Qed.

Lemma scanAt_compose (pre post : string) :
  forall i,
    0 <= i ->
    Measures.occurs "@" pre = false ->
    Measures.occurs "@" post = false ->
    scanAt (pre ++ String "@" post) i (-1) = Some (i + Z.of_nat (String.length pre)).
Proof.
  induction pre as [|c pre IH]; intros i Hi Hpre Hpost.
  - change ("" ++ String "@" post)%string with (String "@" post).
    cbn [scanAt String.length]. rewrite isAt_spec.
    change (Ascii.eqb "@" "@") with true. cbn [Z.eqb negb].
    rewrite scanAt_after by lia. rewrite Hpost. f_equal. lia.
  - cbn [Measures.occurs] in Hpre. apply orb_false_iff in Hpre. destruct Hpre as [Hc Hpre].
    change (String c pre ++ String "@" post)%string
      with (String c (pre ++ String "@" post)).
    cbn [scanAt String.length]. rewrite isAt_spec, Hc.
    rewrite IH by (try assumption; lia). f_equal. lia.
Qed.

Lemma scanAt_decompose (s : string) :
  forall i j,
    0 <= i ->
    scanAt s i (-1) = Some j ->
    j <> -1 ->
    exists pre post,
      s = (pre ++ String "@" post)%string
      /\ Measures.occurs "@" pre = false
      /\ Measures.occurs "@" post = false
      /\ j = i + Z.of_nat (String.length pre).
Proof.
  induction s as [|c s IH]; intros i j Hi; cbn [scanAt].
  - intros [= <-] H. contradiction.
  - rewrite isAt_spec. destruct (Ascii.eqb "@" c) eqn:Hc.
    + apply Ascii.eqb_eq in Hc. subst c. cbn [Z.eqb negb].
      rewrite scanAt_after by lia.
      destruct (Measures.occurs "@" s) eqn:Hs; [discriminate|].
      intros [= <-] _. exists EmptyString, s. cbn [String.length].
      split; [reflexivity|]. repeat split; try assumption. lia.
    + intros Hscan Hj.
      destruct (IH (i + 1) j ltac:(lia) Hscan Hj) as (pre & post & -> & Hpre & Hpost & ->).
      exists (String c pre), post. cbn [Measures.occurs String.length].
      rewrite Hc, Hpre. split; [reflexivity|]. repeat split; try assumption. lia.
Qed.

Lemma sliceFrom_app (pre post : string) (c : ascii) :
  sliceFrom (S (String.length pre)) (pre ++ String c post) = post.
Proof. induction pre as [|d pre IH]; [reflexivity|exact IH]. Qed.

Lemma length_append (a b : string) :
  String.length (a ++ b) = (String.length a + String.length b)%nat.
Proof.
  induction a as [|c a IH]; [reflexivity|].
  change (String c a ++ b)%string with (String c (a ++ b)).
  cbn [String.length]. now rewrite IH.
Qed.

End EmailFacts.

(** X9.  isValidEmail accepts exactly the addresses that consist of a
    part that is not empty, one ['@'], and a domain of at least three
    bytes with a dot somewhere in it, no further ['@'] in either part.
    Nothing else is asked of the bytes: blanks pass, and so does a domain
    that begins or ends with its dot. *)
Theorem isValidEmail_accepts_one_at_and_a_dotted_domain :
  forall email : string,
    EventOps.isValidEmail email = true
    <-> exists localPart domain : string,
          email = (localPart ++ String "@" domain)%string
          /\ localPart <> ""%string
          /\ Measures.occurs "@" localPart = false
          /\ Measures.occurs "@" domain = false
          /\ (3 <= String.length domain)%nat
          /\ Measures.occurs "." domain = true.
Proof.
  intros email. unfold EventOps.isValidEmail. cbv zeta. split.
  - destruct (Z.of_nat (String.length email) <? 3); [discriminate|].
    destruct (EventOps.scanAt email 0 (-1)) as [atIndex|] eqn:Hscan; [|discriminate].
    destruct (Z.eqb_spec atIndex (-1)) as [|Hfound]; [discriminate|].
    destruct (Z.eqb_spec atIndex 0) as [|Hfirst]; [discriminate|].
    destruct (Z.eqb_spec atIndex (Z.of_nat (String.length email) - 1)) as [|Hlast];
      [discriminate|].
    cbn [orb].
    destruct (scanAt_decompose email 0 atIndex ltac:(lia) Hscan Hfound)
      as (pre & post & -> & Hpre & Hpost & ->).
    replace (Z.to_nat (0 + Z.of_nat (String.length pre) + 1)) with (S (String.length pre))
      by lia.
    rewrite sliceFrom_app.
    destruct (Z.ltb_spec (Z.of_nat (String.length post)) 3) as [|Hlen]; [discriminate|].
    rewrite hasDot_occurs. intros Hdot. exists pre, post.
    repeat split; try assumption; [|lia].
    intros ->. cbn in Hfirst. lia.
  - intros (pre & post & -> & Hnonempty & Hpre & Hpost & Hlen & Hdot).
    rewrite length_append. cbn [String.length].
    destruct (Z.ltb_spec (Z.of_nat (String.length pre + S (String.length post))) 3);
      [lia|].
    rewrite scanAt_compose by (try assumption; lia).
    assert (0 < String.length pre)%nat by (destruct pre; [contradiction|cbn; lia]).
    destruct (Z.eqb_spec (0 + Z.of_nat (String.length pre)) (-1)); [lia|].
    destruct (Z.eqb_spec (0 + Z.of_nat (String.length pre)) 0); [lia|].
    destruct (Z.eqb_spec (0 + Z.of_nat (String.length pre))
                (Z.of_nat (String.length pre + S (String.length post)) - 1)); [lia|].
    cbn [orb].
    replace (Z.to_nat (0 + Z.of_nat (String.length pre) + 1)) with (S (String.length pre))
      by lia.
    rewrite sliceFrom_app.
    destruct (Z.ltb_spec (Z.of_nat (String.length post)) 3); [lia|].
    now rewrite hasDot_occurs.
Qed.

(** ** The operations on one event and on its attendees *)

Section OperationFacts.

Import Types Client APIErrors EventOps Attendees.

Variable c : Client.
Variable ctxDone : Z -> bool.
Variable service : CalendarAPI.EventsService.
Hypothesis retries_fit : MaxRetries c < GoInt.maxInt64.







End OperationFacts.



Section AttendeeSetFacts.

Import EventOps Attendees.

Lemma existing_by_email (existing : list EventTypes.Attendee) (email : string) :
  forall m : gmap string EventTypes.Attendee,
    is_Some (fold_left (fun m att => <[EventTypes.Email att := att]> m) existing m !! email)
    <-> List.In email (map EventTypes.Email existing) \/ is_Some (m !! email).
Proof.
  induction existing as [|att existing IH]; intros m; cbn [fold_left map List.In].
  - tauto.
  - rewrite IH. destruct (decide (EventTypes.Email att = email)) as [->|Hne].
    + rewrite lookup_insert_eq. split; [auto|]. intros _. right. eauto.
    + rewrite lookup_insert_ne by exact Hne. tauto.
Qed.

Lemma removed_by_email (remove : list string) (email : string) :
  forall m : gmap string EventTypes.Attendee,
    is_Some (fold_left (fun m email => delete email m) remove m !! email)
    <-> ~ List.In email remove /\ is_Some (m !! email).
Proof.
  induction remove as [|r remove IH]; intros m; cbn [fold_left List.In].
  - tauto.
  - rewrite IH. destruct (decide (r = email)) as [->|Hne].
    + rewrite lookup_delete_eq. split.
      * intros [_ [x Hx]]. discriminate Hx.
      * intros [H _]. exfalso. apply H. now left.
    + rewrite lookup_delete_ne by exact Hne. tauto.
Qed.

Lemma added_by_email (add : list string) (email : string) :
  forall m : gmap string EventTypes.Attendee,
    is_Some (fold_left addNew add m !! email)
    <-> List.In email add \/ is_Some (m !! email).
Proof.
  induction add as [|a add IH]; intros m; cbn [fold_left List.In].
  - tauto.
  - rewrite IH. unfold addNew. destruct (m !! a) as [x|] eqn:Ha.
    + split; [tauto|]. intros [[<-|H]|H]; auto; right; rewrite Ha; eauto.
    + destruct (decide (a = email)) as [->|Hne].
      * rewrite lookup_insert_eq. split; [auto|]. intros _. right. eauto.
      * rewrite lookup_insert_ne by exact Hne. tauto.
Qed.

(** The addresses ManageAttendees passes on. *)
Lemma attendeeEmails_spec (existing : list EventTypes.Attendee)
    (operation : AttendeeOperation) :
  NoDup (attendeeEmails (newAttendees existing operation))
  /\ forall email,
       List.In email (attendeeEmails (newAttendees existing operation))
       <-> List.In email (Add operation)
           \/ (List.In email (map EventTypes.Email existing)
               /\ ~ List.In email (Remove operation)).
Proof.
  unfold attendeeEmails. split.
  - apply NoDup_fst_map_to_list.
  - intros email.
    rewrite <- list_elem_of_In, list_elem_of_fmap.
    transitivity (is_Some (newAttendees existing operation !! email)).
    + split.
      * intros ([k x] & -> & Hin). apply elem_of_map_to_list in Hin. cbn. eauto.
      * intros [x Hx]. exists (email, x). split; [reflexivity|].
        now apply elem_of_map_to_list.
    + unfold newAttendees. rewrite added_by_email, removed_by_email, existing_by_email.
      rewrite lookup_empty. split.
      * intros [H|[Hrm [H|[x Hx]]]]; [auto|auto|discriminate Hx].
      * intros [H|[H Hrm]]; auto.
Qed.

Lemma attendees_kept (attendees : list CalendarAPI.EventAttendee) :
  map (fun att => {| CalendarAPI.Email := EventTypes.Email att;
                     CalendarAPI.ResponseStatus := EventTypes.ResponseStatus att |})
      (map convertAttendee attendees)
  = attendees.
Proof.
  induction attendees as [|[email status] attendees IH]; [reflexivity|].
  cbn [map convertAttendee EventTypes.Email EventTypes.ResponseStatus
       CalendarAPI.Email CalendarAPI.ResponseStatus].
  now rewrite IH.
Qed.

Lemma firstInvalidEmail_none (emails : list string) :
  firstInvalidEmail emails = None
  <-> Forall (fun email => isValidEmail email = true) emails.
Proof.
  induction emails as [|email emails IH]; cbn [firstInvalidEmail].
  - split; [constructor|reflexivity].
  - destruct (isValidEmail email) eqn:E; cbn [negb].
    + rewrite IH. split; [now constructor|]. now inversion 1.
    + split; [discriminate|]. inversion 1. congruence.
Qed.

End AttendeeSetFacts.

(** X11.  With valid addresses, a remote that returns the event to both
    readings and accepts the update at once, ManageAttendees makes three
    remote calls and returns the remote's answer to the event it sent.
    The addresses it passes on are, each once, those to add and those of
    the attendees it read that are not to be removed (an address both to
    remove and to add stays).  If there is any, the event sent carries
    exactly these, all with an empty response status: the answers of the
    attendees that stay are not sent back.  If there is none, the event
    sent carries the attendees of the second reading unchanged: removing
    the last attendees removes nobody.  Title, description and place are
    those of the second reading. *)
Theorem ManageAttendees_sends_the_new_attendee_set :
  forall (fuel : nat) (c : Client.Client) (ctxDone : Z -> bool)
         (service : CalendarAPI.EventsService) (eventID : string)
         (operation : Attendees.AttendeeOperation)
         (first second : CalendarAPI.Event) (answer : CalendarAPI.Event -> CalendarAPI.Event),
    eventID <> ""%string ->
    Forall (fun email => EventOps.isValidEmail email = true) (Attendees.Add operation) ->
    Forall (fun email => EventOps.isValidEmail email = true) (Attendees.Remove operation) ->
    0 <= Client.MaxRetries c < GoInt.maxInt64 ->
    (0 < fuel)%nat ->
    CalendarAPI.Get service (Client.CalendarID c) eventID 0 = inl first ->
    CalendarAPI.Get service (Client.CalendarID c) eventID 1 = inl second ->
    (forall sent, CalendarAPI.Update service (Client.CalendarID c) eventID sent 2
                  = inl (answer sent)) ->
    exists (sent : CalendarAPI.Event) (emails : list string),
      Attendees.ManageAttendees fuel c ctxDone service eventID operation
        = Some (Returns (Some (EventOps.convertEvent (answer sent)), None, 3%nat))
      /\ NoDup emails
      /\ (forall email,
             List.In email emails
             <-> List.In email (Attendees.Add operation)
                 \/ (List.In email (map CalendarAPI.Email (CalendarAPI.Attendees first))
                     /\ ~ List.In email (Attendees.Remove operation)))
      /\ (emails <> [] ->
          CalendarAPI.Attendees sent
          = map (fun email => CalendarAPI.mkEventAttendee email "") emails)
      /\ (emails = [] -> CalendarAPI.Attendees sent = CalendarAPI.Attendees second)
      /\ CalendarAPI.Summary sent = CalendarAPI.Summary second
      /\ CalendarAPI.Description sent = CalendarAPI.Description second
      /\ CalendarAPI.Location sent = CalendarAPI.Location second.
Proof.
  intros fuel c ctxDone service eventID operation first second answer
         Hid Hadd Hremove Hretries Hfuel Hfirst Hsecond Hupdate.
  set (emails := Attendees.attendeeEmails
                   (Attendees.newAttendees
                      (EventTypes.Attendees (EventOps.convertEvent first)) operation)).
  set (params := EventOps.mkCreateEventParams "" "" "" GoTime.zeroTime GoTime.zeroTime ""
                   emails [] false).
  set (sent := EventOps.mergeEvent (EventOps.convertEvent second) params).
  assert (Hget : forall base event,
             CalendarAPI.Get service (Client.CalendarID c) eventID base = inl event ->
             EventOps.GetEvent fuel c ctxDone service base eventID
             = Some (Some (EventOps.convertEvent event), None, 1%nat)).
  { intros base event Hevent. unfold EventOps.GetEvent.
    apply String.eqb_neq in Hid. rewrite Hid.
    apply retried_at_once; [lia|exact Hevent|exact Hfuel]. }
  exists sent, emails. split.
  - unfold Attendees.ManageAttendees.
    pose proof Hid as Hid'. apply String.eqb_neq in Hid'. rewrite Hid'.
    rewrite (proj2 (firstInvalidEmail_none _) Hadd).
    rewrite (proj2 (firstInvalidEmail_none _) Hremove).
    rewrite (Hget 0%nat first Hfirst).
    fold emails. fold params.
    unfold EventOps.UpdateEvent. rewrite Hid'.
    rewrite (Hget 1%nat second Hsecond). fold sent.
    rewrite (retried_at_once c ctxDone "update event"
               (CalendarAPI.Update service (Client.CalendarID c) eventID sent) (1 + 1)
               fuel (answer sent)); try lia.
    + reflexivity.
    + apply Hupdate.
  - destruct (attendeeEmails_spec (EventTypes.Attendees (EventOps.convertEvent first))
                operation) as [Hnodup Hin].
    split; [exact Hnodup|]. split.
    { intros email. unfold emails. rewrite (Hin email).
      cbn [EventOps.convertEvent EventTypes.Attendees]. rewrite map_map.
      reflexivity. }
    split.
    { intros Hsome. unfold sent, EventOps.mergeEvent.
      cbn [CalendarAPI.Attendees EventOps.Attendees params].
      destruct emails as [|email more]; [contradiction|]. reflexivity. }
    split.
    { intros Hnone. unfold sent, EventOps.mergeEvent.
      cbn [CalendarAPI.Attendees EventOps.Attendees params].
      rewrite Hnone. cbn [length Nat.ltb Nat.leb].
      cbn [EventOps.convertEvent EventTypes.Attendees]. apply attendees_kept. }
    repeat split; reflexivity.
Qed.

(** Ann and Bob are invited; Bob is to go and Cy to come.  The context
    is cancelled all along, which only a retry would notice. *)
Lemma ManageAttendees_sends_witness :
  exists (sent : CalendarAPI.Event) (emails : list string),
    Attendees.ManageAttendees 10 (Client.NewClient None "primary") (fun _ => true)
      MoreExamples.holdsStandUp "e1"
      (Attendees.mkAttendeeOperation ["cy@example.org"%string] ["bob@example.org"%string])
      = Some (Returns (Some (EventOps.convertEvent sent), None, 3%nat))
    /\ NoDup emails
    /\ (forall email,
           List.In email emails
           <-> List.In email ["cy@example.org"%string]
               \/ (List.In email
                     (map CalendarAPI.Email
                          (CalendarAPI.Attendees MoreExamples.standUpEvent))
                   /\ ~ List.In email ["bob@example.org"%string]))
    /\ (emails <> [] ->
        CalendarAPI.Attendees sent
        = map (fun email => CalendarAPI.mkEventAttendee email "") emails)
    /\ (emails = [] ->
        CalendarAPI.Attendees sent = CalendarAPI.Attendees MoreExamples.standUpEvent)
    /\ CalendarAPI.Summary sent = CalendarAPI.Summary MoreExamples.standUpEvent
    /\ CalendarAPI.Description sent = CalendarAPI.Description MoreExamples.standUpEvent
    /\ CalendarAPI.Location sent = CalendarAPI.Location MoreExamples.standUpEvent.
Proof.
  apply (ManageAttendees_sends_the_new_attendee_set 10
           (Client.NewClient None "primary") (fun _ => true)
           MoreExamples.holdsStandUp "e1"
           (Attendees.mkAttendeeOperation ["cy@example.org"%string]
              ["bob@example.org"%string])
           MoreExamples.standUpEvent MoreExamples.standUpEvent (fun sent => sent)).
  - intros H. discriminate H.
  - repeat constructor.
  - repeat constructor.
  - cbn [Client.MaxRetries Client.NewClient]. unfold GoInt.maxInt64. lia.
  - lia.
  - reflexivity.
  - reflexivity.
  - reflexivity.
Defined.

Section CreateFacts.

Import GoTime Types APIErrors EventOps.

Lemma validateCreateParams_spec (params : CreateEventParams) :
  (validateCreateParams params = None <-> Measures.validParams params)
  /\ forall e, validateCreateParams params = Some e ->
               List.In (Code e)
                 [ErrCodeMissingRequired; ErrCodeInvalidTimeRange; ErrCodeInvalidInput].
Proof.
  unfold validateCreateParams, Measures.validParams.
  destruct (String.eqb_spec (Summary params) "") as [Hs|Hs].
  { split; [split; [discriminate|tauto]|]. intros e [= <-]. now left. }
  destruct (IsZero (Start params)) eqn:Hstart.
  { split; [split; [discriminate|]|]; [intros (_ & H & _); discriminate H|].
    intros e [= <-]. now left. }
  destruct (IsZero (End params)) eqn:Hend.
  { split; [split; [discriminate|]|]; [intros (_ & _ & H & _); discriminate H|].
    intros e [= <-]. now left. }
  unfold Before. destruct (Z.ltb_spec (unixNano (Start params)) (unixNano (End params)))
    as [Horder|Horder]; cbn [negb].
  2:{ split; [split; [discriminate|]|]; [intros (_ & _ & _ & H & _); lia|].
      intros e [= <-]. right. now left. }
  destruct (firstInvalidEmail (Attendees params)) as [email|] eqn:Hemails.
  - split.
    + split; [discriminate|]. intros (_ & _ & _ & _ & H).
      apply firstInvalidEmail_none in H. congruence.
    + intros e [= <-]. right. right. now left.
  - apply firstInvalidEmail_none in Hemails. split; [|discriminate].
    split; [intros _; tauto|reflexivity].
Qed.

End CreateFacts.

(** X12.  CreateEvent calls the remote only for parameters with a title,
    a start and an end that are set, the start before the end, and
    attendee addresses that isValidEmail accepts.  For any others it
    returns MISSING_REQUIRED, INVALID_TIME_RANGE or INVALID_INPUT without
    a remote call; for these it returns the conversion of what the remote
    answered to the event it built, or an API_ERROR. *)
Theorem CreateEvent_calls_the_remote_only_for_valid_parameters :
  forall (fuel : nat) (c : Client.Client) (ctxDone : Z -> bool)
         (service : CalendarAPI.EventsService) (base : nat)
         (params : EventOps.CreateEventParams)
         (event : option EventTypes.Event) (err : option Types.GoError) (n : nat),
    EventOps.CreateEvent fuel c ctxDone service base params = Some (event, err, n) ->
    (Measures.validParams params ->
     (exists answer last,
         n = S last
         /\ CalendarAPI.Insert service (Client.CalendarID c) (EventOps.newEvent params)
              (base + last)%nat = inl answer
         /\ event = Some (EventOps.convertEvent answer) /\ err = None)
     \/ (event = None
         /\ exists e, err = Some (Types.AppErr e) /\ Types.Code e = Types.ErrCodeAPIError))
    /\ (~ Measures.validParams params ->
        n = O /\ event = None
        /\ exists e, err = Some (Types.AppErr e)
                     /\ List.In (Types.Code e)
                          [Types.ErrCodeMissingRequired; Types.ErrCodeInvalidTimeRange;
                           Types.ErrCodeInvalidInput]).
Proof.
  intros fuel c ctxDone service base params event err n Hrun.
  destruct (validateCreateParams_spec params) as [Hvalid Hcodes].
  unfold EventOps.CreateEvent in Hrun.
  destruct (EventOps.validateCreateParams params) as [e|] eqn:Hcheck.
  - injection Hrun as <- <- <-. split.
    + intros H. apply Hvalid in H. discriminate H.
    + intros _. split; [reflexivity|]. split; [reflexivity|].
      exists e. split; [reflexivity|]. now apply Hcodes.
  - split.
    + intros _.
      destruct (retried_shape _ _ _ _ _ _ _ _ _ Hrun)
        as [(answer & last & -> & Hanswer & -> & ->)|(-> & e & -> & Hcode & _)].
      * left. exists answer, last. auto.
      * right. split; [reflexivity|]. exists e. auto.
    + intros H. exfalso. apply H. now apply Hvalid.
Qed.

(** A meeting from 9:00 to 10:00, created at the third call. *)
Lemma CreateEvent_calls_the_remote_witness :
  (Measures.validParams MoreExamples.reviewMeeting ->
   (exists answer last,
       3%nat = S last
       /\ CalendarAPI.Insert MoreExamples.slowStart "primary"
            (EventOps.newEvent MoreExamples.reviewMeeting) (0 + last)%nat = inl answer
       /\ Some (EventOps.convertEvent (EventOps.newEvent MoreExamples.reviewMeeting))
          = Some (EventOps.convertEvent answer)
       /\ @None Types.GoError = None)
   \/ (Some (EventOps.convertEvent (EventOps.newEvent MoreExamples.reviewMeeting)) = None
       /\ exists e, None = Some (Types.AppErr e)
                    /\ Types.Code e = Types.ErrCodeAPIError))
  /\ (~ Measures.validParams MoreExamples.reviewMeeting ->
      3%nat = O
      /\ Some (EventOps.convertEvent (EventOps.newEvent MoreExamples.reviewMeeting)) = None
      /\ exists e, None = Some (Types.AppErr e)
                   /\ List.In (Types.Code e)
                        [Types.ErrCodeMissingRequired; Types.ErrCodeInvalidTimeRange;
                         Types.ErrCodeInvalidInput]).
Proof.
  apply (CreateEvent_calls_the_remote_only_for_valid_parameters 10
           (Client.NewClient None "primary") (fun _ => false)
           MoreExamples.slowStart 0 MoreExamples.reviewMeeting).
  vm_compute. reflexivity.
Defined.

(** ** Free slots when the calendar has bookings *)

Section SlotFacts.

Import GoTime FreeBusy.

(** The inner loop says free exactly when no busy period overlaps. *)
Lemma slotIsFree_spec (busy : list (Time * Time)) (t e : Time) :
  slotIsFree busy t e = true
  <-> forall b, List.In b busy -> Before t (snd b) && After e (fst b) = false.
Proof.
  induction busy as [|b busy IH]; cbn [slotIsFree].
  - split; [intros _ b []|reflexivity].
  - destruct (Before t (snd b) && After e (fst b)) eqn:E.
    + split; [discriminate|]. intros H. specialize (H b (or_introl eq_refl)). congruence.
    + rewrite IH. split.
      * intros H b' [<-|Hin]; [exact E|now apply H].
      * intros H b' Hin. apply H. now right.
Qed.

Lemma slotIsFree_periods (periods : list FreeBusyPeriod) (t e : Time) :
  slotIsFree (map parsePeriod periods) t e = true
  <-> forall period, List.In period periods -> conflictsWith t e period = false.
Proof.
  rewrite slotIsFree_spec. split.
  - intros H period Hin. apply (H (parsePeriod period)). now apply in_map.
  - intros H b Hin. apply in_map_iff in Hin. destruct Hin as (period & <- & Hin).
    now apply H.
Qed.

(** The candidates, as positions on the grid. *)
Lemma strides_In (start : Time) (d : Z) (n : nat) (t : Time) :
  List.In t (strides start d n)
  <-> exists k, (k < n)%nat /\ t = Add start (Z.of_nat k * d).
Proof.
  unfold strides. rewrite in_map_iff. split.
  - intros (k & <- & Hk). apply in_seq in Hk. exists k. split; [lia|reflexivity].
  - intros (k & Hk & ->). exists k. split; [reflexivity|]. apply in_seq. lia.
Qed.

Lemma slotCount_fits (start end_ : Time) (d : Z) (k : nat) :
  0 < d ->
  (k < slotCount start end_ d)%nat
  <-> unixNano start + Z.of_nat k * d + d <= unixNano end_.
Proof.
  unfold slotCount. intros Hd.
  set (x := unixNano end_ - unixNano start) in *.
  split; intros H.
  - assert (Z.of_nat k + 1 <= x / d) by lia.
    pose proof (Z.mul_div_le x d Hd). nia.
  - assert (Z.of_nat k + 1 <= x / d) by (apply Z.div_le_lower_bound; lia).
    lia.
Qed.

(** A filter keeps the order of the candidates. *)
Lemma strides_chronological (keep : Time -> bool) (d : Z) (n : nat) :
  0 < d ->
  forall start,
    StronglySorted (fun a b => unixNano a < unixNano b)
                   (List.filter keep (strides start d n)).
Proof.
  intros Hd. induction n as [|n IH]; intros start; [constructor|].
  rewrite strides_S. cbn [List.filter].
  destruct (keep start); [|apply IH].
  constructor; [apply IH|].
  apply Forall_forall. intros t Ht. apply list_elem_of_In in Ht.
  apply filter_In in Ht. destruct Ht as [Ht _].
  apply strides_In in Ht. destruct Ht as (k & _ & ->).
  unfold Add. cbn [unixNano]. nia.
Qed.

End SlotFacts.

(** X13.  For a positive slot duration, FindFreeSlots on a calendar the
    remote answered for returns exactly the grid positions [start + k * d]
    whose slot ends by [end_] and overlaps none of the calendar's busy
    periods, the overlap test being the one CheckConflicts applies; a
    period that only touches a slot does not exclude it.  The slots come
    in chronological order, without repetition. *)
Theorem FindFreeSlots_returns_the_free_grid_slots :
  forall (c : Client.Client) (calendarID : string) (start end_ : GoTime.Time) (d : Z)
         (response : FreeBusy.FreeBusyQueryResponse) (calInfo : FreeBusy.FreeBusyInfo)
         (fuel : nat),
    0 < d ->
    FreeBusy.QueryFreeBusy c (FreeBusy.windowRequest [calendarID] start end_)
      = inl response ->
    FreeBusy.Calendars response !! calendarID = Some calInfo ->
    (FreeBusy.slotCount start end_ d < fuel)%nat ->
    exists slots,
      FreeBusy.FindFreeSlots fuel c calendarID start end_ d = Some (slots, None)
      /\ (forall t,
            List.In t slots
            <-> (exists k : nat,
                    t = GoTime.Add start (Z.of_nat k * d)
                    /\ GoTime.unixNano t + d <= GoTime.unixNano end_)
                /\ (forall period,
                       List.In period (FreeBusy.Busy calInfo) ->
                       FreeBusy.conflictsWith t (GoTime.Add t d) period = false))
      /\ StronglySorted (fun a b => GoTime.unixNano a < GoTime.unixNano b) slots.
Proof.
  intros c calendarID start end_ d response calInfo fuel Hd Hq Hcal Hfuel.
  unfold FreeBusy.FindFreeSlots. rewrite Hq, Hcal.
  rewrite (slotLoop_positive _ end_ d Hd (FreeBusy.slotCount start end_ d))
    by (try reflexivity; exact Hfuel).
  cbn [app]. eexists. split; [reflexivity|]. split.
  - intros t. rewrite filter_In, strides_In, slotIsFree_periods. split.
    + intros [(k & Hk & ->) Hfree]. split; [|exact Hfree].
      exists k. split; [reflexivity|].
      apply (slotCount_fits start end_ d k Hd) in Hk.
      unfold GoTime.Add. cbn [GoTime.unixNano]. lia.
    + intros [(k & -> & Hfit) Hfree]. split; [|exact Hfree].
      exists k. split; [|reflexivity].
      apply (slotCount_fits start end_ d k Hd).
      unfold GoTime.Add in Hfit. cbn [GoTime.unixNano] in Hfit. lia.
  - now apply strides_chronological.
Qed.

(** The calendar busy from 10:00 to 11:00, asked for hour slots between
    9:00 and 12:00. *)
Lemma FindFreeSlots_returns_the_free_grid_slots_witness :
  exists slots,
    FreeBusy.FindFreeSlots 10 (Client.NewClient (Some Examples.busyTenToEleven) "cal1")
      "cal1" (Examples.at_ 9 0) (Examples.at_ 12 0) GoTime.Hour = Some (slots, None)
    /\ (forall t,
          List.In t slots
          <-> (exists k : nat,
                  t = GoTime.Add (Examples.at_ 9 0) (Z.of_nat k * GoTime.Hour)
                  /\ GoTime.unixNano t + GoTime.Hour <= GoTime.unixNano (Examples.at_ 12 0))
              /\ (forall period,
                     List.In period
                       [FreeBusy.mkFreeBusyPeriod "2024-01-15T10:00:00Z"
                          "2024-01-15T11:00:00Z"] ->
                     FreeBusy.conflictsWith t (GoTime.Add t GoTime.Hour) period = false))
    /\ StronglySorted (fun a b => GoTime.unixNano a < GoTime.unixNano b) slots.
Proof.
  apply (FindFreeSlots_returns_the_free_grid_slots
           (Client.NewClient (Some Examples.busyTenToEleven) "cal1") "cal1"
           (Examples.at_ 9 0) (Examples.at_ 12 0) GoTime.Hour
           (FreeBusy.mkFreeBusyQueryResponse
              {[ "cal1"%string :=
                   FreeBusy.mkFreeBusyInfo "cal1"
                     [FreeBusy.mkFreeBusyPeriod "2024-01-15T10:00:00Z"
                        "2024-01-15T11:00:00Z"] [] ]}
              "2024-01-15T09:00:00Z" "2024-01-15T12:00:00Z")
           (FreeBusy.mkFreeBusyInfo "cal1"
              [FreeBusy.mkFreeBusyPeriod "2024-01-15T10:00:00Z" "2024-01-15T11:00:00Z"] [])
           10%nat).
  - reflexivity.
  - vm_compute. reflexivity.
  - vm_compute. reflexivity.
  - vm_compute. lia.
Defined.

(** X14.  For a positive slot duration, FindCommonFreeTime returns exactly
    the grid positions whose slot ends by [end_] and overlaps no busy
    period of any calendar of the answer, whatever the order in which the
    calendars are visited: collecting the busy periods in any other order
    gives the same list.  A calendar the remote reports with errors and
    no busy periods excludes nothing.  Every slot it returns is also one
    that FindFreeSlots returns for any single calendar with the same busy
    data. *)
Theorem FindCommonFreeTime_slots_are_free_in_every_calendar :
  forall (c : Client.Client) (calendarIDs : list string) (start end_ : GoTime.Time)
         (d : Z) (response : FreeBusy.FreeBusyQueryResponse) (fuel : nat),
    0 < d ->
    FreeBusy.QueryFreeBusy c (FreeBusy.windowRequest calendarIDs start end_)
      = inl response ->
    (FreeBusy.slotCount start end_ d < fuel)%nat ->
    exists slots,
      Multi.FindCommonFreeTime fuel c calendarIDs start end_ d = Some (slots, None)
      /\ (forall t,
            List.In t slots
            <-> (exists k : nat,
                    t = GoTime.Add start (Z.of_nat k * d)
                    /\ GoTime.unixNano t + d <= GoTime.unixNano end_)
                /\ (forall calendarID calInfo period,
                       FreeBusy.Calendars response !! calendarID = Some calInfo ->
                       List.In period (FreeBusy.Busy calInfo) ->
                       FreeBusy.conflictsWith t (GoTime.Add t d) period = false))
      /\ (forall visited,
             Permutation visited (map_to_list (FreeBusy.Calendars response)) ->
             FreeBusy.slotLoop fuel
               (concat (map (fun entry => map FreeBusy.parsePeriod
                                              (FreeBusy.Busy (snd entry))) visited))
               end_ d start [] = Some slots)
      /\ (forall calendarID calInfo single,
             FreeBusy.Calendars response !! calendarID = Some calInfo ->
             FreeBusy.QueryFreeBusy c (FreeBusy.windowRequest [calendarID] start end_)
               = inl single ->
             FreeBusy.Calendars single !! calendarID = Some calInfo ->
             exists own,
               FreeBusy.FindFreeSlots fuel c calendarID start end_ d = Some (own, None)
               /\ forall t, List.In t slots -> List.In t own).
Proof.
  intros c calendarIDs start end_ d response fuel Hd Hq Hfuel.
  assert (Hall : forall t e,
             FreeBusy.slotIsFree
               (concat (map (fun entry => map FreeBusy.parsePeriod
                                              (FreeBusy.Busy (snd entry)))
                            (map_to_list (FreeBusy.Calendars response)))) t e = true
             <-> forall calendarID calInfo period,
                   FreeBusy.Calendars response !! calendarID = Some calInfo ->
                   List.In period (FreeBusy.Busy calInfo) ->
                   FreeBusy.conflictsWith t e period = false).
  { intros t e. rewrite slotIsFree_spec. split.
    - intros H calendarID calInfo period Hcal Hin.
      apply (H (FreeBusy.parsePeriod period)).
      apply in_concat. exists (map FreeBusy.parsePeriod (FreeBusy.Busy calInfo)).
      split; [|now apply in_map].
      apply in_map_iff. exists (calendarID, calInfo). split; [reflexivity|].
      apply list_elem_of_In. now apply elem_of_map_to_list.
    - intros H b Hin. apply in_concat in Hin. destruct Hin as (l & Hl & Hb).
      apply in_map_iff in Hl. destruct Hl as ([calendarID calInfo] & <- & Hentry).
      apply in_map_iff in Hb. destruct Hb as (period & <- & Hperiod).
      apply list_elem_of_In, elem_of_map_to_list in Hentry.
      exact (H calendarID calInfo period Hentry Hperiod). }
  assert (Hrun : Multi.FindCommonFreeTime fuel c calendarIDs start end_ d
                 = Some (List.filter
                           (fun t => FreeBusy.slotIsFree
                                       (concat (map (fun entry =>
                                                       map FreeBusy.parsePeriod
                                                           (FreeBusy.Busy (snd entry)))
                                                    (map_to_list
                                                       (FreeBusy.Calendars response))))
                                       t (GoTime.Add t d))
                           (FreeBusy.strides start d (FreeBusy.slotCount start end_ d)),
                         None)).
  { unfold Multi.FindCommonFreeTime.
    pose proof Hq as Hq'. unfold FreeBusy.QueryFreeBusy in Hq'.
    destruct (Client.Service c); [|discriminate Hq'].
    cbn [FreeBusy.windowRequest FreeBusy.CalendarIDs] in Hq'.
    destruct (String.eqb _ _ || String.eqb _ _); [discriminate Hq'|].
    destruct (length calendarIDs =? 0)%nat; [discriminate Hq'|].
    rewrite Hq.
    rewrite (slotLoop_positive _ end_ d Hd (FreeBusy.slotCount start end_ d))
      by (try reflexivity; exact Hfuel).
    reflexivity. }
  eexists. split; [exact Hrun|]. split; [|split].
  - intros t. rewrite filter_In, strides_In, Hall. split.
    + intros [(k & Hk & ->) Hfree]. split; [|exact Hfree].
      exists k. split; [reflexivity|].
      apply (slotCount_fits start end_ d k Hd) in Hk.
      unfold GoTime.Add. cbn [GoTime.unixNano]. lia.
    + intros [(k & -> & Hfit) Hfree]. split; [|exact Hfree].
      exists k. split; [|reflexivity].
      apply (slotCount_fits start end_ d k Hd).
      unfold GoTime.Add in Hfit. cbn [GoTime.unixNano] in Hfit. lia.
  - intros visited Hperm.
    rewrite (slotLoop_positive _ end_ d Hd (FreeBusy.slotCount start end_ d))
      by (try reflexivity; exact Hfuel).
    cbn [app]. f_equal. apply filter_ext. intros t.
    apply eq_true_iff_eq. rewrite !slotIsFree_spec.
    assert (Hsame : forall b,
               List.In b (concat (map (fun entry => map FreeBusy.parsePeriod
                                                        (FreeBusy.Busy (snd entry)))
                                      visited))
               <-> List.In b (concat (map (fun entry => map FreeBusy.parsePeriod
                                                            (FreeBusy.Busy (snd entry)))
                                          (map_to_list (FreeBusy.Calendars response))))).
    { intros b. rewrite !in_concat. split; intros (l & Hl & Hb); exists l;
        (split; [|exact Hb]); apply in_map_iff in Hl; destruct Hl as (entry & <- & He);
        apply (in_map (fun entry => map FreeBusy.parsePeriod (FreeBusy.Busy (snd entry))));
        [apply (Permutation_in _ Hperm He)
        |apply (Permutation_in _ (Permutation_sym Hperm) He)]. }
    split; intros H b Hb; apply H, Hsame, Hb.
  - intros calendarID calInfo single Hcal Hsingle Hown.
    unfold FreeBusy.FindFreeSlots. rewrite Hsingle, Hown.
    rewrite (slotLoop_positive _ end_ d Hd (FreeBusy.slotCount start end_ d))
      by (try reflexivity; exact Hfuel).
    cbn [app]. eexists. split; [reflexivity|].
    intros t. rewrite !filter_In, Hall, slotIsFree_periods.
    intros [Hgrid Hfree]. split; [exact Hgrid|].
    intros period Hin. exact (Hfree calendarID calInfo period Hcal Hin).
Qed.

(** Two calendars and one the remote does not know, asked for hour slots
    between 9:00 and 12:00: only the slot from 11:00 is free in all. *)
Lemma FindCommonFreeTime_slots_witness :
  exists slots,
    Multi.FindCommonFreeTime 10 (Client.NewClient (Some MoreExamples.threeCalendars) "work")
      ["work"; "home"; "gone"]%string (Examples.at_ 9 0) (Examples.at_ 12 0) GoTime.Hour
    = Some (slots, None)
    /\ slots = [Examples.at_ 11 0]
    /\ (forall calendarID calInfo single,
           FreeBusy.Calendars MoreExamples.threeCalendarsAnswer !! calendarID
             = Some calInfo ->
           FreeBusy.QueryFreeBusy
             (Client.NewClient (Some MoreExamples.threeCalendars) "work")
             (FreeBusy.windowRequest [calendarID] (Examples.at_ 9 0) (Examples.at_ 12 0))
             = inl single ->
           FreeBusy.Calendars single !! calendarID = Some calInfo ->
           exists own,
             FreeBusy.FindFreeSlots 10
               (Client.NewClient (Some MoreExamples.threeCalendars) "work")
               calendarID (Examples.at_ 9 0) (Examples.at_ 12 0) GoTime.Hour
             = Some (own, None)
             /\ forall t, List.In t slots -> List.In t own).
Proof.
  destruct (FindCommonFreeTime_slots_are_free_in_every_calendar
              (Client.NewClient (Some MoreExamples.threeCalendars) "work")
              ["work"; "home"; "gone"]%string (Examples.at_ 9 0) (Examples.at_ 12 0)
              GoTime.Hour MoreExamples.threeCalendarsAnswer 10%nat)
    as (slots & Hrun & _ & _ & Hown).
  - reflexivity.
  - vm_compute. reflexivity.
  - vm_compute. lia.
  - exists slots. split; [exact Hrun|]. split; [|exact Hown].
    vm_compute in Hrun. injection Hrun as <-. vm_compute. reflexivity.
Defined.

(** ** The order of the aggregated events *)

Section SortFacts.

Import Multi Measures.

Lemma ltb_lt (s1 s2 : string) : String.ltb s1 s2 = true <-> String_as_OT.lt s1 s2.
Proof.
  unfold String.ltb. rewrite <- String_as_OT.cmp_lt.
  change (String_as_OT.cmp s1 s2) with (String.compare s1 s2).
  destruct (String.compare s1 s2); split; congruence.
Qed.

Lemma notAfter_swapped (a b : MultiCalendarEvent) :
  String.ltb (startOf b) (startOf a) = true -> notAfter b a.
Proof.
  unfold notAfter. intros H. apply ltb_lt in H.
  destruct (String.ltb (startOf a) (startOf b)) eqn:E; [|reflexivity].
  apply ltb_lt in E.
  destruct (String_as_OT.lt_not_eq _ _ (String_as_OT.lt_trans _ _ _ H E) eq_refl).
Qed.

Lemma notAfter_trans (a b c : MultiCalendarEvent) :
  notAfter a b -> notAfter b c -> notAfter a c.
Proof.
  unfold notAfter. intros Hab Hbc.
  destruct (String.ltb (startOf c) (startOf a)) eqn:Hca; [|reflexivity].
  apply ltb_lt in Hca.
  destruct (String.compare (startOf a) (startOf b)) eqn:E.
  - apply String.compare_eq_iff in E. rewrite E in Hca.
    apply ltb_lt in Hca. congruence.
  - apply String_as_OT.cmp_lt in E.
    pose proof (String_as_OT.lt_trans _ _ _ Hca E) as Hcb.
    apply ltb_lt in Hcb. congruence.
  - rewrite String.compare_antisym in E.
    assert (Hba : String.ltb (startOf b) (startOf a) = true).
    { unfold String.ltb. destruct (String.compare (startOf b) (startOf a));
        cbn in E; congruence. }
    congruence.
Qed.

Lemma swap_lookup (events : list MultiCalendarEvent) (i j q : nat)
    (ei ej : MultiCalendarEvent) :
  events !! i = Some ei -> events !! j = Some ej -> i <> j ->
  <[i := ej]> (<[j := ei]> events) !! q
  = if (q =? i)%nat then Some ej else if (q =? j)%nat then Some ei else events !! q.
Proof.
  intros Hi Hj Hne.
  pose proof (lookup_lt_Some _ _ _ Hi). pose proof (lookup_lt_Some _ _ _ Hj).
  destruct (Nat.eqb_spec q i) as [->|Hqi].
  - apply list_lookup_insert_eq. now rewrite length_insert.
  - rewrite list_lookup_insert_ne by congruence.
    destruct (Nat.eqb_spec q j) as [->|Hqj].
    + now apply list_lookup_insert_eq.
    + apply list_lookup_insert_ne. congruence.
Qed.

Lemma sortInner_inv (n i : nat) :
  forall k j events,
    (i < j)%nat -> (j + k = n)%nat -> length events = n ->
    settled i events -> leads i j events ->
    length (sortInner k i j events) = n
    /\ sortInner k i j events ≡ₚ events
    /\ settled i (sortInner k i j events)
    /\ leads i n (sortInner k i j events).
Proof.
  induction k as [|k IH]; intros j events Hij Hjk Hlen Hsettled Hleads.
  - cbn [sortInner]. rewrite Nat.add_0_r in Hjk. subst n. repeat split; auto.
  - cbn [sortInner].
    destruct (lookup_lt_is_Some_2 events i ltac:(lia)) as [ei Hi].
    destruct (lookup_lt_is_Some_2 events j ltac:(lia)) as [ej Hj].
    rewrite Hi, Hj.
    destruct (String.ltb (startOf ej) (startOf ei)) eqn:Hswap.
    + set (swapped := <[i := ej]> (<[j := ei]> events)).
      assert (Hlook : forall q, swapped !! q
                = if (q =? i)%nat then Some ej
                  else if (q =? j)%nat then Some ei else events !! q)
        by (intros q; apply swap_lookup; [assumption|assumption|lia]).
      assert (Hperm : swapped ≡ₚ events).
      { unfold swapped. apply Permutation_insert_swap; assumption. }
      destruct (IH (S j) swapped) as (Hlen' & Hperm' & Hsettled' & Hleads').
      * lia.
      * lia.
      * unfold swapped. now rewrite !length_insert.
      * intros p q a b Hp Hpq Ha Hb. rewrite Hlook in Ha, Hb.
        destruct (Nat.eqb_spec p i); [lia|]. destruct (Nat.eqb_spec p j); [lia|].
        destruct (Nat.eqb_spec q i) as [->|].
        { injection Hb as <-. exact (Hsettled p j a ej Hp ltac:(lia) Ha Hj). }
        destruct (Nat.eqb_spec q j) as [->|].
        { injection Hb as <-. exact (Hsettled p i a ei Hp ltac:(lia) Ha Hi). }
        exact (Hsettled p q a b Hp Hpq Ha Hb).
      * intros q a b Hq Ha Hb. rewrite Hlook in Ha, Hb.
        rewrite Nat.eqb_refl in Ha. injection Ha as <-.
        destruct (Nat.eqb_spec q i); [lia|].
        destruct (Nat.eqb_spec q j) as [->|].
        { injection Hb as <-. now apply notAfter_swapped. }
        apply (notAfter_trans _ ei); [now apply notAfter_swapped|].
        exact (Hleads q ei b ltac:(lia) Hi Hb).
      * split; [exact Hlen'|]. split; [now rewrite Hperm'|]. split; assumption.
    + apply IH; try assumption; try lia.
      intros q a b Hq Ha Hb. destruct (Nat.eq_dec q j) as [->|].
      * rewrite Hi in Ha. rewrite Hj in Hb. injection Ha as <-. injection Hb as <-.
        exact Hswap.
      * exact (Hleads q a b ltac:(lia) Ha Hb).
Qed.

Lemma sortOuter_inv (n : nat) :
  forall k i events,
    (i + k = n)%nat -> length events = n -> settled i events ->
    sortOuter k i events ≡ₚ events /\ settled n (sortOuter k i events).
Proof.
  induction k as [|k IH]; intros i events Hik Hlen Hsettled.
  - cbn [sortOuter]. rewrite Nat.add_0_r in Hik. subst n. split; auto.
  - cbn [sortOuter]. rewrite Hlen.
    destruct (sortInner_inv n i (n - S i) (S i) events)
      as (Hlen' & Hperm' & Hsettled' & Hleads'); try assumption; try lia.
    { intros q a b Hq. lia. }
    destruct (IH (S i) (sortInner (n - S i) i (S i) events)) as [Hperm Hdone].
    + lia.
    + exact Hlen'.
    + intros p q a b Hp Hpq Ha Hb.
      destruct (Nat.eq_dec p i) as [->|].
      * apply (Hleads' q a b); [|exact Ha|exact Hb].
        pose proof (lookup_lt_Some _ _ _ Hb). lia.
      * exact (Hsettled' p q a b ltac:(lia) Hpq Ha Hb).
    + split; [now rewrite Hperm|exact Hdone].
Qed.

Lemma sortMultiCalendarEvents_perm (events : list MultiCalendarEvent) :
  sortMultiCalendarEvents events ≡ₚ events.
Proof.
  unfold sortMultiCalendarEvents.
  apply (sortOuter_inv (length events) (length events) 0 events); try reflexivity.
  intros p q a b Hp. lia.
Qed.

Lemma sortMultiCalendarEvents_settled (events : list MultiCalendarEvent) :
  forall p q a b,
    (p < q)%nat ->
    sortMultiCalendarEvents events !! p = Some a ->
    sortMultiCalendarEvents events !! q = Some b ->
    notAfter a b.
Proof.
  intros p q a b Hpq Ha Hb.
  assert (Hsettled : settled (length events) (sortMultiCalendarEvents events)).
  { unfold sortMultiCalendarEvents.
    apply (sortOuter_inv (length events) (length events) 0 events); try reflexivity.
    intros p' q' a' b' Hp. lia. }
  apply (Hsettled p q a b); try assumption.
  pose proof (lookup_lt_Some _ _ _ Hb) as Hq.
  rewrite sortMultiCalendarEvents_perm in Hq. lia.
Qed.

End SortFacts.

(** X15.  sortMultiCalendarEvents rearranges the events, losing and adding
    none, so that no event starts after one that follows it; the start is
    the date of an all-day event, else the date-time, compared as text. *)
Theorem sortMultiCalendarEvents_sorts_by_start :
  forall events : list Multi.MultiCalendarEvent,
    Multi.sortMultiCalendarEvents events ≡ₚ events
    /\ forall (p q : nat) (a b : Multi.MultiCalendarEvent),
         (p < q)%nat ->
         Multi.sortMultiCalendarEvents events !! p = Some a ->
         Multi.sortMultiCalendarEvents events !! q = Some b ->
         String.ltb (Multi.startOf b) (Multi.startOf a) = false.
Proof.
  intros events. split.
  - apply sortMultiCalendarEvents_perm.
  - apply sortMultiCalendarEvents_settled.
Qed.

(** ** The aggregated listing when every calendar answers *)

Section ListingFacts.

Import GoTime Types Multi.

Variable service : GCal.Service.
Variables timeMin timeMax : Time.
Variable maxResults : Z.

Local Abbreviation listedItems := (Measures.listedItems service timeMin timeMax maxResults).
Local Abbreviation entriesOf := (Measures.entriesOf service timeMin timeMax maxResults).
Local Abbreviation answers := (Measures.answers service timeMin timeMax maxResults).

Lemma listOne_all_answer (ids : list string) :
  (forall id, List.In id ids -> answers id) ->
  forall st,
    fold_left (listOne service timeMin timeMax maxResults) ids st
    = ({| Events := (Events (fst st) ++ concat (map entriesOf ids))%list;
          TotalCount := TotalCount (fst st);
          ByCalendar :=
            fold_left (fun m id => <[id := Z.of_nat (length (listedItems id))]> m)
                      ids (ByCalendar (fst st)) |},
       snd st).
Proof.
  induction ids as [|id ids IH]; intros Hall [result errorsChan].
  - cbn. rewrite app_nil_r. now destruct result.
  - cbn [fold_left]. destruct (Hall id (or_introl eq_refl)) as [items Hitems].
    assert (Hlisted : listedItems id = items) by (unfold Measures.listedItems; now rewrite Hitems).
    unfold listOne at 2. rewrite Hitems.
    rewrite IH by (intros id' Hin; apply Hall; now right).
    cbn [fst snd Events TotalCount ByCalendar map concat].
    unfold Measures.entriesOf at 2. rewrite Hlisted, <- app_assoc. reflexivity.
Qed.

Lemma counts_lookup (ids : list string) (id : string) :
  forall m : gmap string Z,
    fold_left (fun m id => <[id := Z.of_nat (length (listedItems id))]> m) ids m !! id
    = if bool_decide (id ∈ ids) then Some (Z.of_nat (length (listedItems id)))
      else m !! id.
Proof.
  induction ids as [|a ids IH]; intros m; cbn [fold_left].
  - reflexivity.
  - rewrite IH. destruct (bool_decide (id ∈ ids)) eqn:E.
    + apply bool_decide_eq_true in E.
      rewrite bool_decide_eq_true_2 by (now right). reflexivity.
    + apply bool_decide_eq_false in E.
      destruct (decide (a = id)) as [->|Hne].
      * rewrite bool_decide_eq_true_2 by (now left). apply lookup_insert_eq.
      * rewrite bool_decide_eq_false_2
          by (intros H; apply elem_of_cons in H; destruct H; congruence).
        now apply lookup_insert_ne.
Qed.

End ListingFacts.

(** The goroutines finish in an order that is a rearrangement of the
    calendars. *)
Lemma lookups_all {A : Type} (l pre : list A) :
  omap (fun i => (pre ++ l) !! i) (seq (length pre) (length l)) = l.
Proof.
  revert pre. induction l as [|x l IH]; intros pre; [reflexivity|].
  cbn [length seq omap list_omap]. rewrite list_lookup_middle by reflexivity.
  f_equal. specialize (IH (pre ++ [x])).
  rewrite <- app_assoc, length_app in IH. cbn [app length] in IH.
  now rewrite Nat.add_1_r in IH.
Qed.

Lemma completionOrder_rearranges (calendarIDs : list string) (order : list nat) :
  Multi.completionOrder (length calendarIDs) order = true ->
  omap (fun i => calendarIDs !! i) order ≡ₚ calendarIDs.
Proof.
  intros H.
  assert (Hperm : seq 0 (length calendarIDs) ≡ₚ order).
  { apply submseteq_length_Permutation.
    - apply NoDup_submseteq; [apply NoDup_ListNoDup, seq_NoDup|].
      intros i Hi. apply list_elem_of_In. apply list_elem_of_In, in_seq in Hi.
      apply (completionOrder_covers _ _ H). lia.
    - unfold Multi.completionOrder in H. apply andb_true_iff in H.
      destruct H as [H _]. apply Nat.eqb_eq in H. rewrite length_seq. lia. }
  rewrite <- Hperm. exact (eq_ind _ (fun l => l ≡ₚ calendarIDs) (reflexivity _) _
                             (eq_sym (lookups_all calendarIDs []))).
Qed.

(** X16.  When the remote lists the events of every calendar asked for,
    ListEventsMultiCalendar returns a result in every order in which its
    goroutines may finish: the events of all the calendars, each with its
    calendar, none lost or added, arranged so that none starts after one
    that follows it; their number as TotalCount; and for each calendar
    asked for the number of events listed for it, for no other calendar a
    count. *)
Theorem ListEventsMultiCalendar_merges_every_calendar :
  forall (c : Client.Client) (service : GCal.Service) (calendarIDs : list string)
         (timeMin timeMax : GoTime.Time) (maxResults : Z) (order : list nat),
    Client.Service c = Some service ->
    calendarIDs <> [] ->
    Multi.completionOrder (length calendarIDs) order = true ->
    (forall id, List.In id calendarIDs -> Measures.answers service timeMin timeMax maxResults id) ->
    exists result,
      Multi.ListEventsMultiCalendar c calendarIDs timeMin timeMax maxResults order
        = Returns (Some result, None)
      /\ Multi.Events result
           ≡ₚ concat (map (Measures.entriesOf service timeMin timeMax maxResults) calendarIDs)
      /\ (forall (p q : nat) (a b : Multi.MultiCalendarEvent),
             (p < q)%nat ->
             Multi.Events result !! p = Some a ->
             Multi.Events result !! q = Some b ->
             String.ltb (Multi.startOf b) (Multi.startOf a) = false)
      /\ Multi.TotalCount result = Z.of_nat (length (Multi.Events result))
      /\ (forall id,
             Multi.ByCalendar result !! id
             = if bool_decide (id ∈ calendarIDs)
               then Some (Z.of_nat (length (Measures.listedItems service timeMin timeMax
                                              maxResults id)))
               else None).
Proof.
  intros c service calendarIDs timeMin timeMax maxResults order
         Hservice Hids Horder Hall.
  pose proof (completionOrder_rearranges calendarIDs order Horder) as Hperm.
  unfold Multi.ListEventsMultiCalendar. rewrite Hservice.
  destruct calendarIDs as [|id0 ids0] eqn:Eids; [contradiction|].
  rewrite <- Eids in *. replace (length calendarIDs =? 0)%nat with false
    by (rewrite Eids; reflexivity).
  rewrite Horder. cbn [negb].
  rewrite listOne_all_answer.
  2:{ intros id Hin. apply Hall. apply list_elem_of_In.
      rewrite <- Hperm. now apply list_elem_of_In. }
  cbn [fst snd Multi.Events Multi.TotalCount Multi.ByCalendar app].
  eexists. split; [reflexivity|].
  cbn [Multi.Events Multi.TotalCount Multi.ByCalendar].
  split; [|split; [|split]].
  - rewrite sortMultiCalendarEvents_perm. now rewrite Hperm.
  - apply sortMultiCalendarEvents_settled.
  - now rewrite sortMultiCalendarEvents_perm.
  - intros id. rewrite counts_lookup, lookup_empty.
    destruct (bool_decide (id ∈ calendarIDs)) eqn:E.
    + apply bool_decide_eq_true in E. rewrite <- Hperm in E.
      now rewrite bool_decide_eq_true_2.
    + apply bool_decide_eq_false in E. rewrite <- Hperm in E.
      now rewrite bool_decide_eq_false_2.
Qed.

(** Two calendars, the second answering first. *)
Lemma ListEventsMultiCalendar_merges_witness :
  exists result,
    Multi.ListEventsMultiCalendar
      (Client.NewClient (Some MoreExamples.twoListings) "work") ["work"; "home"]%string
      (Examples.at_ 0 0) (Examples.at_ 23 0) 0 [1; 0]%nat
    = Returns (Some result, None)
    /\ map (fun e => Events.ID (Multi.Event e)) (Multi.Events result)
       = ["h2"; "h1"; "e1"]%string
    /\ Multi.TotalCount result = 3
    /\ Multi.ByCalendar result !! "home"%string = Some 2.
Proof.
  destruct (ListEventsMultiCalendar_merges_every_calendar
              (Client.NewClient (Some MoreExamples.twoListings) "work")
              MoreExamples.twoListings ["work"; "home"]%string
              (Examples.at_ 0 0) (Examples.at_ 23 0) 0 [1; 0]%nat)
    as (result & Hrun & _ & _ & Htotal & Hcounts).
  - reflexivity.
  - intros H. discriminate H.
  - reflexivity.
  - intros id [<-|[<-|[]]]; eexists; vm_compute; reflexivity.
  - exists result. split; [exact Hrun|].
    vm_compute in Hrun. injection Hrun as <-.
    split; [reflexivity|]. split; [reflexivity|]. vm_compute. reflexivity.
Defined.

(** ** The bulk operations in every schedule *)

Section SummaryFacts.

Import Types Batch.

Lemma summarise_counts (results : list (option BatchResult)) :
  Forall (fun result => result <> None) results ->
  forall (summary : gmap string Z) (s f : Z),
    summary !! "success"%string = Some s ->
    summary !! "failed"%string = Some f ->
    exists out,
      summarise results summary = Returns out
      /\ out !! "success"%string
         = Some (s + Z.of_nat (length (List.filter Measures.succeeded results)))
      /\ out !! "failed"%string
         = Some (f + Z.of_nat (length (List.filter failed results)))
      /\ forall key, key <> "success"%string -> key <> "failed"%string ->
                     out !! key = summary !! key.
Proof.
  induction 1 as [|result results Hresult _ IH]; intros summary s f Hs Hf.
  - exists summary. cbn. rewrite !Z.add_0_r. auto.
  - destruct result as [result|]; [|contradiction]. cbn [summarise].
    cbn [List.filter Measures.succeeded failed].
    destruct (Success result); cbn [negb].
    + destruct (IH (bump "success" summary) (s + 1) f) as (out & Hout & Hs' & Hf' & Hrest).
      * unfold bump. rewrite Hs. cbn [default]. apply lookup_insert_eq.
      * unfold bump. rewrite lookup_insert_ne by discriminate. exact Hf.
      * exists out. split; [exact Hout|]. split; [|split].
        -- rewrite Hs'. f_equal. cbn [length]. lia.
        -- exact Hf'.
        -- intros key Hk1 Hk2. rewrite (Hrest key Hk1 Hk2).
           unfold bump. apply lookup_insert_ne. congruence.
    + destruct (IH (bump "failed" summary) s (f + 1)) as (out & Hout & Hs' & Hf' & Hrest).
      * unfold bump. rewrite lookup_insert_ne by discriminate. exact Hs.
      * unfold bump. rewrite Hf. cbn [default]. apply lookup_insert_eq.
      * exists out. split; [exact Hout|]. split; [|split].
        -- exact Hs'.
        -- rewrite Hf'. f_equal. cbn [length]. lia.
        -- intros key Hk1 Hk2. rewrite (Hrest key Hk1 Hk2).
           unfold bump. apply lookup_insert_ne. congruence.
Qed.

Lemma filled_counts (results : list (option BatchResult)) :
  Forall (fun result => result <> None) results ->
  (length (List.filter Measures.succeeded results)
   + length (List.filter failed results) = length results)%nat.
Proof.
  induction 1 as [|result results Hresult _ IH]; [reflexivity|].
  destruct result as [result|]; [|contradiction].
  cbn [List.filter Measures.succeeded failed].
  destruct (Success result); cbn [negb length]; lia.
Qed.

Lemma afterJoin_returns (continueOnError : bool) (failure : string)
    (results out : list (option BatchResult)) (err : option AppError) :
  Forall (fun result => result <> None) results ->
  afterJoin continueOnError failure results = Returns (out, err) ->
  out = results.
Proof.
  intros Hfilled. rewrite afterJoin_filled by exact Hfilled. now intros [= <- _].
Qed.

(** What a bulk operation returns has every slot filled. *)
Lemma BatchCreateEvents_filled params sched results err :
  BatchCreateEvents params sched = Returns (results, err) ->
  Forall (fun result => result <> None) results.
Proof.
  unfold BatchCreateEvents.
  destruct (length (Items params) =? 0)%nat; [intros [= <- _]; constructor|].
  destruct (joined _ _ _ _ _) as [joinedResults|] eqn:Hj; [|discriminate].
  destruct (joined_by_index _ createResult _ _ _ Hj) as [Hlen Hslots].
  assert (Hfilled : Forall (fun result => result <> None) joinedResults).
  { eapply filled_by_index; [exact Hlen|].
    intros i Hi. destruct (Hslots i Hi) as (r & _ & Hr). eauto. }
  intros Hret. now rewrite (afterJoin_returns _ _ _ _ _ Hfilled Hret).
Qed.

Lemma BatchDeleteEvents_filled params sched results err :
  BatchDeleteEvents params sched = Returns (results, err) ->
  Forall (fun result => result <> None) results.
Proof.
  unfold BatchDeleteEvents.
  destruct (length (Items params) =? 0)%nat; [intros [= <- _]; constructor|].
  destruct (joined _ _ _ _ _) as [joinedResults|] eqn:Hj; [|discriminate].
  destruct (joined_by_index _ (deleteResult (Items params)) _ _ _ Hj) as [Hlen Hslots].
  assert (Hfilled : Forall (fun result => result <> None) joinedResults).
  { eapply filled_by_index; [exact Hlen|].
    intros i Hi. destruct (Hslots i Hi) as (r & _ & Hr). eauto. }
  intros Hret. now rewrite (afterJoin_returns _ _ _ _ _ Hfilled Hret).
Qed.

Lemma BatchUpdateEvents_filled params sched results err :
  BatchUpdateEvents params sched = Returns (results, err) ->
  Forall (fun result => result <> None) results.
Proof.
  unfold BatchUpdateEvents.
  destruct (length (map_to_list (Items params)) =? 0)%nat;
    [intros [= <- _]; constructor|].
  destruct (joined _ _ _ _ _) as [joinedResults|] eqn:Hj; [|discriminate].
  destruct (joined_by_append _ _ _ _ Hj) as (_ & Hfilled & _).
  intros Hret. now rewrite (afterJoin_returns _ _ _ _ _ Hfilled Hret).
Qed.

End SummaryFacts.

(** X17.  Whatever a bulk operation returns, in any schedule and with or
    without an error of its own, GetBatchSummary accepts: it returns a map
    with the three keys total, success and failed and no other, total being
    the number of results, success and failed the numbers of results with
    Success set and unset, which add up to total. *)
Theorem GetBatchSummary_accounts_for_every_result :
  forall results : list (option Batch.BatchResult),
    (exists params sched err,
        Batch.BatchCreateEvents params sched = Returns (results, err))
    \/ (exists params sched err,
           Batch.BatchUpdateEvents params sched = Returns (results, err))
    \/ (exists params sched err,
           Batch.BatchDeleteEvents params sched = Returns (results, err)) ->
    exists (summary : gmap string Z) (success failed : nat),
      Batch.GetBatchSummary results = Returns summary
      /\ summary !! "total"%string = Some (Z.of_nat (length results))
      /\ summary !! "success"%string = Some (Z.of_nat success)
      /\ summary !! "failed"%string = Some (Z.of_nat failed)
      /\ success = length (List.filter Measures.succeeded results)
      /\ failed = length (List.filter Batch.failed results)
      /\ (success + failed = length results)%nat
      /\ forall key, key <> "total"%string -> key <> "success"%string ->
                     key <> "failed"%string -> summary !! key = None.
Proof.
  intros results Hfrom.
  assert (Hfilled : Forall (fun result => result <> None) results).
  { destruct Hfrom as [(params & sched & err & H)|[(params & sched & err & H)
                                                   |(params & sched & err & H)]].
    - exact (BatchCreateEvents_filled _ _ _ _ H).
    - exact (BatchUpdateEvents_filled _ _ _ _ H).
    - exact (BatchDeleteEvents_filled _ _ _ _ H). }
  unfold Batch.GetBatchSummary.
  destruct (summarise_counts results Hfilled
              (<["total"%string := Z.of_nat (length results)]>
                 (<["success"%string := 0]> (<["failed"%string := 0]> ∅))) 0 0)
    as (out & Hout & Hs & Hf & Hrest).
  - rewrite lookup_insert_ne by discriminate. apply lookup_insert_eq.
  - rewrite lookup_insert_ne by discriminate. rewrite lookup_insert_ne by discriminate.
    apply lookup_insert_eq.
  - exists out, (length (List.filter Measures.succeeded results)),
      (length (List.filter Batch.failed results)).
    split; [exact Hout|]. split.
    { rewrite Hrest by discriminate. apply lookup_insert_eq. }
    split; [exact Hs|]. split; [exact Hf|]. split; [reflexivity|]. split; [reflexivity|].
    split; [now apply filled_counts|].
    intros key H1 H2 H3. rewrite Hrest by assumption.
    rewrite !lookup_insert_ne by congruence. apply lookup_empty.
Qed.

(** The five events of which one is refused, in the shuffled schedule. *)
Lemma GetBatchSummary_accounts_witness :
  exists results (summary : gmap string Z),
    Batch.BatchCreateEvents Examples.fiveEvents Examples.shuffled = Returns (results, None)
    /\ Batch.GetBatchSummary results = Returns summary
    /\ summary !! "total"%string = Some 5
    /\ summary !! "success"%string = Some 4
    /\ summary !! "failed"%string = Some 1.
Proof.
  destruct (Batch.BatchCreateEvents Examples.fiveEvents Examples.shuffled)
    as [| |[results err]] eqn:Hrun; try (vm_compute in Hrun; discriminate Hrun).
  destruct (GetBatchSummary_accounts_for_every_result results)
    as (summary & success & failed & Hsum & Htotal & Hs & Hf & -> & -> & _).
  { left. exists Examples.fiveEvents, Examples.shuffled, err. exact Hrun. }
  vm_compute in Hrun. injection Hrun as <- <-.
  eexists. exists summary. split; [vm_compute; reflexivity|]. split; [exact Hsum|].
  split; [exact Htotal|]. split; [exact Hs|exact Hf].
Defined.

Section ScheduleFacts.

Import Batch.

Lemma count_insert (p : GStatus -> bool) (status : list GStatus) :
  forall i x y,
    status !! i = Some x ->
    (length (List.filter p (<[i := y]> status)) + (if p x then 1 else 0)
     = length (List.filter p status) + (if p y then 1 else 0))%nat.
Proof.
  induction status as [|a l IH]; intros i x y Hi; [destruct i; discriminate Hi|].
  destruct i as [|i].
  - injection Hi as ->. change (<[0%nat := y]> (x :: l)) with (y :: l).
    cbn [List.filter]. destruct (p x), (p y); cbn [length]; lia.
  - change (<[S i := y]> (a :: l)) with (a :: <[i := y]> l). cbn [List.filter].
    specialize (IH i x y Hi). destruct (p a); cbn [length]; lia.
Qed.

Lemma count_pos (p : GStatus -> bool) (status : list GStatus) :
  (0 < length (List.filter p status))%nat ->
  exists i x, status !! i = Some x /\ p x = true.
Proof.
  induction status as [|a l IH]; cbn [List.filter]; [cbn; lia|].
  destruct (p a) eqn:E.
  - intros _. exists O, a. auto.
  - intros H. destruct (IH H) as (i & x & Hi & Hx). exists (S i), x. auto.
Qed.

Lemma count_le (p : GStatus -> bool) (status : list GStatus) :
  (length (List.filter p status) <= length status)%nat.
Proof.
  induction status as [|a l IH]; [reflexivity|].
  cbn [List.filter]. destruct (p a); cbn [length]; lia.
Qed.

Lemma none_left (status : list GStatus) :
  Measures.waiting status = O -> running status = O ->
  forallb isFinished status = true.
Proof.
  unfold Measures.waiting, running.
  induction status as [|a l IH]; [reflexivity|].
  cbn [List.filter forallb]. destruct a; cbn; try discriminate. exact IH.
Qed.

Context {R A : Type}.
Variable capacity : Z.
Variable store : nat -> R -> A -> A.

Lemma runPool_app (first rest : list (Step R)) :
  forall st,
    runPool capacity store (first ++ rest) st
    = match runPool capacity store first st with
      | Some st' => runPool capacity store rest st'
      | None => None
      end.
Proof.
  induction first as [|e first IH]; intros st; [reflexivity|].
  cbn [app runPool]. destruct (poolStep capacity store st e); [apply IH|reflexivity].
Qed.

(** From any state the goroutines can be brought to the join: those that
    hold a permit finish, and then a waiting one gets a permit. *)
Lemma pool_can_finish (out : nat -> R) :
  1 <= capacity ->
  forall (m : nat) (status : list GStatus) (a : A),
    (2 * Measures.waiting status + running status = m)%nat ->
    exists rest status' a',
      runPool capacity store rest (status, a) = Some (status', a')
      /\ forallb isFinished status' = true.
Proof.
  intros Hcap. induction m as [|m IH]; intros status a Hm.
  - exists [], status, a. split; [reflexivity|]. apply none_left; lia.
  - destruct (Nat.eq_dec (running status) O) as [Hnone|Hsome].
    + destruct (count_pos Measures.isWaiting status) as (i & x & Hi & Hx).
      { fold (Measures.waiting status). lia. }
      destruct x; try discriminate Hx.
      pose proof (count_insert Measures.isWaiting status i Waiting Running Hi) as Hw.
      pose proof (count_insert isRunning status i Waiting Running Hi) as Hr.
      cbn [Measures.isWaiting isRunning] in Hw, Hr.
      fold (Measures.waiting status) (Measures.waiting (<[i := Running]> status)) in Hw.
      fold (running status) (running (<[i := Running]> status)) in Hr.
      destruct (IH (<[i := Running]> status) a) as (rest & status' & a' & Hrun & Hall);
        [lia|].
      exists (Acquire i :: rest), status', a'. split; [|exact Hall].
      cbn [runPool poolStep fst snd]. rewrite Hi, Hnone.
      replace (Z.of_nat 0 <? capacity) with true by (symmetry; apply Z.ltb_lt; lia).
      exact Hrun.
    + destruct (count_pos isRunning status) as (i & x & Hi & Hx).
      { fold (running status). lia. }
      destruct x; try discriminate Hx.
      pose proof (count_insert Measures.isWaiting status i Running Finished Hi) as Hw.
      pose proof (count_insert isRunning status i Running Finished Hi) as Hr.
      cbn [Measures.isWaiting isRunning] in Hw, Hr.
      fold (Measures.waiting status) (Measures.waiting (<[i := Finished]> status)) in Hw.
      fold (running status) (running (<[i := Finished]> status)) in Hr.
      destruct (IH (<[i := Finished]> status) (store i (out i) a))
        as (rest & status' & a' & Hrun & Hall); [lia|].
      exists (Complete i (out i) :: rest), status', a'. split; [|exact Hall].
      cbn [runPool poolStep fst snd]. rewrite Hi. exact Hrun.
Qed.

Lemma peak_le_length (sched : list (Step R)) :
  forall st p, peakPermits capacity store sched st = Some p ->
               (p <= length (fst st))%nat.
Proof.
  induction sched as [|e rest IH]; intros st p; cbn [peakPermits].
  - intros [= <-]. apply count_le.
  - destruct (poolStep capacity store st e) as [st1|] eqn:E; [|discriminate].
    destruct (peakPermits capacity store rest st1) as [q|] eqn:Q; [|discriminate].
    intros [= <-]. specialize (IH st1 q Q).
    assert (length (fst st1) = length (fst st)).
    { destruct (poolStep_inv _ _ _ _ _ E) as [(i & _ & _ & _ & ->)|(i & r & _ & _ & ->)];
        cbn [fst]; apply length_insert. }
    pose proof (count_le isRunning (fst st)). unfold running at 1. lia.
Qed.

End ScheduleFacts.

(** X18.  In every schedule of a bulk operation the number of goroutines
    that hold a permit at the same moment never exceeds the capacity of
    the semaphore, which is MaxConcurrent or 5 when that is zero or
    negative, nor the number of items. *)
Theorem semaphore_bounds_the_running_goroutines :
  forall {R A : Type} (maxConcurrent : Z) (store : nat -> R -> A -> A)
         (n : nat) (init : A) (sched : list (Batch.Step R)) (peak : nat),
    Batch.peakPermits (Batch.semaphoreCapacity maxConcurrent) store sched
      (replicate n Batch.Waiting, init) = Some peak ->
    Z.of_nat peak <= Batch.semaphoreCapacity maxConcurrent
    /\ (peak <= n)%nat
    /\ (maxConcurrent <= 0 -> (peak <= 5)%nat).
Proof.
  intros R A maxConcurrent store n init sched peak Hpeak.
  assert (Hcap : 1 <= Batch.semaphoreCapacity maxConcurrent).
  { unfold Batch.semaphoreCapacity. destruct (Z.leb_spec maxConcurrent 0); lia. }
  assert (Hbound : (peak <= Z.to_nat (Batch.semaphoreCapacity maxConcurrent))%nat).
  { apply (permits_bounded (Batch.semaphoreCapacity maxConcurrent) store
             (Z.to_nat (Batch.semaphoreCapacity maxConcurrent)) ltac:(lia)
             sched (replicate n Batch.Waiting, init) peak); [|exact Hpeak].
    cbn [fst]. rewrite running_none; [lia|]. apply Forall_replicate. reflexivity. }
  split; [lia|]. split.
  - pose proof (peak_le_length _ store sched _ _ Hpeak) as H. cbn [fst] in H.
    now rewrite length_replicate in H.
  - intros Hdefault. unfold Batch.semaphoreCapacity in Hbound.
    destruct (Z.leb_spec maxConcurrent 0); [|lia]. exact Hbound.
Qed.

(** Eleven goroutines with the default capacity: at most five at a time. *)
Lemma semaphore_bounds_witness :
  exists peak,
    Batch.peakPermits (Batch.semaphoreCapacity 0)
      (fun index r results => <[index := Some (Batch.createResult index r)]> results)
      (Batch.oneByOne (fun _ => inl (Examples.created "ev")) 0 11)
      (replicate 11 Batch.Waiting, replicate 11 None) = Some peak
    /\ Z.of_nat peak <= Batch.semaphoreCapacity 0
    /\ (peak <= 11)%nat
    /\ (0 <= 0 -> (peak <= 5)%nat).
Proof.
  exists 1%nat. split; [vm_compute; reflexivity|].
  apply (semaphore_bounds_the_running_goroutines 0
           (fun index r results => <[index := Some (Batch.createResult index r)]> results)
           11 (replicate 11 None)
           (Batch.oneByOne (fun _ => inl (Examples.created "ev")) 0 11) 1).
  vm_compute. reflexivity.
Defined.

(** X19.  A bulk operation cannot deadlock: however far its goroutines
    have got, they can all go on to finish, so that the wait for them
    returns.  The capacity of the semaphore is at least one whatever
    MaxConcurrent is, and a goroutine that holds a permit needs nothing
    else to finish. *)
Theorem bulk_operations_cannot_deadlock :
  forall {R A : Type} (maxConcurrent : Z) (store : nat -> R -> A -> A)
         (n : nat) (init : A) (out : nat -> R) (sched : list (Batch.Step R))
         (st : list Batch.GStatus * A),
    Batch.runPool (Batch.semaphoreCapacity maxConcurrent) store sched
      (replicate n Batch.Waiting, init) = Some st ->
    exists rest a,
      Batch.joined (Batch.semaphoreCapacity maxConcurrent) store n init (sched ++ rest)
      = Some a.
Proof.
  intros R A maxConcurrent store n init out sched [status a] Hrun.
  assert (Hcap : 1 <= Batch.semaphoreCapacity maxConcurrent).
  { unfold Batch.semaphoreCapacity. destruct (Z.leb_spec maxConcurrent 0); lia. }
  destruct (pool_can_finish (Batch.semaphoreCapacity maxConcurrent) store out Hcap
              _ status a eq_refl) as (rest & status' & a' & Hrest & Hall).
  exists rest, a'. unfold Batch.joined. rewrite runPool_app, Hrun, Hrest, Hall.
  reflexivity.
Qed.

(** Two of five goroutines have their permit and none has finished. *)
Lemma bulk_operations_cannot_deadlock_witness :
  exists rest results,
    Batch.joined (Batch.semaphoreCapacity (Batch.MaxConcurrent Examples.fiveEvents))
      (fun index r results => <[index := Some (Batch.createResult index r)]> results)
      5 (replicate 5 None) ([Batch.Acquire 4; Batch.Acquire 1]%nat ++ rest)
    = Some results.
Proof.
  eapply (bulk_operations_cannot_deadlock
            (Batch.MaxConcurrent Examples.fiveEvents)
            (fun index r results => <[index := Some (Batch.createResult index r)]> results)
            5 (replicate 5 None) Examples.fiveAnswers
            [Batch.Acquire 4; Batch.Acquire 1]%nat).
  vm_compute. reflexivity.
Defined.

(** ** Dates in a location whose offset never changes *)

Section CalendarFacts.

Import GoInt GoTime.

Lemma daysBefore_mp (mp : Z) :
  0 <= mp <= 11 ->
  daysBefore (if mp <? 10 then mp + 3 else mp - 9)
  = (if mp <? 10 then (153 * mp + 2) / 5 + 59 else (153 * mp + 2) / 5 - 306).
Proof.
  intros H.
  assert (mp = 0 \/ mp = 1 \/ mp = 2 \/ mp = 3 \/ mp = 4 \/ mp = 5 \/ mp = 6 \/ mp = 7
          \/ mp = 8 \/ mp = 9 \/ mp = 10 \/ mp = 11) as Hc by lia.
  repeat (destruct Hc as [->|Hc]; [reflexivity|]). subst. reflexivity.
Qed.

(** The day count of the date that civilFromDays gives is the day count
    it was given. *)
Lemma dateToDays_civilFromDays (z : Z) :
  dateToDays (fst (fst (civilFromDays z))) (snd (fst (civilFromDays z)))
             (snd (civilFromDays z)) = z
  /\ 1 <= snd (fst (civilFromDays z)) <= 12.
Proof.
  unfold civilFromDays. cbv zeta. cbn [fst snd].
  set (z1 := z + 719468).
  set (era := z1 / 146097).
  set (doe := z1 - era * 146097).
  set (yoe := (doe - doe / 1460 + doe / 36524 - doe / 146096) / 365).
  set (doy := doe - (365 * yoe + yoe / 4 - yoe / 100)).
  set (mp := (5 * doy + 2) / 153).
  assert (Hdoe : 0 <= doe < 146097).
  { subst doe era. Z.to_euclidean_division_equations; lia. }
  assert (Hz : z = doe + era * 146097 - 719468) by (subst doe z1; lia).
  assert (Hyoe : 0 <= yoe <= 399 /\ 0 <= doy <= 365
                 /\ (doy = 365 -> yoe mod 4 = 3 /\ (yoe mod 100 <> 99 \/ yoe = 399))).
  { subst doy yoe. clearbody doe. clear -Hdoe.
    Z.to_euclidean_division_equations; lia. }
  destruct Hyoe as (Hyoe & Hdoy & Hlast).
  assert (Hmp : 0 <= mp <= 11).
  { subst mp. clearbody doy. clear -Hdoy. Z.to_euclidean_division_equations; lia. }
  split.
  2:{ destruct (mp <? 10) eqn:E; [apply Z.ltb_lt in E|apply Z.ltb_ge in E]; lia. }
  unfold dateToDays. rewrite (daysBefore_mp mp Hmp).
  set (m := if mp <? 10 then mp + 3 else mp - 9).
  set (y := yoe + era * 400 + (if m <=? 2 then 1 else 0)).
  assert (Hleap : (if isLeap y && (3 <=? m) then 1 else 0)
                  = (if (mp <? 10) && (yoe mod 4 =? 0)
                        && (negb (yoe mod 100 =? 0) || (yoe =? 0)) then 1 else 0)).
  { subst y m. destruct (mp <? 10) eqn:E.
    - apply Z.ltb_lt in E.
      replace (mp + 3 <=? 2) with false by (symmetry; apply Z.leb_gt; lia).
      replace (3 <=? mp + 3) with true by (symmetry; apply Z.leb_le; lia).
      rewrite andb_true_r, Z.add_0_r. cbn [andb].
      unfold isLeap.
      replace ((yoe + era * 400) mod 4) with (yoe mod 4)
        by (clear; Z.to_euclidean_division_equations; lia).
      replace ((yoe + era * 400) mod 100) with (yoe mod 100)
        by (clear; Z.to_euclidean_division_equations; lia).
      replace ((yoe + era * 400) mod 400 =? 0) with (yoe =? 0); [reflexivity|].
      clear -Hyoe. destruct (Z.eqb_spec yoe 0), (Z.eqb_spec ((yoe + era * 400) mod 400) 0);
        try reflexivity; exfalso; Z.to_euclidean_division_equations; lia.
    - apply Z.ltb_ge in E.
      replace (3 <=? mp - 9) with false by (symmetry; apply Z.leb_gt; lia).
      now rewrite andb_false_r. }
  rewrite Hleap. unfold daysSinceEpoch, leapsBefore.
  change ((1970 - 1) / 4 - (1970 - 1) / 100 + (1970 - 1) / 400) with 477.
  subst y m.
  destruct (mp <? 10) eqn:E; [apply Z.ltb_lt in E|apply Z.ltb_ge in E].
  - replace (mp + 3 <=? 2) with false by (symmetry; apply Z.leb_gt; lia).
    cbn [andb].
    destruct (yoe mod 4 =? 0) eqn:E4; [apply Z.eqb_eq in E4|apply Z.eqb_neq in E4];
      cbn [andb];
      [destruct (yoe mod 100 =? 0) eqn:E100;
       [apply Z.eqb_eq in E100|apply Z.eqb_neq in E100]; cbn [negb orb];
       [destruct (yoe =? 0) eqn:E0; [apply Z.eqb_eq in E0|apply Z.eqb_neq in E0]|]|];
      clear Hleap; subst mp doy; clearbody yoe doe era; clear z1;
      Z.to_euclidean_division_equations; lia.
  - replace (mp - 9 <=? 2) with true by (symmetry; apply Z.leb_le; lia).
    cbn [andb]. clear Hleap. subst mp doy. clearbody yoe doe era. clear z1.
    Z.to_euclidean_division_equations; lia.
Qed.

Lemma daysIn_mp (mp y : Z) :
  0 <= mp <= 11 ->
  daysIn (if mp <? 10 then mp + 3 else mp - 9) y
  = (if mp =? 11 then (if isLeap y then 29 else 28)
     else (153 * (mp + 1) + 2) / 5 - (153 * mp + 2) / 5).
Proof.
  intros H.
  assert (mp = 0 \/ mp = 1 \/ mp = 2 \/ mp = 3 \/ mp = 4 \/ mp = 5 \/ mp = 6 \/ mp = 7
          \/ mp = 8 \/ mp = 9 \/ mp = 10 \/ mp = 11) as Hc by lia.
  unfold daysIn.
  repeat (destruct Hc as [->|Hc]; [try reflexivity|]); subst;
    cbn [Z.ltb Z.compare Z.add Z.sub Z.eqb Pos.eqb Z.pos_sub Z.opp Pos.compare Pos.compare_cont
         Z.succ_double Z.pred_double Z.double Pos.pred_double andb Pos.add Pos.succ];
    try reflexivity.
  all: destruct (isLeap y); reflexivity.
Qed.

Lemma civilFromDays_day (z : Z) :
  1 <= snd (civilFromDays z)
    <= daysIn (snd (fst (civilFromDays z))) (fst (fst (civilFromDays z))).
Proof.
  unfold civilFromDays. cbv zeta. cbn [fst snd].
  set (z1 := z + 719468).
  set (era := z1 / 146097).
  set (doe := z1 - era * 146097).
  set (yoe := (doe - doe / 1460 + doe / 36524 - doe / 146096) / 365).
  set (doy := doe - (365 * yoe + yoe / 4 - yoe / 100)).
  set (mp := (5 * doy + 2) / 153).
  assert (Hdoe : 0 <= doe < 146097).
  { subst doe era. Z.to_euclidean_division_equations; lia. }
  assert (Hyoe : 0 <= yoe <= 399 /\ 0 <= doy <= 365
                 /\ (doy = 365 -> yoe mod 4 = 3 /\ (yoe mod 100 <> 99 \/ yoe = 399))).
  { subst doy yoe. clearbody doe. clear -Hdoe.
    Z.to_euclidean_division_equations; lia. }
  destruct Hyoe as (Hyoe & Hdoy & Hlast).
  assert (Hmp : 0 <= mp <= 11).
  { subst mp. clearbody doy. clear -Hdoy. Z.to_euclidean_division_equations; lia. }
  rewrite (daysIn_mp mp _ Hmp).
  destruct (Z.eqb_spec mp 11) as [E|E].
  - replace (mp <? 10) with false by (symmetry; apply Z.ltb_ge; lia).
    replace (mp - 9 <=? 2) with true by (symmetry; apply Z.leb_le; lia).
    destruct (isLeap (yoe + era * 400 + 1)) eqn:Hleap.
    + subst mp. clearbody doy. clear -Hdoy E. Z.to_euclidean_division_equations; lia.
    + assert (doy <> 365).
      { intros H365. destruct (Hlast H365) as [H4 H100].
        unfold isLeap in Hleap.
        apply andb_false_iff in Hleap. rewrite orb_false_iff, negb_false_iff in Hleap.
        rewrite !Z.eqb_neq, !Z.eqb_eq in Hleap.
        clear -Hleap H4 H100 Hyoe. Z.to_euclidean_division_equations; lia. }
      subst mp. clearbody doy. clear -Hdoy E H. Z.to_euclidean_division_equations; lia.
  - subst mp. clearbody doy. clear -Hdoy E. Z.to_euclidean_division_equations; lia.
Qed.

Lemma dateToDays_shift (y m d k : Z) : dateToDays y m (d + k) = dateToDays y m d + k.
Proof. unfold dateToDays. lia. Qed.

Variable l : Location.
Hypothesis fixed : locTrans l = [].

Lemma offsetAt_fixed (sec : Z) : offsetAt l sec = locBase l.
Proof. unfold offsetAt, lookup. now rewrite fixed. Qed.

Lemma Date_fixed (y m d h mi s ns : Z) :
  1 <= m <= 12 -> 0 <= ns < Second ->
  Date y m d h mi s ns l
  = {| unixNano := (dateToDays y m d * 86400 + h * 3600 + mi * 60 + s - locBase l)
                   * Second + ns;
       loc := l |}.
Proof.
  intros Hm Hns. unfold Date, lookup. rewrite fixed. cbn [lookupFrom].
  replace ((m - 1) / 12) with 0 by (Z.to_euclidean_division_equations; lia).
  replace ((m - 1) mod 12 + 1) with m by (Z.to_euclidean_division_equations; lia).
  replace (ns / Second) with 0
    by (unfold Second in *; Z.to_euclidean_division_equations; lia).
  replace (ns mod Second) with ns
    by (unfold Second in *; Z.to_euclidean_division_equations; lia).
  rewrite !Z.add_0_r, orb_false_r.
  destruct (Z.eqb_spec (locBase l) 0) as [E|E]; f_equal; lia.
Qed.

End CalendarFacts.

Section DayFacts.

Import GoInt GoTime.

Variable now : Time.
Hypothesis fixed : locTrans (loc now) = [].

Lemma absSec_fixed (t : Time) :
  loc t = loc now -> absSec t = unixNano t / Second + locBase (loc now).
Proof.
  intros Hloc. unfold absSec, unixSec. rewrite Hloc. now rewrite offsetAt_fixed.
Qed.

Lemma absSec_startOfDay (k : Z) :
  absSec (Measures.startOfDay now k) = (absSec now / 86400 + k) * 86400.
Proof.
  rewrite absSec_fixed by reflexivity. unfold Measures.startOfDay. cbn [unixNano].
  rewrite Z.div_mul by (unfold Second; lia). lia.
Qed.

(** Midnight of the date with the day moved by [k]. *)
Lemma Date_startOfDay (k : Z) :
  Date (Year now) (Month now) (Day now + k) 0 0 0 0 (loc now)
  = Measures.startOfDay now k.
Proof.
  destruct (dateToDays_civilFromDays (absSec now / 86400)) as [Hdays Hmonth].
  unfold Year, Month, Day.
  rewrite Date_fixed by (try exact fixed; try exact Hmonth; unfold Second; lia).
  rewrite dateToDays_shift, Hdays. unfold Measures.startOfDay. f_equal. lia.
Qed.

(** A time of day on the day of a midnight. *)
Lemma Date_on_startOfDay (k h mi : Z) :
  Date (Year (Measures.startOfDay now k)) (Month (Measures.startOfDay now k))
       (Day (Measures.startOfDay now k)) h mi 0 0 (loc now)
  = Add (Measures.startOfDay now k) ((h * 3600 + mi * 60) * Second).
Proof.
  unfold Year, Month, Day. rewrite absSec_startOfDay.
  rewrite Z.div_mul by lia.
  destruct (dateToDays_civilFromDays (absSec now / 86400 + k)) as [Hdays Hmonth].
  rewrite Date_fixed by (try exact fixed; try exact Hmonth; unfold Second; lia).
  rewrite Hdays. unfold Add, Measures.startOfDay. cbn [unixNano loc]. f_equal. lia.
Qed.

(** AddDate by days moves the instant by as many times 24 hours. *)
Lemma AddDate_days (k : Z) : AddDate now 0 0 k = Add now (k * (24 * Hour)).
Proof.
  destruct (dateToDays_civilFromDays (absSec now / 86400)) as [Hdays Hmonth].
  unfold AddDate, Year, Month, Day, HourOf, MinuteOf, SecondOf, NanosecondOf.
  rewrite !Z.add_0_r.
  rewrite Date_fixed
    by (try exact fixed; try exact Hmonth;
        unfold Second; Z.to_euclidean_division_equations; lia).
  rewrite dateToDays_shift, Hdays.
  rewrite (absSec_fixed now eq_refl).
  unfold Add. destruct now as [nano location]. cbn [unixNano loc]. f_equal.
  unfold Hour, Minute, Second. Z.to_euclidean_division_equations; lia.
Qed.

Lemma startOfDay_Add (k : Z) :
  Measures.startOfDay (Add now (k * (24 * Hour))) 0 = Measures.startOfDay now k.
Proof.
  unfold Measures.startOfDay. cbn [Add loc]. f_equal. f_equal. f_equal.
  rewrite !absSec_fixed by reflexivity. cbn [Add unixNano].
  unfold Hour, Minute, Second. Z.to_euclidean_division_equations; lia.
Qed.

Lemma Weekday_startOfDay (k : Z) :
  Weekday (Measures.startOfDay now k) = (Weekday now + k) mod 7.
Proof.
  unfold Weekday. rewrite absSec_startOfDay, Z.div_mul by lia.
  Z.to_euclidean_division_equations; lia.
Qed.

Lemma Weekday_range : 0 <= Weekday now <= 6.
Proof. unfold Weekday. Z.to_euclidean_division_equations; lia. Qed.

(** The last step of the two date matchers. *)
Lemma applyTime_startOfDay (k : Z) (timeStr : string) :
  NLP.applyTime (Measures.startOfDay now k) timeStr (loc now)
  = Measures.atTimeOfDay (Measures.startOfDay now k) timeStr.
Proof.
  unfold NLP.applyTime, Measures.atTimeOfDay.
  destruct (String.eqb timeStr ""); cbn [negb]; [reflexivity|].
  cbn [Measures.startOfDay loc].
  destruct (NLP.parseTimeOfDay timeStr (loc now)) as [parsedTime|err]; [|reflexivity].
  now rewrite Date_on_startOfDay.
Qed.

End DayFacts.

(** X20.  In a location whose offset never changes, parseRelativeDate
    turns "today", "tomorrow" and "yesterday" (what stands before "at",
    blanks trimmed) into the first instant of the civil day 0, 1 and -1
    days from the day of [now], also across the end of a month or a year
    and over a leap day; a time of day after "at" sets the hour and the
    minute on that day and loses its seconds, and when it cannot be read
    the error is returned. *)
Theorem parseRelativeDate_moves_by_whole_days :
  forall (input dateStr timeStr : string) (now : GoTime.Time) (k : Z),
    GoTime.locTrans (GoTime.loc now) = [] ->
    NLP.splitAtTime input = (dateStr, timeStr) ->
    (GoStrings.TrimSpace dateStr = "today"%string /\ k = 0)
    \/ (GoStrings.TrimSpace dateStr = "tomorrow"%string /\ k = 1)
    \/ (GoStrings.TrimSpace dateStr = "yesterday"%string /\ k = -1) ->
    NLP.parseRelativeDate input now (GoTime.loc now)
    = Measures.atTimeOfDay (Measures.startOfDay now k) timeStr.
Proof.
  intros input dateStr timeStr now k Hfixed Hsplit Hword.
  unfold NLP.parseRelativeDate. rewrite Hsplit.
  destruct Hword as [[-> ->]|[[-> ->]|[-> ->]]].
  - change (String.eqb "today" "now") with false.
    change (String.eqb "today" "today") with true. cbv iota.
    replace (GoTime.Day now) with (GoTime.Day now + 0) by lia.
    rewrite (Date_startOfDay now Hfixed). now apply applyTime_startOfDay.
  - change (String.eqb "tomorrow" "now") with false.
    change (String.eqb "tomorrow" "today") with false.
    change (String.eqb "tomorrow" "tomorrow") with true. cbv iota.
    rewrite (Date_startOfDay now Hfixed). now apply applyTime_startOfDay.
  - change (String.eqb "yesterday" "now") with false.
    change (String.eqb "yesterday" "today") with false.
    change (String.eqb "yesterday" "tomorrow") with false.
    change (String.eqb "yesterday" "yesterday") with true. cbv iota.
    change (GoTime.Day now - 1) with (GoTime.Day now + -1).
    rewrite (Date_startOfDay now Hfixed). now apply applyTime_startOfDay.
Qed.

(** The last day of a leap February, 23:30 in a zone two hours east. *)
Lemma parseRelativeDate_moves_witness :
  NLP.parseRelativeDate "tomorrow at 9:15:40"
    (GoTime.Date 2024 2 29 23 30 0 0 (GoTime.FixedZone "" 7200))
    (GoTime.FixedZone "" 7200)
  = Measures.atTimeOfDay
      (Measures.startOfDay (GoTime.Date 2024 2 29 23 30 0 0 (GoTime.FixedZone "" 7200)) 1)
      "9:15:40"
  /\ Measures.atTimeOfDay
       (Measures.startOfDay (GoTime.Date 2024 2 29 23 30 0 0 (GoTime.FixedZone "" 7200)) 1)
       "9:15:40"
     = inl "2024-03-01T09:15:00+02:00"%string.
Proof.
  split; [|vm_compute; reflexivity].
  apply (parseRelativeDate_moves_by_whole_days "tomorrow at 9:15:40" "tomorrow" "9:15:40"
           (GoTime.Date 2024 2 29 23 30 0 0 (GoTime.FixedZone "" 7200)) 1).
  - reflexivity.
  - vm_compute. reflexivity.
  - right. left. split; reflexivity.
Defined.

Section WeekdayFacts.

Import GoStrings GoTime NLP.

(** The names of dayMap: lower case, none beginning like a modifier. *)
Lemma dayMap_names (name : string) (target : Z) :
  lookupDay dayMap name = Some target ->
  0 <= target <= 6
  /\ lookupDay dayMap (ToLower name) = Some target
  /\ HasPrefix name "next " = false
  /\ HasPrefix name "this " = false
  /\ HasPrefix name "last " = false.
Proof.
  unfold dayMap. cbn [lookupDay].
  repeat (match goal with
          | |- context [String.eqb ?a name] =>
              destruct (String.eqb_spec a name) as [<-|_];
              [intros [= <-]; vm_compute; repeat split; congruence|]
          end).
  discriminate.
Qed.

End WeekdayFacts.

(** X21.  In a location whose offset never changes, parseDayOfWeek turns
    a day name of its table, alone or after "next ", into the first
    instant of the day with that weekday among the seven days after the
    day of [now] (a week ahead when [now] is on that weekday); after
    "this " into the one among today and the six days after it; after
    "last " into the one among the seven days before today.  A time of
    day after "at" is applied as by parseRelativeDate. *)
Theorem parseDayOfWeek_finds_the_named_weekday :
  forall (input dateStr timeStr name : string) (target : Z) (now : GoTime.Time),
    GoTime.locTrans (GoTime.loc now) = [] ->
    NLP.splitAtTime input = (dateStr, timeStr) ->
    NLP.lookupDay NLP.dayMap name = Some target ->
    (dateStr = name \/ dateStr = ("next " ++ name)%string ->
     exists k, 1 <= k <= 7
               /\ GoTime.Weekday (Measures.startOfDay now k) = target
               /\ NLP.parseDayOfWeek input now (GoTime.loc now)
                  = Measures.atTimeOfDay (Measures.startOfDay now k) timeStr)
    /\ (dateStr = ("this " ++ name)%string ->
        exists k, 0 <= k <= 6
                  /\ GoTime.Weekday (Measures.startOfDay now k) = target
                  /\ NLP.parseDayOfWeek input now (GoTime.loc now)
                     = Measures.atTimeOfDay (Measures.startOfDay now k) timeStr)
    /\ (dateStr = ("last " ++ name)%string ->
        exists k, -7 <= k <= -1
                  /\ GoTime.Weekday (Measures.startOfDay now k) = target
                  /\ NLP.parseDayOfWeek input now (GoTime.loc now)
                     = Measures.atTimeOfDay (Measures.startOfDay now k) timeStr).
Proof.
  intros input dateStr timeStr name target now Hfixed Hsplit Hname.
  destruct (dayMap_names name target Hname) as (Htarget & Hlower & Hnext & Hthis & Hlast).
  pose proof (Weekday_range now) as Hcurrent.
  assert (Hstep : forall k : Z,
             NLP.applyTime
               (GoTime.Date (GoTime.Year (GoTime.AddDate now 0 0 k))
                            (GoTime.Month (GoTime.AddDate now 0 0 k))
                            (GoTime.Day (GoTime.AddDate now 0 0 k)) 0 0 0 0
                            (GoTime.loc now))
               timeStr (GoTime.loc now)
             = Measures.atTimeOfDay (Measures.startOfDay now k) timeStr).
  { intros k. rewrite (AddDate_days now Hfixed).
    replace (GoTime.Day (GoTime.Add now (k * (24 * GoTime.Hour))))
      with (GoTime.Day (GoTime.Add now (k * (24 * GoTime.Hour))) + 0) by lia.
    change (GoTime.loc now) with (GoTime.loc (GoTime.Add now (k * (24 * GoTime.Hour)))) at 1.
    rewrite (Date_startOfDay (GoTime.Add now (k * (24 * GoTime.Hour))) Hfixed).
    rewrite (startOfDay_Add now Hfixed).
    now apply applyTime_startOfDay. }
  assert (Hnextcase :
            exists k, 1 <= k <= 7
               /\ GoTime.Weekday (Measures.startOfDay now k) = target
               /\ NLP.applyTime
                    (GoTime.Date
                       (GoTime.Year (GoTime.AddDate now 0 0
                          (if target - GoTime.Weekday now <=? 0
                           then target - GoTime.Weekday now + 7
                           else target - GoTime.Weekday now)))
                       (GoTime.Month (GoTime.AddDate now 0 0
                          (if target - GoTime.Weekday now <=? 0
                           then target - GoTime.Weekday now + 7
                           else target - GoTime.Weekday now)))
                       (GoTime.Day (GoTime.AddDate now 0 0
                          (if target - GoTime.Weekday now <=? 0
                           then target - GoTime.Weekday now + 7
                           else target - GoTime.Weekday now)))
                       0 0 0 0 (GoTime.loc now))
                    timeStr (GoTime.loc now)
                  = Measures.atTimeOfDay (Measures.startOfDay now k) timeStr).
  { eexists. split; [|split; [|apply Hstep]].
    - destruct (Z.leb_spec (target - GoTime.Weekday now) 0); lia.
    - rewrite (Weekday_startOfDay now Hfixed).
      destruct (Z.leb_spec (target - GoTime.Weekday now) 0);
        Z.to_euclidean_division_equations; lia. }
  split; [|split].
  - intros [->| ->].
    + unfold NLP.parseDayOfWeek. rewrite Hsplit, Hnext, Hthis, Hlast, Hlower.
      exact Hnextcase.
    + unfold NLP.parseDayOfWeek. rewrite Hsplit.
      change (GoStrings.HasPrefix ("next " ++ name) "next ") with true.
      change (GoStrings.TrimPrefix ("next " ++ name) "next ") with name.
      cbv iota. rewrite Hlower. exact Hnextcase.
  - intros ->. unfold NLP.parseDayOfWeek. rewrite Hsplit.
    change (GoStrings.HasPrefix ("this " ++ name) "next ") with false.
    change (GoStrings.HasPrefix ("this " ++ name) "this ") with true.
    change (GoStrings.TrimPrefix ("this " ++ name) "this ") with name.
    cbv iota. rewrite Hlower.
    change (String.eqb "this" "this") with true. cbv iota.
    eexists. split; [|split; [|apply Hstep]].
    + destruct (Z.ltb_spec (target - GoTime.Weekday now) 0); lia.
    + rewrite (Weekday_startOfDay now Hfixed).
      destruct (Z.ltb_spec (target - GoTime.Weekday now) 0);
        Z.to_euclidean_division_equations; lia.
  - intros ->. unfold NLP.parseDayOfWeek. rewrite Hsplit.
    change (GoStrings.HasPrefix ("last " ++ name) "next ") with false.
    change (GoStrings.HasPrefix ("last " ++ name) "this ") with false.
    change (GoStrings.HasPrefix ("last " ++ name) "last ") with true.
    change (GoStrings.TrimPrefix ("last " ++ name) "last ") with name.
    cbv iota. rewrite Hlower.
    change (String.eqb "last" "this") with false.
    change (String.eqb "last" "last") with true. cbv iota.
    eexists. split; [|split; [|apply Hstep]].
    + destruct (Z.leb_spec (GoTime.Weekday now - target) 0); lia.
    + rewrite (Weekday_startOfDay now Hfixed).
      destruct (Z.leb_spec (GoTime.Weekday now - target) 0);
        Z.to_euclidean_division_equations; lia.
Qed.

(** Monday 2024-01-15, 10:00 UTC. *)
Lemma parseDayOfWeek_finds_witness :
  exists k,
    1 <= k <= 7
    /\ GoTime.Weekday (Measures.startOfDay (Examples.at_ 10 0) k) = 5
    /\ NLP.parseDayOfWeek "next friday at 3pm" (Examples.at_ 10 0) GoTime.UTC
       = Measures.atTimeOfDay (Measures.startOfDay (Examples.at_ 10 0) k) "3pm".
Proof.
  apply (proj1 (parseDayOfWeek_finds_the_named_weekday
                  "next friday at 3pm" "next friday" "3pm" "friday" 5
                  (Examples.at_ 10 0) eq_refl eq_refl eq_refl)).
  right. reflexivity.
Defined.

Section OffsetFacts.

Import GoStrings.

Lemma atouAcc_nonneg (s : string) :
  forall acc n, 0 <= acc -> atouAcc s acc = Some n -> 0 <= n.
Proof.
  induction s as [|c s IH]; intros acc n Hacc; cbn [atouAcc].
  - intros [= <-]. exact Hacc.
  - destruct (isDigit c) eqn:E; [|discriminate].
    apply IH. unfold isDigit in E. unfold digitVal.
    apply andb_true_iff in E. destruct E as [E _]. apply Z.leb_le in E. lia.
Qed.

Lemma atou_nonneg (s : string) (n : Z) : atou s = Some n -> 0 <= n.
Proof.
  unfold atou. destruct s; [discriminate|]. now apply atouAcc_nonneg.
Qed.

End OffsetFacts.

(** X22.  In a location whose offset never changes, "in N minutes",
    "in N hours", "in N days" and "in N weeks" give the instant that lies
    N times 1 minute, 1 hour, 24 hours and 168 hours after [now], for
    every N whose hours fit a Duration: the days and weeks, which go
    through the calendar, come out as exact multiples of 24 hours. *)
Theorem parseTimeOffset_adds_whole_units :
  forall (input digits unit : string) (now : GoTime.Time) (n len : Z),
    GoTime.locTrans (GoTime.loc now) = [] ->
    NLP.findOffset input = Some (digits, unit) ->
    GoStrings.atou digits = Some n ->
    Measures.unitLength unit = Some len ->
    n * GoTime.Hour <= GoInt.maxInt64 ->
    NLP.parseTimeOffset input now = inl (GoTime.FormatRFC3339 (GoTime.Add now (n * len))).
Proof.
  intros input digits unit now n len Hfixed Hfind Hatou Hlen Hfits.
  pose proof (atou_nonneg digits n Hatou) as Hn.
  unfold NLP.parseTimeOffset. rewrite Hfind.
  unfold NLP.scanAmount. rewrite Hatou.
  assert (Hhour : GoTime.Hour = 3600000000000) by reflexivity.
  assert (Hminute : GoTime.Minute = 60000000000) by reflexivity.
  replace (n <=? GoInt.maxInt64) with true
    by (symmetry; apply Z.leb_le; unfold GoInt.maxInt64 in *; lia).
  unfold Measures.unitLength in Hlen.
  destruct (String.eqb unit "minute" || String.eqb unit "minutes").
  { injection Hlen as <-.
    rewrite wrap64_in_range
      by (unfold GoInt.minInt64, GoInt.maxInt64 in *; lia).
    reflexivity. }
  destruct (String.eqb unit "hour" || String.eqb unit "hours").
  { injection Hlen as <-.
    rewrite wrap64_in_range
      by (unfold GoInt.minInt64, GoInt.maxInt64 in *; lia).
    reflexivity. }
  destruct (String.eqb unit "day" || String.eqb unit "days").
  { injection Hlen as <-. now rewrite (AddDate_days now Hfixed). }
  destruct (String.eqb unit "week" || String.eqb unit "weeks"); [|discriminate Hlen].
  injection Hlen as <-.
  rewrite wrap64_in_range by (unfold GoInt.minInt64, GoInt.maxInt64 in *; lia).
  rewrite (AddDate_days now Hfixed).
  replace (n * 7 * (24 * GoTime.Hour)) with (n * (7 * 24 * GoTime.Hour)) by ring.
  reflexivity.
Qed.

(** Three days from 23:30 on the 27th of a leap February. *)
Lemma parseTimeOffset_adds_witness :
  NLP.parseTimeOffset "in 3 days" (GoTime.Date 2024 2 27 23 30 0 0 GoTime.UTC)
  = inl (GoTime.FormatRFC3339
           (GoTime.Add (GoTime.Date 2024 2 27 23 30 0 0 GoTime.UTC)
                       (3 * (24 * GoTime.Hour))))
  /\ GoTime.FormatRFC3339
       (GoTime.Add (GoTime.Date 2024 2 27 23 30 0 0 GoTime.UTC) (3 * (24 * GoTime.Hour)))
     = "2024-03-01T23:30:00Z"%string.
Proof.
  split; [|vm_compute; reflexivity].
  apply (parseTimeOffset_adds_whole_units "in 3 days" "3" "days"
           (GoTime.Date 2024 2 27 23 30 0 0 GoTime.UTC) 3 (24 * GoTime.Hour)).
  - reflexivity.
  - vm_compute. reflexivity.
  - reflexivity.
  - reflexivity.
  - vm_compute. discriminate.
Defined.

(** ** Times written and read back *)

Section DigitFacts.

Import GoStrings GoTime.

Lemma digitChar_digit (d : Z) :
  0 <= d <= 9 -> isDigit (digitChar d) = true /\ digitVal (digitChar d) = d.
Proof.
  intros H.
  assert (d = 0 \/ d = 1 \/ d = 2 \/ d = 3 \/ d = 4 \/ d = 5 \/ d = 6 \/ d = 7
          \/ d = 8 \/ d = 9) as Hc by lia.
  repeat (destruct Hc as [->|Hc]; [split; reflexivity|]). subst. split; reflexivity.
Qed.

Lemma digitsOf_last (fuel : nat) (n : Z) (acc : string) :
  n < 10 -> digitsOf (S fuel) n acc = String (digitChar (n mod 10)) acc.
Proof.
  intros H. cbn [digitsOf].
  now replace (n <? 10) with true by (symmetry; apply Z.ltb_lt; lia).
Qed.

Lemma digitsOf_more (fuel : nat) (n : Z) (acc : string) :
  10 <= n ->
  digitsOf (S fuel) n acc = digitsOf fuel (n / 10) (String (digitChar (n mod 10)) acc).
Proof.
  intros H. cbn [digitsOf].
  now replace (n <? 10) with false by (symmetry; apply Z.ltb_ge; lia).
Qed.

Lemma utoa_fuel (n : Z) (digits : nat) :
  2 ^ Z.of_nat (3 * digits) <= n ->
  exists more, S (Z.to_nat (Z.log2 n)) = (S digits + more)%nat.
Proof.
  intros H. exists (Z.to_nat (Z.log2 n) - digits)%nat.
  assert (Z.of_nat (3 * digits) <= Z.log2 n).
  { rewrite <- (Z.log2_pow2 (Z.of_nat (3 * digits))) by lia. now apply Z.log2_le_mono. }
  lia.
Qed.

(** The decimal digits of a number below 10000. *)
Lemma utoa_digits (n : Z) :
  0 <= n < 10000 ->
  utoa n
  = if n <? 10 then String (digitChar n) ""
    else if n <? 100 then String (digitChar (n / 10)) (String (digitChar (n mod 10)) "")
    else if n <? 1000 then
      String (digitChar (n / 100))
        (String (digitChar (n / 10 mod 10)) (String (digitChar (n mod 10)) ""))
    else
      String (digitChar (n / 1000))
        (String (digitChar (n / 100 mod 10))
           (String (digitChar (n / 10 mod 10)) (String (digitChar (n mod 10)) ""))).
Proof.
  intros H. unfold utoa.
  destruct (Z.ltb_spec n 10) as [H1|H1].
  { rewrite digitsOf_last by lia. now rewrite Z.mod_small by lia. }
  destruct (Z.ltb_spec n 100) as [H2|H2].
  { destruct (utoa_fuel n 1 ltac:(cbn; lia)) as [more ->]. cbn [Nat.add].
    rewrite digitsOf_more by lia.
    rewrite digitsOf_last by (Z.to_euclidean_division_equations; lia).
    now rewrite (Z.mod_small (n / 10)) by (Z.to_euclidean_division_equations; lia). }
  destruct (Z.ltb_spec n 1000) as [H3|H3].
  { destruct (utoa_fuel n 2 ltac:(cbn; lia)) as [more ->]. cbn [Nat.add].
    rewrite digitsOf_more by lia.
    rewrite digitsOf_more by (Z.to_euclidean_division_equations; lia).
    rewrite digitsOf_last by (Z.to_euclidean_division_equations; lia).
    rewrite Z.div_div by lia.
    now rewrite (Z.mod_small (n / (10 * 10))) by (Z.to_euclidean_division_equations; lia). }
  destruct (utoa_fuel n 3 ltac:(cbn; lia)) as [more ->]. cbn [Nat.add].
  rewrite digitsOf_more by lia.
  rewrite digitsOf_more by (Z.to_euclidean_division_equations; lia).
  rewrite digitsOf_more by (Z.to_euclidean_division_equations; lia).
  rewrite digitsOf_last by (Z.to_euclidean_division_equations; lia).
  rewrite !Z.div_div by lia.
  now rewrite (Z.mod_small (n / (10 * 10 * 10))) by (Z.to_euclidean_division_equations; lia).
Qed.

Lemma appendInt_two (n : Z) : 0 <= n < 100 -> appendInt n 2 = Measures.twoDigits n.
Proof.
  intros H. unfold appendInt, Measures.twoDigits.
  rewrite Z.abs_eq by lia. rewrite utoa_digits by lia.
  replace (n <? 0) with false by (symmetry; apply Z.ltb_ge; lia).
  destruct (Z.ltb_spec n 10) as [H1|H1].
  - cbn [String.length Nat.sub zeros].
    rewrite Z.div_small, Z.mod_small by lia. reflexivity.
  - replace (n <? 100) with true by (symmetry; apply Z.ltb_lt; lia). reflexivity.
Qed.

Lemma appendInt_four (n : Z) : 0 <= n < 10000 -> appendInt n 4 = Measures.fourDigits n.
Proof.
  intros H. unfold appendInt, Measures.fourDigits.
  rewrite Z.abs_eq by lia. rewrite utoa_digits by lia.
  replace (n <? 0) with false by (symmetry; apply Z.ltb_ge; lia).
  destruct (Z.ltb_spec n 10) as [H1|H1].
  { cbn [String.length Nat.sub zeros].
    rewrite (Z.div_small n 1000), (Z.div_small n 100), (Z.div_small n 10) by lia.
    rewrite (Z.mod_small n 10) by lia. reflexivity. }
  destruct (Z.ltb_spec n 100) as [H2|H2].
  { cbn [String.length Nat.sub zeros].
    rewrite (Z.div_small n 1000), (Z.div_small n 100) by lia.
    rewrite (Z.mod_small (n / 10) 10) by (Z.to_euclidean_division_equations; lia).
    reflexivity. }
  destruct (Z.ltb_spec n 1000) as [H3|H3].
  { cbn [String.length Nat.sub zeros].
    rewrite (Z.div_small n 1000) by lia.
    rewrite (Z.mod_small (n / 100) 10) by (Z.to_euclidean_division_equations; lia).
    reflexivity. }
  reflexivity.
Qed.

Lemma getnum_two (n : Z) (rest : string) (fixed : bool) :
  0 <= n < 100 -> getnum (appendInt n 2 ++ rest) fixed = Some (n, rest).
Proof.
  intros H. rewrite appendInt_two by exact H. unfold Measures.twoDigits.
  change (String (digitChar (n / 10)) (String (digitChar (n mod 10)) "") ++ rest)%string
    with (String (digitChar (n / 10)) (String (digitChar (n mod 10)) rest)).
  cbn [getnum].
  destruct (digitChar_digit (n / 10)) as [-> ->];
    [Z.to_euclidean_division_equations; lia|].
  destruct (digitChar_digit (n mod 10)) as [-> ->];
    [Z.to_euclidean_division_equations; lia|].
  do 2 f_equal. Z.to_euclidean_division_equations; lia.
Qed.

Lemma year_four (n : Z) (rest : string) :
  0 <= n < 10000 ->
  splitAt 4 (appendInt n 4 ++ rest) = Some (appendInt n 4, rest)
  /\ atou (appendInt n 4) = Some n.
Proof.
  intros H. rewrite appendInt_four by exact H. unfold Measures.fourDigits. split; [reflexivity|].
  unfold atou. cbn [atouAcc].
  destruct (digitChar_digit (n / 1000)) as [-> ->];
    [Z.to_euclidean_division_equations; lia|].
  destruct (digitChar_digit (n / 100 mod 10)) as [-> ->];
    [Z.to_euclidean_division_equations; lia|].
  destruct (digitChar_digit (n / 10 mod 10)) as [-> ->];
    [Z.to_euclidean_division_equations; lia|].
  destruct (digitChar_digit (n mod 10)) as [-> ->];
    [Z.to_euclidean_division_equations; lia|].
  f_equal. Z.to_euclidean_division_equations; lia.
Qed.

End DigitFacts.

Section RoundTrip.

Import GoStrings GoTime.

Lemma formatZone_shape (off : Z) :
  off mod 60 = 0 -> -86400 < off < 86400 ->
  (off = 0 /\ formatZone off = "Z"%string)
  \/ (off <> 0
      /\ exists sign,
           formatZone off
           = String sign (appendInt (Z.abs off / 3600) 2
                            ++ String ":" (appendInt (Z.abs off / 60 mod 60) 2))%string
           /\ ((0 < off /\ sign = "+"%char) \/ (off < 0 /\ sign = "-"%char))).
Proof.
  intros Hmin Hrange. unfold formatZone.
  destruct (Z.eqb_spec off 0) as [->|Hne]; [left; auto|]. right. split; [exact Hne|].
  assert (Hq : Z.abs (Z.quot off 60) = Z.abs off / 60).
  { rewrite <- Z.quot_abs by lia. change (Z.abs 60) with 60.
    now rewrite Z.quot_div_nonneg by lia. }
  rewrite Hq.
  replace (Z.abs off / 60 / 60) with (Z.abs off / 3600)
    by (rewrite Z.div_div by lia; reflexivity).
  destruct (Z.ltb_spec (Z.quot off 60) 0) as [Hneg|Hpos].
  - exists "-"%char. split; [reflexivity|]. right. split; [|reflexivity].
    destruct (Z.lt_ge_cases off 0) as [|H0]; [assumption|].
    pose proof (Z.quot_pos off 60 H0 ltac:(lia)). lia.
  - exists "+"%char. split; [reflexivity|]. left. split; [|reflexivity].
    destruct (Z.lt_ge_cases 0 off) as [|H0]; [assumption|].
    assert (off < 0) by lia.
    assert (Z.quot off 60 <= -1).
    { rewrite <- (Z.opp_involutive off), Z.quot_opp_l by lia.
      rewrite Z.quot_div_nonneg by lia.
      assert (1 <= - off / 60); [|lia].
      apply Z.div_le_lower_bound; [lia|].
      clear -Hmin H. Z.to_euclidean_division_equations; lia. }
    lia.
Qed.

End RoundTrip.

Section ParseSteps.

Import GoStrings GoTime.

Lemma getnum_digits (a b : Z) (rest : string) (fixed : bool) :
  0 <= a <= 9 -> 0 <= b <= 9 ->
  getnum (String (digitChar a) (String (digitChar b) rest)) fixed = Some (a * 10 + b, rest).
Proof.
  intros Ha Hb. cbn [getnum].
  destruct (digitChar_digit a Ha) as [-> ->].
  destruct (digitChar_digit b Hb) as [-> ->]. reflexivity.
Qed.

Lemma step_lit (c : ascii) (f : Fields) (rest : string) :
  parseChunk (lit (String c "")) f (String c rest) = Some (f, rest).
Proof. cbn [parseChunk stripPrefix]. now rewrite Ascii.eqb_refl. Qed.

Lemma step_year (f : Fields) (y : Z) (rest : string) :
  0 <= y < 10000 ->
  parseChunk stdLongYear f (appendInt y 4 ++ rest)
  = Some (mkFields y (fMonth f) (fDay f) (fHour f) (fMin f) (fSec f) (fNsec f)
            (fPM f) (fAM f) (fZone f), rest).
Proof.
  intros H. destruct (year_four y rest H) as [Hsplit Hvalue].
  cbn [parseChunk]. now rewrite Hsplit, Hvalue.
Qed.

Lemma step_month (f : Fields) (m : Z) (rest : string) :
  1 <= m <= 12 ->
  parseChunk stdZeroMonth f (appendInt m 2 ++ rest)
  = Some (mkFields (fYear f) m (fDay f) (fHour f) (fMin f) (fSec f) (fNsec f)
            (fPM f) (fAM f) (fZone f), rest).
Proof.
  intros H. cbn [parseChunk]. rewrite getnum_two by lia.
  replace (m <=? 0) with false by (symmetry; apply Z.leb_gt; lia).
  now replace (12 <? m) with false by (symmetry; apply Z.ltb_ge; lia).
Qed.

Lemma step_day (f : Fields) (d : Z) (rest : string) :
  0 <= d < 100 ->
  parseChunk stdZeroDay f (appendInt d 2 ++ rest)
  = Some (mkFields (fYear f) (fMonth f) d (fHour f) (fMin f) (fSec f) (fNsec f)
            (fPM f) (fAM f) (fZone f), rest).
Proof. intros H. cbn [parseChunk]. now rewrite getnum_two by lia. Qed.

Lemma step_hour (f : Fields) (h : Z) (rest : string) :
  0 <= h < 24 ->
  parseChunk stdHour f (appendInt h 2 ++ rest)
  = Some (mkFields (fYear f) (fMonth f) (fDay f) h (fMin f) (fSec f) (fNsec f)
            (fPM f) (fAM f) (fZone f), rest).
Proof.
  intros H. cbn [parseChunk]. rewrite getnum_two by lia.
  replace (h <? 0) with false by (symmetry; apply Z.ltb_ge; lia).
  now replace (24 <=? h) with false by (symmetry; apply Z.leb_gt; lia).
Qed.

Lemma step_minute (f : Fields) (m : Z) (rest : string) :
  0 <= m < 60 ->
  parseChunk stdZeroMinute f (appendInt m 2 ++ rest)
  = Some (mkFields (fYear f) (fMonth f) (fDay f) (fHour f) m (fSec f) (fNsec f)
            (fPM f) (fAM f) (fZone f), rest).
Proof.
  intros H. cbn [parseChunk]. rewrite getnum_two by lia.
  replace (m <? 0) with false by (symmetry; apply Z.ltb_ge; lia).
  now replace (60 <=? m) with false by (symmetry; apply Z.leb_gt; lia).
Qed.

Lemma fraction_none (c : ascii) (rest : string) :
  commaOrPeriod c = false ->
  fractionAfterSeconds (String c rest) = (0, String c rest).
Proof. intros H. unfold fractionAfterSeconds. destruct rest; now rewrite ?H. Qed.

(** The seconds and the zone, at the end of the value. *)
Lemma step_second_zone (f : Fields) (s off : Z) :
  0 <= s < 60 -> off mod 60 = 0 -> -86400 < off < 86400 ->
  exists zone,
    parseChunks [stdZeroSecond; stdISO8601ColonTZ] f (appendInt s 2 ++ formatZone off)
    = Some (mkFields (fYear f) (fMonth f) (fDay f) (fHour f) (fMin f) s 0
              (fPM f) (fAM f) zone)
    /\ ((zone = ZoneUTC /\ off = 0) \/ zone = ZoneOffset off).
Proof.
  intros Hs Hmin Hrange. cbn [parseChunks parseChunk]. rewrite getnum_two by lia.
  replace (s <? 0) with false by (symmetry; apply Z.ltb_ge; lia).
  replace (60 <=? s) with false by (symmetry; apply Z.leb_gt; lia).
  cbn [orb].
  assert (Hhh : 0 <= Z.abs off / 3600 < 24)
    by (clear -Hrange; Z.to_euclidean_division_equations; lia).
  assert (Hmm : 0 <= Z.abs off / 60 mod 60 < 60)
    by (clear; Z.to_euclidean_division_equations; lia).
  destruct (formatZone_shape off Hmin Hrange)
    as [[-> ->]|(Hne & sign & -> & Hsign)].
  - exists ZoneUTC. split; [reflexivity|]. left. auto.
  - exists (ZoneOffset off). split; [|now right].
    rewrite !appendInt_two by lia. unfold Measures.twoDigits.
    change (String (digitChar (Z.abs off / 3600 / 10))
              (String (digitChar ((Z.abs off / 3600) mod 10)) "")
            ++ String ":"
                 (String (digitChar ((Z.abs off / 60) mod 60 / 10))
                    (String (digitChar (((Z.abs off / 60) mod 60) mod 10)) "")))%string
      with (String (digitChar (Z.abs off / 3600 / 10))
              (String (digitChar ((Z.abs off / 3600) mod 10))
                 (String ":"
                    (String (digitChar ((Z.abs off / 60) mod 60 / 10))
                       (String (digitChar (((Z.abs off / 60) mod 60) mod 10)) ""))))).
    assert (Hvalue : ((Z.abs off / 3600 / 10 * 10 + (Z.abs off / 3600) mod 10) * 60
                      + ((Z.abs off / 60) mod 60 / 10 * 10
                         + ((Z.abs off / 60) mod 60) mod 10)) * 60
                     = Z.abs off / 60 * 60)
      by (clear; Z.to_euclidean_division_equations; lia).
    set (hh := Z.abs off / 3600) in *. set (mm := (Z.abs off / 60) mod 60) in *.
    assert (Hh1 : 0 <= hh / 10 <= 9) by (clear -Hhh; Z.to_euclidean_division_equations; lia).
    assert (Hh2 : 0 <= hh mod 10 <= 9) by (clear; Z.to_euclidean_division_equations; lia).
    assert (Hm1 : 0 <= mm / 10 <= 9) by (clear -Hmm; Z.to_euclidean_division_equations; lia).
    assert (Hm2 : 0 <= mm mod 10 <= 9) by (clear; Z.to_euclidean_division_equations; lia).
    assert (Hhr : (24 <? hh / 10 * 10 + hh mod 10) = false)
      by (apply Z.ltb_ge; clear -Hhh; Z.to_euclidean_division_equations; lia).
    assert (Hmi : (60 <? mm / 10 * 10 + mm mod 10) = false)
      by (apply Z.ltb_ge; clear -Hmm; Z.to_euclidean_division_equations; lia).
    destruct Hsign as [[Hpos ->]|[Hneg ->]].
    + rewrite fraction_none by reflexivity.
      rewrite !getnum_digits by assumption.
      rewrite Hhr, Hmi. cbn [orb]. change (Ascii.eqb "+" "+") with true. cbv iota.
      cbn [fYear fMonth fDay fHour fMin fSec fNsec fPM fAM fZone].
      do 3 f_equal. rewrite Hvalue.
      clear -Hpos Hmin. Z.to_euclidean_division_equations; lia.
    + rewrite fraction_none by reflexivity.
      rewrite !getnum_digits by assumption.
      rewrite Hhr, Hmi. cbn [orb]. change (Ascii.eqb "-" "+") with false.
      change (Ascii.eqb "-" "-") with true. cbv iota.
      cbn [fYear fMonth fDay fHour fMin fSec fNsec fPM fAM fZone].
      do 3 f_equal. rewrite Hvalue.
      clear -Hneg Hmin. Z.to_euclidean_division_equations; lia.
Qed.

End ParseSteps.

Section FormatThenParse.

Import GoStrings GoTime.

Lemma parseChunks_cons (c : Chunk) (layout : list Chunk) (f : Fields) (value : string) :
  parseChunks (c :: layout) f value
  = match parseChunk c f value with
    | Some (f', v) => parseChunks layout f' v
    | None => None
    end.
Proof. reflexivity. Qed.

Lemma step_lit_app (c : ascii) (f : Fields) (rest : string) :
  parseChunk (lit (String c "")) f (String c "" ++ rest) = Some (f, rest).
Proof. apply step_lit. Qed.

(** The fields of the wall clock reading. *)
Lemma clock_ranges (a : Z) :
  0 <= a mod 86400 / 3600 < 24 /\ 0 <= a mod 3600 / 60 < 60 /\ 0 <= a mod 60 < 60
  /\ a / 86400 * 86400 + a mod 86400 / 3600 * 3600 + a mod 3600 / 60 * 60 + a mod 60 = a.
Proof. Z.to_euclidean_division_equations; lia. Qed.

Lemma Parse_Format (t : Time) :
  Measures.printable t ->
  exists t',
    Parse RFC3339 (FormatRFC3339 t) = Some t'
    /\ unixNano t' = unixSec t * Second.
Proof.
  intros (Hyear & Hmin & Hrange).
  set (off := offsetAt (loc t) (unixSec t)) in *.
  destruct (dateToDays_civilFromDays (absSec t / 86400)) as [Hdays Hmonth].
  pose proof (civilFromDays_day (absSec t / 86400)) as Hday.
  destruct (clock_ranges (absSec t)) as (Hh & Hmi & Hs & Hclock).
  unfold FormatRFC3339, Parse, RFC3339.
  unfold Year, Month, Day, HourOf, MinuteOf, SecondOf in *. fold off.
  set (y := fst (fst (civilFromDays (absSec t / 86400)))) in *.
  set (m := snd (fst (civilFromDays (absSec t / 86400)))) in *.
  set (d := snd (civilFromDays (absSec t / 86400))) in *.
  assert (Hd31 : daysIn m y <= 31).
  { unfold daysIn. destruct ((m =? 2) && isLeap y); [lia|].
    assert (m = 1 \/ m = 2 \/ m = 3 \/ m = 4 \/ m = 5 \/ m = 6 \/ m = 7 \/ m = 8
            \/ m = 9 \/ m = 10 \/ m = 11 \/ m = 12) as Hc by lia.
    clearbody m.
    repeat (destruct Hc as [->|Hc]; [cbv; discriminate|]). subst. cbv. discriminate. }
  rewrite parseChunks_cons, step_year by lia.
  rewrite parseChunks_cons, step_lit_app.
  rewrite parseChunks_cons, step_month by lia.
  rewrite parseChunks_cons, step_lit_app.
  rewrite parseChunks_cons, step_day by lia.
  rewrite parseChunks_cons, step_lit_app.
  rewrite parseChunks_cons, step_hour by lia.
  rewrite parseChunks_cons, step_lit_app.
  rewrite parseChunks_cons, step_minute by lia.
  rewrite parseChunks_cons, step_lit_app.
  destruct (step_second_zone
              (mkFields y m d (absSec t mod 86400 / 3600) (absSec t mod 3600 / 60)
                 (fSec noFields) (fNsec noFields) (fPM noFields) (fAM noFields)
                 (fZone noFields))
              (absSec t mod 60) off Hs Hmin Hrange) as (zone & Hparse & Hzone).
  cbn [fYear fMonth fDay fHour fMin fSec fNsec fPM fAM fZone noFields] in *.
  rewrite Hparse.
  cbn [fYear fMonth fDay fHour fMin fSec fNsec fPM fAM fZone andb].
  replace (d <? 1) with false by (symmetry; apply Z.ltb_ge; lia).
  replace (daysIn m y <? d) with false by (symmetry; apply Z.ltb_ge; lia).
  cbn [orb].
  rewrite (Date_fixed UTC eq_refl) by (unfold Second; lia).
  rewrite Hdays. cbn [locBase UTC].
  assert (Habs : absSec t = unixSec t + off) by reflexivity.
  destruct Hzone as [[-> Hoff]| ->].
  - eexists. split; [reflexivity|]. cbn [unixNano]. lia.
  - eexists. split; [reflexivity|]. cbn [unixNano]. lia.
Qed.

End FormatThenParse.

Section WindowFacts.

Import GoTime.

Lemma Format_not_empty (t : Time) :
  Measures.printable t -> String.eqb (FormatRFC3339 t) "" = false.
Proof.
  intros H. destruct (Parse_Format t H) as (t' & Hparse & _).
  destruct (FormatRFC3339 t); [discriminate Hparse|reflexivity].
Qed.

End WindowFacts.

(** X23.  IsBusy, CheckConflicts, FindFreeSlots and FindCommonFreeTime
    hand QueryFreeBusy a window they have written themselves, and for
    start and end times that RFC 3339 can show QueryFreeBusy reads it back
    as the same instants cut to the whole second.  So the validation
    never refuses the window as INVALID_INPUT: it is refused as
    INVALID_TIME_RANGE exactly when the end lies in an earlier second than
    the start, and otherwise the remote is asked and its answer or its
    failure is what comes back. *)
Theorem window_queries_pass_their_own_validation :
  forall (c : Client.Client) (service : GCal.Service) (calendarIDs : list string)
         (start end_ : GoTime.Time),
    Client.Service c = Some service ->
    calendarIDs <> [] ->
    Measures.printable start ->
    Measures.printable end_ ->
    (exists readStart readEnd,
        GoTime.Parse GoTime.RFC3339 (GoTime.FormatRFC3339 start) = Some readStart
        /\ GoTime.Parse GoTime.RFC3339 (GoTime.FormatRFC3339 end_) = Some readEnd
        /\ GoTime.unixNano readStart = GoTime.unixSec start * GoTime.Second
        /\ GoTime.unixNano readEnd = GoTime.unixSec end_ * GoTime.Second)
    /\ (GoTime.unixSec end_ < GoTime.unixSec start ->
        exists e,
          FreeBusy.QueryFreeBusy c (FreeBusy.windowRequest calendarIDs start end_) = inr e
          /\ Types.Code e = Types.ErrCodeInvalidTimeRange)
    /\ (GoTime.unixSec start <= GoTime.unixSec end_ ->
        FreeBusy.QueryFreeBusy c (FreeBusy.windowRequest calendarIDs start end_)
        = match GCal.FreebusyQuery service
                  {| GCal.TimeMin := GoTime.FormatRFC3339 start;
                     GCal.TimeMax := GoTime.FormatRFC3339 end_;
                     GCal.TimeZone := "";
                     GCal.Items := calendarIDs |} with
          | inr err =>
              inr (Types.WithDetails Types.ErrAPIError
                     ("free/busy query failed: " ++ FreeBusy.errorString err))
          | inl calendars =>
              inl {| FreeBusy.Calendars :=
                       map_imap (fun calID calInfo =>
                                   Some (FreeBusy.convertCalendar calID calInfo))
                                calendars;
                     FreeBusy.ResponseTimeMin := GoTime.FormatRFC3339 start;
                     FreeBusy.ResponseTimeMax := GoTime.FormatRFC3339 end_ |}
          end).
Proof.
  intros c service calendarIDs start end_ Hservice Hids Hstart Hend.
  destruct (Parse_Format start Hstart) as (readStart & HparseStart & HreadStart).
  destruct (Parse_Format end_ Hend) as (readEnd & HparseEnd & HreadEnd).
  split; [exists readStart, readEnd; auto|].
  assert (Hrun : FreeBusy.QueryFreeBusy c (FreeBusy.windowRequest calendarIDs start end_)
                 = if GoTime.Before readEnd readStart then
                     inr (Types.WithDetails
                            (Types.NewAppError Types.ErrCodeInvalidTimeRange
                               "end time must be after start time" true)
                            ("start: " ++ GoTime.FormatRFC3339 start
                               ++ ", end: " ++ GoTime.FormatRFC3339 end_))
                   else
                     match GCal.FreebusyQuery service
                             {| GCal.TimeMin := GoTime.FormatRFC3339 start;
                                GCal.TimeMax := GoTime.FormatRFC3339 end_;
                                GCal.TimeZone := "";
                                GCal.Items := calendarIDs |} with
                     | inr err =>
                         inr (Types.WithDetails Types.ErrAPIError
                                ("free/busy query failed: " ++ FreeBusy.errorString err))
                     | inl calendars =>
                         inl {| FreeBusy.Calendars :=
                                  map_imap (fun calID calInfo =>
                                              Some (FreeBusy.convertCalendar calID calInfo))
                                           calendars;
                                FreeBusy.ResponseTimeMin := GoTime.FormatRFC3339 start;
                                FreeBusy.ResponseTimeMax := GoTime.FormatRFC3339 end_ |}
                     end).
  { unfold FreeBusy.QueryFreeBusy. rewrite Hservice.
    cbn [FreeBusy.windowRequest FreeBusy.TimeMin FreeBusy.TimeMax FreeBusy.CalendarIDs
         FreeBusy.TimeZone].
    rewrite (Format_not_empty start Hstart), (Format_not_empty end_ Hend). cbn [orb].
    destruct calendarIDs as [|calendarID more]; [contradiction|]. cbn [length Nat.eqb].
    now rewrite HparseStart, HparseEnd. }
  rewrite Hrun. unfold GoTime.Before. rewrite HreadStart, HreadEnd.
  assert (HSecond : GoTime.Second = 1000000000) by reflexivity.
  split.
  - intros Hearlier.
    replace (GoTime.unixSec end_ * GoTime.Second <? GoTime.unixSec start * GoTime.Second)
      with true by (symmetry; apply Z.ltb_lt; lia).
    eexists. split; reflexivity.
  - intros Hlater.
    now replace (GoTime.unixSec end_ * GoTime.Second <? GoTime.unixSec start * GoTime.Second)
      with false by (symmetry; apply Z.ltb_ge; lia).
Qed.

(** Half a second, asked for backwards: the window is accepted. *)
Lemma window_queries_pass_witness :
  FreeBusy.QueryFreeBusy (Client.NewClient (Some Examples.nothingBooked) "cal1")
    (FreeBusy.windowRequest ["cal1"%string]
       (GoTime.Add (Examples.at_ 9 0) (GoTime.Second / 2)) (Examples.at_ 9 0))
  = inl (FreeBusy.mkFreeBusyQueryResponse
           {[ "cal1"%string := FreeBusy.mkFreeBusyInfo "cal1" [] [] ]}
           "2024-01-15T09:00:00Z" "2024-01-15T09:00:00Z").
Proof.
  destruct (window_queries_pass_their_own_validation
              (Client.NewClient (Some Examples.nothingBooked) "cal1")
              Examples.nothingBooked ["cal1"%string]
              (GoTime.Add (Examples.at_ 9 0) (GoTime.Second / 2)) (Examples.at_ 9 0))
    as (_ & _ & Hasked).
  - reflexivity.
  - intros H. discriminate H.
  - vm_compute. repeat split; try discriminate; reflexivity.
  - vm_compute. repeat split; try discriminate; reflexivity.
  - rewrite Hasked by (vm_compute; discriminate). vm_compute. reflexivity.
Defined.

(** X24.  What the availability functions make of a calendar the remote
    cannot serve, for a window that passes the validation.  When the
    answer has no entry for the calendar, IsBusy, CheckConflicts and
    FindFreeSlots all return NOT_FOUND.  When the answer has an entry that
    carries errors and no busy period, the errors are not looked at: IsBusy
    says not busy, CheckConflicts reports no conflict, and FindFreeSlots
    offers every slot of the window. *)
Theorem availability_ignores_the_errors_of_a_calendar :
  forall (c : Client.Client) (service : GCal.Service) (calendarID : string)
         (start end_ : GoTime.Time) (calendars : gmap string GCal.FreeBusyCalendar),
    Client.Service c = Some service ->
    Measures.printable start ->
    Measures.printable end_ ->
    GoTime.unixSec start <= GoTime.unixSec end_ ->
    GCal.FreebusyQuery service
      {| GCal.TimeMin := GoTime.FormatRFC3339 start;
         GCal.TimeMax := GoTime.FormatRFC3339 end_;
         GCal.TimeZone := "";
         GCal.Items := [calendarID] |} = inl calendars ->
    (calendars !! calendarID = None ->
     FreeBusy.IsBusy c calendarID start end_
       = (false, Some (Types.ErrNotFound "calendar" calendarID))
     /\ FreeBusy.CheckConflicts c calendarID start end_
        = (false, [], Some (Types.ErrNotFound "calendar" calendarID))
     /\ forall fuel d,
          FreeBusy.FindFreeSlots fuel c calendarID start end_ d
          = Some ([], Some (Types.ErrNotFound "calendar" calendarID)))
    /\ (forall errors,
           calendars !! calendarID = Some (GCal.mkFreeBusyCalendar [] errors) ->
           FreeBusy.IsBusy c calendarID start end_ = (false, None)
           /\ FreeBusy.CheckConflicts c calendarID start end_ = (false, [], None)
           /\ forall fuel d,
                0 < d ->
                (FreeBusy.slotCount start end_ d < fuel)%nat ->
                FreeBusy.FindFreeSlots fuel c calendarID start end_ d
                = Some (FreeBusy.strides start d (FreeBusy.slotCount start end_ d), None)).
Proof.
  intros c service calendarID start end_ calendars Hservice Hstart Hend Horder Hanswer.
  destruct (window_queries_pass_their_own_validation c service [calendarID] start end_
              Hservice ltac:(discriminate) Hstart Hend) as (_ & _ & Hasked).
  specialize (Hasked Horder). rewrite Hanswer in Hasked.
  split.
  - intros Hmissing.
    assert (Hlookup : map_imap (fun calID calInfo =>
                                  Some (FreeBusy.convertCalendar calID calInfo))
                               calendars !! calendarID = None)
      by (rewrite map_lookup_imap, Hmissing; reflexivity).
    unfold FreeBusy.IsBusy, FreeBusy.CheckConflicts, FreeBusy.FindFreeSlots.
    rewrite Hasked. cbn [FreeBusy.Calendars]. rewrite Hlookup. auto.
  - intros errors Hentry.
    assert (Hlookup : map_imap (fun calID calInfo =>
                                  Some (FreeBusy.convertCalendar calID calInfo))
                               calendars !! calendarID
                      = Some (FreeBusy.convertCalendar calendarID
                                (GCal.mkFreeBusyCalendar [] errors)))
      by (rewrite map_lookup_imap, Hentry; reflexivity).
    unfold FreeBusy.IsBusy, FreeBusy.CheckConflicts, FreeBusy.FindFreeSlots.
    rewrite Hasked. cbn [FreeBusy.Calendars]. rewrite Hlookup.
    cbn [FreeBusy.convertCalendar FreeBusy.Busy GCal.Busy map List.filter length Nat.ltb
         Nat.leb].
    split; [reflexivity|]. split; [reflexivity|].
    intros fuel d Hd Hfuel.
    rewrite (slotLoop_positive [] end_ d Hd (FreeBusy.slotCount start end_ d))
      by (try reflexivity; exact Hfuel).
    now rewrite filter_all_free.
Qed.

(** The calendar the remote does not know, asked about as one of three. *)
Lemma availability_ignores_witness :
  FreeBusy.IsBusy (Client.NewClient (Some MoreExamples.threeCalendars) "work") "gone"
    (Examples.at_ 9 0) (Examples.at_ 12 0) = (false, None)
  /\ FreeBusy.CheckConflicts (Client.NewClient (Some MoreExamples.threeCalendars) "work")
       "gone" (Examples.at_ 9 0) (Examples.at_ 12 0) = (false, [], None)
  /\ forall fuel d,
       0 < d ->
       (FreeBusy.slotCount (Examples.at_ 9 0) (Examples.at_ 12 0) d < fuel)%nat ->
       FreeBusy.FindFreeSlots fuel (Client.NewClient (Some MoreExamples.threeCalendars) "work")
         "gone" (Examples.at_ 9 0) (Examples.at_ 12 0) d
       = Some (FreeBusy.strides (Examples.at_ 9 0) d
                 (FreeBusy.slotCount (Examples.at_ 9 0) (Examples.at_ 12 0) d), None).
Proof.
  refine (proj2 (availability_ignores_the_errors_of_a_calendar
                   (Client.NewClient (Some MoreExamples.threeCalendars) "work")
                   MoreExamples.threeCalendars "gone" (Examples.at_ 9 0) (Examples.at_ 12 0)
                   _ eq_refl _ _ _ eq_refl) [("global", "notFound")]%string _).
  - vm_compute. repeat split; try discriminate; reflexivity.
  - vm_compute. repeat split; try discriminate; reflexivity.
  - vm_compute. discriminate.
  - vm_compute. reflexivity.
Defined.

(** ** Reading a date whatever its case and the blanks around it *)

Section NormaliseFacts.

Import GoStrings.
Local Open Scope string_scope.

Lemma isSpace_lowerChar (c : ascii) : isSpace (lowerChar c) = isSpace c.
Proof. destruct c as [[] [] [] [] [] [] [] []]; reflexivity. Qed.

Lemma ToLower_trimLeft (s : string) : ToLower (trimLeft s) = trimLeft (ToLower s).
Proof.
  induction s as [|c r IH]; [reflexivity|]. cbn [trimLeft ToLower].
  rewrite isSpace_lowerChar. destruct (isSpace c); [exact IH|reflexivity].
Qed.

Lemma ToLower_rev_append (s acc : string) :
  ToLower (rev_append s acc) = rev_append (ToLower s) (ToLower acc).
Proof.
  revert acc. induction s as [|c r IH]; intros acc; [reflexivity|].
  cbn [rev_append ToLower]. now rewrite IH.
Qed.

Lemma ToLower_TrimSpace (s : string) : ToLower (TrimSpace s) = TrimSpace (ToLower s).
Proof.
  unfold TrimSpace, rev.
  now rewrite ToLower_rev_append, ToLower_trimLeft, ToLower_rev_append, ToLower_trimLeft.
Qed.

Lemma rev_append_app (s t acc : string) :
  rev_append (s ++ t) acc = rev_append t (rev_append s acc).
Proof.
  revert acc. induction s as [|c r IH]; intros acc; [reflexivity|].
  change (String c r ++ t) with (String c (r ++ t)). cbn [rev_append]. apply IH.
Qed.

Lemma rev_append_acc (s acc : string) : rev_append s acc = rev_append s "" ++ acc.
Proof.
  revert acc. induction s as [|c r IH]; intros acc; [reflexivity|].
  cbn [rev_append]. rewrite (IH (String c acc)), (IH (String c "")).
  generalize (rev_append r ""). intros t. induction t as [|x t IHt]; [reflexivity|].
  change (String x t ++ String c acc) with (String x (t ++ String c acc)).
  change (String x t ++ String c "") with (String x (t ++ String c "")).
  change (String x (t ++ String c "") ++ acc) with (String x ((t ++ String c "") ++ acc)).
  now rewrite IHt.
Qed.

Lemma blank_rev_append (s acc : string) :
  Measures.blank s = true -> Measures.blank acc = true ->
  Measures.blank (rev_append s acc) = true.
Proof.
  revert acc. induction s as [|c r IH]; intros acc Hs Hacc; [exact Hacc|].
  cbn [Measures.blank] in Hs. apply andb_true_iff in Hs as [Hc Hr].
  cbn [rev_append]. apply IH; [exact Hr|]. cbn [Measures.blank]. now rewrite Hc.
Qed.

Lemma trimLeft_blank_app (w s : string) :
  Measures.blank w = true -> trimLeft (w ++ s) = trimLeft s.
Proof.
  induction w as [|c r IH]; intros Hw; [reflexivity|].
  cbn [Measures.blank] in Hw. apply andb_true_iff in Hw as [Hc Hr].
  change (String c r ++ s) with (String c (r ++ s)). cbn [trimLeft].
  rewrite Hc. now apply IH.
Qed.

Lemma trimLeft_blank (w : string) : Measures.blank w = true -> trimLeft w = "".
Proof.
  induction w as [|c r IH]; intros Hw; [reflexivity|].
  cbn [Measures.blank] in Hw. apply andb_true_iff in Hw as [Hc Hr].
  cbn [trimLeft]. rewrite Hc. now apply IH.
Qed.

(** Blanks after a text are gone once its reverse is trimmed. *)
Lemma trimLeft_rev_blank (s w : string) :
  Measures.blank w = true ->
  trimLeft (rev (trimLeft (s ++ w))) = trimLeft (rev (trimLeft s)).
Proof.
  intros Hw. induction s as [|c r IH].
  - change ("" ++ w) with w. now rewrite (trimLeft_blank w Hw).
  - change (String c r ++ w) with (String c (r ++ w)). cbn [trimLeft].
    destruct (isSpace c); [exact IH|].
    change (String c (r ++ w)) with (String c r ++ w).
    unfold rev. rewrite rev_append_app, rev_append_acc.
    apply trimLeft_blank_app. now apply blank_rev_append.
Qed.

Lemma TrimSpace_blanks (before s after : string) :
  Measures.blank before = true -> Measures.blank after = true ->
  TrimSpace (before ++ s ++ after) = TrimSpace s.
Proof.
  intros Hb Ha. unfold TrimSpace.
  now rewrite trimLeft_blank_app, trimLeft_rev_blank.
Qed.

(** What both functions read of their input. *)
Lemma normalised_same (before written after input : string) :
  Measures.blank before = true -> Measures.blank after = true ->
  ToLower written = ToLower input ->
  ToLower (TrimSpace (before ++ written ++ after)) = ToLower (TrimSpace input).
Proof.
  intros Hb Ha Hcase. now rewrite TrimSpace_blanks, !ToLower_TrimSpace, Hcase.
Qed.

End NormaliseFacts.

(** X25.  ParseNaturalLanguageDate and IsNaturalLanguageDate look at
    their input only after trimming and lowering it: white space before and
    after the text and the case of its letters change neither the date
    read, nor the error reported, nor the recognition. *)
Theorem ParseNaturalLanguageDate_ignores_case_and_outer_blanks :
  forall (amb : NLP.Ambient) (timezone : option GoTime.Location)
         (before written after input : string),
    Measures.blank before = true ->
    Measures.blank after = true ->
    GoStrings.ToLower written = GoStrings.ToLower input ->
    NLP.ParseNaturalLanguageDate amb (before ++ written ++ after) timezone
      = NLP.ParseNaturalLanguageDate amb input timezone
    /\ Recognise.IsNaturalLanguageDate (before ++ written ++ after)
       = Recognise.IsNaturalLanguageDate input.
Proof.
  intros amb timezone before written after input Hb Ha Hcase.
  pose proof (normalised_same before written after input Hb Ha Hcase) as Hsame.
  split.
  - unfold NLP.ParseNaturalLanguageDate. now rewrite Hsame.
  - unfold Recognise.IsNaturalLanguageDate. now rewrite Hsame.
Qed.

(** A title-cased date between a tab and a line end. *)
Lemma ParseNaturalLanguageDate_ignores_witness :
  NLP.ParseNaturalLanguageDate (NLP.mkAmbient Examples.mondayMorning GoTime.UTC)
    (String "009" " " ++ "Tomorrow AT 2PM" ++ String "010" "") None
  = NLP.ParseNaturalLanguageDate (NLP.mkAmbient Examples.mondayMorning GoTime.UTC)
      "tomorrow at 2pm" None
  /\ Recognise.IsNaturalLanguageDate (String "009" " " ++ "Tomorrow AT 2PM" ++ String "010" "")
     = Recognise.IsNaturalLanguageDate "tomorrow at 2pm".
Proof.
  apply (ParseNaturalLanguageDate_ignores_case_and_outer_blanks
           (NLP.mkAmbient Examples.mondayMorning GoTime.UTC) None
           (String "009" " ") "Tomorrow AT 2PM" (String "010" "") "tomorrow at 2pm");
    reflexivity.
Defined.
